(** * TwoCivSim: the simulation engine of [sim.py], embedded and verified

    The development follows the source file top to bottom: the constants,
    the class [Civilization] with its methods, and [run_simulation].

    Numbers.  Every numeric attribute of the program is a Python [float]
    (or an [int] that is only ever mixed with floats).  In the main model
    they are idealised as real numbers, which is also the type the
    specification gives them: rounding, overflow to infinity and NaN are
    outside that model.  What Python does differently from real arithmetic
    is written out: a division whose divisor is computed from the state
    raises [ZeroDivisionError] on a zero divisor ([truediv]; a divisor that
    is a literal or one of the non-zero module constants cannot), and
    [x ** 1.5] is a complex number for a negative base ([float_pow]).

    Overflow.  Growth in the program is unbounded, and nothing in it looks
    at whether a value is still finite.  The module [Binary64] therefore
    gives the constructor and the four methods of the internal phase a
    second time, over the binary64 floats of the machine, where every
    operation rounds and overflows as Python's does.  It is used where
    the two models part: the invariant of the living and the monotonicity
    of [tech_level] hold over the reals and are lost in binary64 once a
    value has overflowed.

    Output.  Every [print] of the source appends one [Event] to a log.

    Randomness.  The module level generator of [random] is an explicit
    state [RNG] threaded through [run_simulation]: a sequence of values of
    [random.random()] and a cursor.

    Objects.  [run_simulation] is modelled for two distinct objects
    [civ1] and [civ2]. *)

From Stdlib Require Import Reals Lra Lia String List ZArith Bool Relations.
From Corelib Require PrimFloat.
Import ListNotations.
Open Scope R_scope.

(** ** Python arithmetic on reals *)

Definition Rltb (x y : R) : bool := if Rlt_dec x y then true else false.
Definition Rleb (x y : R) : bool := if Rle_dec x y then true else false.

Declare Scope py_scope.
Delimit Scope py_scope with py.
Notation "x <? y" := (Rltb x y) : py_scope.
Notation "x <=? y" := (Rleb x y) : py_scope.
Notation "x >? y" := (Rltb y x) (at level 70) : py_scope.
Open Scope py_scope.

Inductive exn : Type :=
| ZeroDivisionError
| TypeError.

Inductive result (A : Type) : Type :=
| Ok (a : A)
| Raise (e : exn).
Arguments Ok {A} a.
Arguments Raise {A} e.

Definition bind {A B : Type} (m : result A) (k : A -> result B) : result B :=
  match m with
  | Ok a => k a
  | Raise e => Raise e
  end.

Notation "x <- m ;; k" := (bind m (fun x => k))
  (at level 61, m at next level, right associativity) : py_scope.
Notation "' p <- m ;; k" := (bind m (fun x => match x with p => k end))
  (at level 61, p pattern, m at next level, right associativity) : py_scope.

(** [x / y] for a divisor computed from the state. *)
Definition truediv (x y : R) : result R :=
  if Req_dec_T y 0 then Raise ZeroDivisionError else Ok (x / y).

(** The value of an arithmetic expression: a float, or a complex number
    (of which the model keeps no more than that it is one). *)
Inductive number : Type :=
| Float (r : R)
| Complex.

(** [x ** y] for a float [x] and a positive exponent [y] that is not an
    integer, as [TECH_COMBAT_FACTOR] is: [0.0 ** y] is [0.0], and a
    negative base gives a complex number. *)
Definition float_pow (x y : R) : number :=
  if Rlt_dec 0 x then Float (Rpower x y)
  else if Rlt_dec x 0 then Complex
  else Float 0.

(** [p * n] for a float [p]. *)
Definition float_mul (p : R) (n : number) : number :=
  match n with
  | Float r => Float (p * r)
  | Complex => Complex
  end.

(** ** Simulation constants *)

Definition INITIAL_POPULATION : R := 1000.
Definition INITIAL_RESOURCES : R := 500.
Definition INITIAL_TECH_LEVEL : R := 1.0.

Definition POP_GROWTH_RATE_BASE : R := 0.01.
Definition RESOURCE_GATHER_BASE : R := 0.5.
Definition TECH_IMPROVEMENT_BASE : R := 0.01.

Definition CONFLICT_THRESHOLD_AGG : R := 6.0.
Definition COOPERATION_THRESHOLD_COOP : R := 12.0.
Definition STRENGTH_DIFF_AGG_MOD : R := 1.5.

Definition POP_RESOURCE_COST : R := 0.1.
Definition TECH_RESOURCE_COST : R := 50.

Definition STRENGTH_ADVANTAGE_FACTOR : R := 1.2.
Definition COMBAT_LOSS_BASE : R := 0.1.
Definition TECH_COMBAT_FACTOR : R := 1.5.

Definition COOP_RESOURCE_BONUS : R := 0.05.
Definition COOP_TECH_BONUS : R := 0.02.

(** ** The class [Civilization] *)

Record Civilization : Type := mkCivilization {
  name : string;
  intelligence : R;
  tech_rate : R;
  aggressiveness : R;
  cooperation : R;
  population : R;
  resources : R;
  tech_level : R;
  is_alive : bool
}.

Definition set_population (c : Civilization) (v : R) : Civilization :=
  mkCivilization (name c) (intelligence c) (tech_rate c) (aggressiveness c)
    (cooperation c) v (resources c) (tech_level c) (is_alive c).

Definition set_resources (c : Civilization) (v : R) : Civilization :=
  mkCivilization (name c) (intelligence c) (tech_rate c) (aggressiveness c)
    (cooperation c) (population c) v (tech_level c) (is_alive c).

Definition set_tech_level (c : Civilization) (v : R) : Civilization :=
  mkCivilization (name c) (intelligence c) (tech_rate c) (aggressiveness c)
    (cooperation c) (population c) (resources c) v (is_alive c).

(** What the program prints, one constructor per [print]. *)
Inductive Event : Type :=
| Shortage (who : string) (pop_loss : R)
| Eliminated (who : string) (reason : string)
| StatusEliminated (who : string)
| StatusAlive (who : string) (pop res tech : R) (str : number)
| SimulationStart
| Separator
| TurnHeader (turn : Z)
| EndedEliminated
| EndedTurnLimit (num_turns : Z)
| Conflict (who1 who2 : string)
| Attack (attacker : string) (s_attacker : number)
         (defender : string) (s_defender : number)
| CombatOutcome (attacker : string) (attacker_pop_loss attacker_res_loss : R)
                (defender : string) (defender_pop_loss defender_res_loss : R)
| Cooperation (who1 who2 : string)
| CooperationOutcome (who1 : string) (res_bonus1 tech_bonus1 : R)
                     (who2 : string) (res_bonus2 tech_bonus2 : R)
| NoInteraction.

(** [Civilization.__init__] *)
Definition init (name : string)
    (intelligence tech_rate aggressiveness cooperation : R) : Civilization :=
  {| name := name;
     intelligence := Rmax 1 intelligence;
     tech_rate := Rmax 0.1 tech_rate;
     aggressiveness := Rmax 0 aggressiveness;
     cooperation := Rmax 0 cooperation;
     population := INITIAL_POPULATION;
     resources := INITIAL_RESOURCES;
     tech_level := INITIAL_TECH_LEVEL;
     is_alive := true |}.

Definition calculate_strength (self : Civilization) : number :=
  if negb (is_alive self) then Float 0
  else float_mul (population self) (float_pow (tech_level self) TECH_COMBAT_FACTOR).

Definition gather_resources (self : Civilization) : Civilization :=
  if negb (is_alive self) then self
  else
    let gathered :=
      population self * RESOURCE_GATHER_BASE * (1 + tech_level self / 10.0) in
    set_resources self (resources self + gathered).

Definition die (self : Civilization) (reason : string)
  : Civilization * list Event :=
  ({| name := name self;
      intelligence := intelligence self;
      tech_rate := tech_rate self;
      aggressiveness := aggressiveness self;
      cooperation := cooperation self;
      population := 0;
      resources := 0;
      tech_level := 0;
      is_alive := false |},
   [Eliminated (name self) reason]).

Definition consume_resources (self : Civilization)
  : Civilization * list Event :=
  if negb (is_alive self) then (self, [])
  else
    let consumed := population self * POP_RESOURCE_COST in
    let self1 := set_resources self (resources self - consumed) in
    if resources self1 <? 0 then
      let deficit := Rabs (resources self1) in
      let pop_loss :=
        Rmin (population self1) (deficit / POP_RESOURCE_COST * 1.5) in
      let self2 := set_population self1 (population self1 - pop_loss) in
      let self3 := set_resources self2 0 in
      if population self3 <=? 0 then
        let (self4, out) := die self3 "starvation due to resource depletion" in
        (self4, Shortage (name self) pop_loss :: out)
      else (self3, [Shortage (name self) pop_loss])
    else (self1, []).

Definition grow_population (self : Civilization) : result Civilization :=
  if negb (is_alive self) || (resources self <=? 0) then Ok self
  else
    q <- truediv (resources self)
                 (population self * POP_RESOURCE_COST * 5 + 1) ;;
    let resource_factor := Rmax 0 (1 + q) in
    let growth :=
      population self * POP_GROWTH_RATE_BASE * resource_factor
      * (1 + cooperation self / 20.0) in
    Ok (set_population self (population self + growth)).

Definition develop_technology (self : Civilization) : result Civilization :=
  if negb (is_alive self) || (resources self <? TECH_RESOURCE_COST) then Ok self
  else
    let tech_points_potential :=
      intelligence self * tech_rate self * TECH_IMPROVEMENT_BASE
      * (population self / 1000.0) in
    tech_points_potential <-
      truediv tech_points_potential (1 + tech_level self * 0.1) ;;
    let resources_to_spend :=
      Rmin (resources self) (tech_points_potential * TECH_RESOURCE_COST) in
    let tech_points_gained := resources_to_spend / TECH_RESOURCE_COST in
    let self1 := set_resources self (resources self - resources_to_spend) in
    Ok (set_tech_level self1 (tech_level self1 + tech_points_gained)).

Definition display_status (self : Civilization) : list Event :=
  if negb (is_alive self) then [StatusEliminated (name self)]
  else [StatusAlive (name self) (population self) (resources self)
          (tech_level self) (calculate_strength self)].

(** ** The generator of the [random] module *)

Record RNG : Type := mkRNG {
  stream : nat -> R;
  cursor : nat
}.

(** [random.random()] *)
Definition random (g : RNG) : R * RNG :=
  (stream g (cursor g), mkRNG (stream g) (S (cursor g))).

(** [random.uniform(a, b)], which is [a + (b - a) * random()]. *)
Definition uniform (a b : R) (g : RNG) : R * RNG :=
  let (r, g') := random g in (a + (b - a) * r, g').

(** [random.sample([x, y], 2)]: one of the two orders, decided by one
    step of the generator. *)
Definition sample2 {A : Type} (x y : A) (g : RNG) : (A * A) * RNG :=
  let (r, g') := random g in
  ((if r <? 0.5 then (x, y) else (y, x)), g').

(** ** [run_simulation] *)

Record World : Type := mkWorld {
  civ1 : Civilization;
  civ2 : Civilization
}.

Inductive side : Type := First | Second.

Definition other (s : side) : side :=
  match s with First => Second | Second => First end.

Definition get (s : side) (w : World) : Civilization :=
  match s with First => civ1 w | Second => civ2 w end.

Definition set (s : side) (c : Civilization) (w : World) : World :=
  match s with
  | First => mkWorld c (civ2 w)
  | Second => mkWorld (civ1 w) c
  end.

(** The body of [for civ in [civ1, civ2]], lines 138-143. *)
Definition internal_phase_civ (civ : Civilization)
  : result (Civilization * list Event) :=
  if is_alive civ then
    let civ := gather_resources civ in
    let (civ, out) := consume_resources civ in
    if is_alive civ then
      civ <- grow_population civ ;;
      civ <- develop_technology civ ;;
      Ok (civ, out)
    else Ok (civ, out)
  else Ok (civ, []).

Definition internal_phase (w : World) : result (World * list Event) :=
  '(c1, out1) <- internal_phase_civ (civ1 w) ;;
  '(c2, out2) <- internal_phase_civ (civ2 w) ;;
  Ok (mkWorld c1 c2, out1 ++ out2).

(** Lines 160-170: the stronger side, if any, and the strength ratio. *)
Definition relative_strength (strength1 strength2 : R)
  : result (option side * R) :=
  if (strength1 >? strength2) && (strength2 >? 0) then
    strength_ratio <- truediv strength1 strength2 ;;
    Ok (Some First, strength_ratio)
  else if (strength2 >? strength1) && (strength1 >? 0) then
    strength_ratio <- truediv strength2 strength1 ;;
    Ok (Some Second, strength_ratio)
  else Ok (None, 1.0).

(** Lines 174-180: [will_fight]. *)
Definition conflict_check (g : RNG) (w : World)
    (stronger : option side) (strength_ratio : R) : bool * RNG :=
  let combined_agg := aggressiveness (civ1 w) + aggressiveness (civ2 w) in
  let (u, g) := uniform 0.8 1.2 g in
  if combined_agg >? CONFLICT_THRESHOLD_AGG * u then (true, g)
  else
    match stronger with
    | Some s =>
        let stronger_civ := get s w in
        let weaker_civ := get (other s) w in
        if (aggressiveness stronger_civ >? aggressiveness weaker_civ + 3)
           && (strength_ratio >? STRENGTH_DIFF_AGG_MOD)
        then
          let (r, g) := random g in
          if r <? aggressiveness stronger_civ / 10.0 then (true, g)
          else (false, g)
        else (false, g)
    | None => (false, g)
    end.

(** Lines 187-194: which side attacks. *)
Definition choose_attacker (g : RNG) (w : World) : side * RNG :=
  if aggressiveness (civ1 w) >? aggressiveness (civ2 w) then (First, g)
  else if aggressiveness (civ2 w) >? aggressiveness (civ1 w) then (Second, g)
  else let (p, g) := sample2 First Second g in (fst p, g).

Record Losses : Type := mkLosses {
  attacker_pop_loss : R;
  attacker_res_loss : R;
  defender_pop_loss : R;
  defender_res_loss : R
}.

(** Lines 204-219: the four losses, capped. *)
Definition combat_losses (attacker defender : Civilization)
    (s_attacker s_defender : R) (g : RNG) : result (Losses * RNG) :=
  q <- truediv s_attacker (s_defender + 1) ;;
  defender_effective_strength <- truediv s_defender (1 + Rmax 0 (q - 1)) ;;
  qa <- truediv defender_effective_strength (s_attacker + 1) ;;
  let (ua, g) := uniform 0.7 1.3 g in
  let attacker_loss_mult := COMBAT_LOSS_BASE * (1 + qa) * ua in
  qd <- truediv s_attacker (defender_effective_strength + 1) ;;
  let (ud, g) := uniform 0.7 1.3 g in
  let defender_loss_mult := COMBAT_LOSS_BASE * (1 + qd) * ud in
  ia <- truediv 1 (1 + tech_level attacker * 0.1) ;;
  let attacker_pop_loss := population attacker * attacker_loss_mult * ia in
  let attacker_res_loss :=
    resources attacker * attacker_loss_mult
    * (1 + tech_level attacker * 0.1) in
  id <- truediv 1 (1 + tech_level defender * 0.1) ;;
  let defender_pop_loss := population defender * defender_loss_mult * id in
  let defender_res_loss :=
    resources defender * defender_loss_mult
    * (1 + tech_level defender * 0.1) in
  Ok ({| attacker_pop_loss := Rmin (population attacker * 0.9) attacker_pop_loss;
         attacker_res_loss := Rmin (resources attacker * 0.9) attacker_res_loss;
         defender_pop_loss := Rmin (population defender * 0.9) defender_pop_loss;
         defender_res_loss := Rmin (resources defender * 0.9) defender_res_loss |},
      g).

(** Lines 221-224 for one side. *)
Definition apply_losses (civ : Civilization) (pop_loss res_loss : R)
  : Civilization :=
  set_resources (set_population civ (population civ - pop_loss))
                (resources civ - res_loss).

(** Lines 230 and 231 for one side. *)
Definition elimination_check (civ : Civilization)
  : Civilization * list Event :=
  if (population civ <=? 1) || (resources civ <? 0)
  then die civ "combat losses"
  else (civ, []).

(** Lines 183-231. *)
Definition conflict (g : RNG) (w : World)
  : result (World * RNG * list Event) :=
  let (a, g) := choose_attacker g w in
  let attacker := get a w in
  let defender := get (other a) w in
  match calculate_strength attacker, calculate_strength defender with
  | Float s_attacker, Float s_defender =>
      '(l, g) <- combat_losses attacker defender s_attacker s_defender g ;;
      let attacker1 :=
        apply_losses attacker (attacker_pop_loss l) (attacker_res_loss l) in
      let defender1 :=
        apply_losses defender (defender_pop_loss l) (defender_res_loss l) in
      let (attacker2, out_a) := elimination_check attacker1 in
      let (defender2, out_d) := elimination_check defender1 in
      Ok (set (other a) defender2 (set a attacker2 w), g,
          [Conflict (name (civ1 w)) (name (civ2 w));
           Attack (name attacker) (Float s_attacker)
                  (name defender) (Float s_defender);
           CombatOutcome (name attacker)
                         (attacker_pop_loss l) (attacker_res_loss l)
                         (name defender)
                         (defender_pop_loss l) (defender_res_loss l)]
          ++ out_a ++ out_d)
  | _, _ => Raise TypeError
  end.

(** Lines 236-251. *)
Definition cooperate (w : World) : World * list Event :=
  let c1 := civ1 w in
  let c2 := civ2 w in
  let res_bonus1 :=
    resources c1 * COOP_RESOURCE_BONUS * (cooperation c2 / 10.0) in
  let res_bonus2 :=
    resources c2 * COOP_RESOURCE_BONUS * (cooperation c1 / 10.0) in
  let tech_bonus1 := COOP_TECH_BONUS * (intelligence c2 / 5.0) in
  let tech_bonus2 := COOP_TECH_BONUS * (intelligence c1 / 5.0) in
  let c1' :=
    set_tech_level (set_resources c1 (resources c1 + res_bonus1))
                   (tech_level c1 + tech_bonus1) in
  let c2' :=
    set_tech_level (set_resources c2 (resources c2 + res_bonus2))
                   (tech_level c2 + tech_bonus2) in
  (mkWorld c1' c2',
   [Cooperation (name c1) (name c2);
    CooperationOutcome (name c1) res_bonus1 tech_bonus1
                       (name c2) res_bonus2 tech_bonus2]).

(** Lines 153-255: the interaction phase of one turn. *)
Definition interaction_phase (g : RNG) (w : World)
  : result (World * RNG * list Event) :=
  match calculate_strength (civ1 w), calculate_strength (civ2 w) with
  | Float strength1, Float strength2 =>
      let combined_coop := cooperation (civ1 w) + cooperation (civ2 w) in
      '(stronger, strength_ratio) <- relative_strength strength1 strength2 ;;
      let (will_fight, g) := conflict_check g w stronger strength_ratio in
      if will_fight then conflict g w
      else
        let (u, g) := uniform 0.8 1.2 g in
        if combined_coop >? COOPERATION_THRESHOLD_COOP * u then
          let (w', out) := cooperate w in Ok (w', g, out)
        else Ok (w, g, [NoInteraction])
  | _, _ => Raise TypeError
  end.

Inductive control : Type := Continue | Break.

(** One iteration of [for turn in range(1, num_turns + 1)]. *)
Definition turn_body (num_turns turn : Z) (g : RNG) (w : World)
  : result (World * RNG * list Event * control) :=
  '(w, out_i) <- internal_phase w ;;
  if negb (is_alive (civ1 w)) || negb (is_alive (civ2 w)) then
    Ok (w, g,
        TurnHeader turn :: out_i
        ++ display_status (civ1 w) ++ display_status (civ2 w)
        ++ [EndedEliminated],
        Break)
  else
    '(w, g, out_x) <- interaction_phase g w ;;
    let out :=
      TurnHeader turn :: out_i ++ out_x
      ++ display_status (civ1 w) ++ display_status (civ2 w) in
    if negb (is_alive (civ1 w)) || negb (is_alive (civ2 w)) then
      Ok (w, g, out ++ [EndedEliminated], Break)
    else if (turn =? num_turns)%Z then
      Ok (w, g, out ++ [EndedTurnLimit num_turns], Break)
    else Ok (w, g, out, Continue).

(** The loop, for the [n] values of [turn] that [range] has left. *)
Fixpoint for_turns (n : nat) (num_turns turn : Z) (g : RNG) (w : World)
  : result (World * RNG * list Event) :=
  match n with
  | O => Ok (w, g, [])
  | S n' =>
      '(w, g, out, ctl) <- turn_body num_turns turn g w ;;
      match ctl with
      | Break => Ok (w, g, out)
      | Continue =>
          '(w, g, out') <- for_turns n' num_turns (turn + 1) g w ;;
          Ok (w, g, out ++ out')
      end
  end.

Definition run_simulation (civ1 civ2 : Civilization) (num_turns : Z) (g : RNG)
  : result (World * RNG * list Event) :=
  let start :=
    SimulationStart :: display_status civ1 ++ display_status civ2
    ++ [Separator] in
  '(w, g, out) <-
    for_turns (Z.to_nat num_turns) num_turns 1 g (mkWorld civ1 civ2) ;;
  Ok (w, g, start ++ out).

(** ** Reachable states

    A client reaches a state by constructing two civilizations, calling
    their methods, and letting [run_simulation] interact them. *)

Inductive method : Type :=
| Gather
| Consume
| Grow
| Develop
| Die (reason : string).

Definition call (m : method) (c : Civilization)
  : result (Civilization * list Event) :=
  match m with
  | Gather => Ok (gather_resources c, [])
  | Consume => Ok (consume_resources c)
  | Grow => c' <- grow_population c ;; Ok (c', [])
  | Develop => c' <- develop_technology c ;; Ok (c', [])
  | Die reason => Ok (die c reason)
  end.

(** A sequence of method calls on one object. *)
Fixpoint call_all (ms : list method) (c : Civilization)
  : result (Civilization * list Event) :=
  match ms with
  | [] => Ok (c, [])
  | m :: ms' =>
      '(c1, out1) <- call m c ;;
      '(c2, out2) <- call_all ms' c1 ;;
      Ok (c2, out1 ++ out2)
  end.

(** [random.random()] lies in the half-open unit interval. *)
Definition valid_rng (g : RNG) : Prop :=
  forall n, 0 <= stream g n < 1.

Definition both_alive (w : World) : Prop :=
  is_alive (civ1 w) = true /\ is_alive (civ2 w) = true.

(** One operation: a method call on either object, or the interaction
    phase, which the loop enters only with both alive. *)
Inductive step : World -> World -> Prop :=
| step_call s m w c out :
    call m (get s w) = Ok (c, out) ->
    step w (set s c w)
| step_interaction g w w' g' out :
    both_alive w ->
    valid_rng g ->
    interaction_phase g w = Ok (w', g', out) ->
    step w w'.

Inductive reachable : World -> Prop :=
| reachable_init n1 i1 t1 a1 c1 n2 i2 t2 a2 c2 :
    reachable (mkWorld (init n1 i1 t1 a1 c1) (init n2 i2 t2 a2 c2))
| reachable_step w w' :
    reachable w -> step w w' -> reachable w'.

(** Any number of steps. *)
Definition steps : World -> World -> Prop := clos_refl_trans World step.

(** ** The invariant of the reachable states *)

Definition traits_ok (c : Civilization) : Prop :=
  1 <= intelligence c /\ 0.1 <= tech_rate c
  /\ 0 <= aggressiveness c /\ 0 <= cooperation c.

Definition state_ok (c : Civilization) : Prop :=
  if is_alive c
  then 0 < population c /\ 0 <= resources c /\ 1 <= tech_level c
  else population c = 0 /\ resources c = 0 /\ tech_level c = 0.

Definition civ_ok (c : Civilization) : Prop := traits_ok c /\ state_ok c.

Definition world_ok (w : World) : Prop := civ_ok (civ1 w) /\ civ_ok (civ2 w).

(** [c'] is a later state of [c] in which, if the civilization still
    lives, it lived before and its technology is no lower. *)
Definition advances (c c' : Civilization) : Prop :=
  is_alive c' = true -> is_alive c = true /\ tech_level c <= tech_level c'.

(** ** The vocabulary of the claims *)

(** The events of a conflict or of a cooperation. *)
Definition is_interaction (e : Event) : bool :=
  match e with
  | Conflict _ _ | Attack _ _ _ _ | CombatOutcome _ _ _ _ _ _
  | Cooperation _ _ | CooperationOutcome _ _ _ _ _ _ => true
  | _ => false
  end.

(** A log without any event of a conflict or of a cooperation. *)
Definition quiet (out : list Event) : Prop :=
  forall e, In e out -> is_interaction e = false.

(** Neither civilization is aggressive or cooperative at all. *)
Definition indifferent (w : World) : Prop :=
  aggressiveness (civ1 w) = 0 /\ aggressiveness (civ2 w) = 0
  /\ cooperation (civ1 w) = 0 /\ cooperation (civ2 w) = 0.

(** The combat that [conflict] resolves in [w] under [g]: the attacking
    side and the capped losses of lines 216-219. *)
Definition combat_applies (g : RNG) (w : World) (a : side) (l : Losses)
  : Prop :=
  exists g1 s_attacker s_defender g2,
    choose_attacker g w = (a, g1)
    /\ calculate_strength (get a w) = Float s_attacker
    /\ calculate_strength (get (other a) w) = Float s_defender
    /\ combat_losses (get a w) (get (other a) w) s_attacker s_defender g1
       = Ok (l, g2).

(** The losses of side [s] in a combat that side [a] started. *)
Definition pop_loss_of (a s : side) (l : Losses) : R :=
  match a, s with
  | First, First | Second, Second => attacker_pop_loss l
  | _, _ => defender_pop_loss l
  end.

Definition res_loss_of (a s : side) (l : Losses) : R :=
  match a, s with
  | First, First | Second, Second => attacker_res_loss l
  | _, _ => defender_res_loss l
  end.

(** Side [s] as it stands between line 224 and line 230. *)
Definition after_losses (w : World) (a s : side) (l : Losses) : Civilization :=
  apply_losses (get s w) (pop_loss_of a s l) (res_loss_of a s l).

(** Some combat of a reachable state leaves a side with negative resources
    at the test of line 230 or 231, so that [resources < 0] sends it into
    [die]. *)
Definition negative_resources_at_elimination_check : Prop :=
  exists w g a l s,
    reachable w /\ both_alive w /\ valid_rng g
    /\ combat_applies g w a l
    /\ (resources (after_losses w a s l) <? 0) = true.

(** Cooperation in [w] raises the resources and the technology of both
    sides strictly. *)
Definition cooperation_strictly_benefits (w : World) : Prop :=
  forall s,
    resources (get s w) < resources (get s (fst (cooperate w)))
    /\ tech_level (get s w) < tech_level (get s (fst (cooperate w))).

Definition positive_traits (c : Civilization) : Prop :=
  0 < intelligence c /\ 0 < tech_rate c
  /\ 0 < aggressiveness c /\ 0 < cooperation c.

(** Two cooperative civilizations, the first of them keen on research. *)
Definition scholars : World :=
  mkWorld (init "Aethel" 100 100 1 10) (init "Borog" 1 1 1 10).

(** The two example civilizations of the source, lines 273-288. *)
Definition civilization1 : Civilization := init "Aethel" 8 7 2 8.
Definition civilization2 : Civilization := init "Borog" 4 3 9 2.

(** ** The script, lines 270-324 *)

Definition simulation_turns : Z := 100.

(** The line that closes the final summary, lines 310-324. *)
Inductive Verdict : Type :=
| Dominant (who : string)
| RoughlyEqual
| SoleSurvivor (who : string)
| BothEliminated.

Definition final_verdict (civilization1 civilization2 : Civilization)
  : result Verdict :=
  if is_alive civilization1 && is_alive civilization2 then
    match calculate_strength civilization1,
          calculate_strength civilization2 with
    | Float s1, Float s2 =>
        if s1 >? s2 then Ok (Dominant (name civilization1))
        else if s2 >? s1 then Ok (Dominant (name civilization2))
        else Ok RoughlyEqual
    | _, _ => Raise TypeError
    end
  else if is_alive civilization1 then Ok (SoleSurvivor (name civilization1))
  else if is_alive civilization2 then Ok (SoleSurvivor (name civilization2))
  else Ok BothEliminated.

(** What the script prints: the log of the simulation, then the final
    state and the verdict. *)
Inductive ScriptEvent : Type :=
| Printed (e : Event)
| FinalState
| Summary (v : Verdict).

Definition main (g : RNG) : result (World * RNG * list ScriptEvent) :=
  '(w, g, out) <-
    run_simulation civilization1 civilization2 simulation_turns g ;;
  v <- final_verdict (civ1 w) (civ2 w) ;;
  Ok (w, g,
      map Printed out
      ++ FinalState
         :: map Printed (display_status (civ1 w) ++ display_status (civ2 w))
      ++ [Summary v]).

(** ** The vocabulary of the further properties *)

(** What construction fixes once and for all. *)
Definition traits (c : Civilization) : string * R * R * R * R :=
  (name c, intelligence c, tech_rate c, aggressiveness c, cooperation c).

(** The turn numbers that a log announces, in order. *)
Fixpoint turn_headers (out : list Event) : list Z :=
  match out with
  | [] => []
  | TurnHeader turn :: out' => turn :: turn_headers out'
  | _ :: out' => turn_headers out'
  end.

(** [first], [first + 1], ... : [k] consecutive turn numbers. *)
Fixpoint turns_from (first : Z) (k : nat) : list Z :=
  match k with
  | O => []
  | S k' => first :: turns_from (first + 1) k'
  end.

(** An event that reports no shortage and no death other than in combat. *)
Definition no_starvation (e : Event) : bool :=
  match e with
  | Shortage _ _ => false
  | Eliminated _ reason => String.eqb reason "combat losses"
  | _ => true
  end.

(** The events of a cooperation, and the report of a turn without
    interaction. *)
Definition is_peaceful (e : Event) : bool :=
  match e with
  | Cooperation _ _ | CooperationOutcome _ _ _ _ _ _ | NoInteraction => true
  | _ => false
  end.

(** The events that a conflict prints. *)
Definition conflict_event (e : Event) : bool :=
  match e with
  | Conflict _ _ | Attack _ _ _ _ | CombatOutcome _ _ _ _ _ _ => true
  | Eliminated _ reason => String.eqb reason "combat losses"
  | _ => false
  end.

(** The events that a cooperation prints. *)
Definition cooperation_event (e : Event) : bool :=
  match e with
  | Cooperation _ _ | CooperationOutcome _ _ _ _ _ _ => true
  | _ => false
  end.

Definition is_header (e : Event) : bool :=
  match e with
  | TurnHeader _ => true
  | _ => false
  end.

(** The generator after one draw. *)
Definition advance (g : RNG) : RNG := mkRNG (stream g) (S (cursor g)).

(** ** The internal phase in binary64

    The constructor and the methods that the loop calls in its internal
    phase (lines 34-47, 56-115 and 138-143), once more, with every
    attribute a binary64 float and every operation the machine's: [+],
    [-], [*] and [/] round to nearest and overflow to infinity, and a
    comparison with a NaN is false.  The [int] values of the source (1000,
    500, 50, the traits of the examples) stand as the floats they convert
    to when they first meet a float.  Printing is left out: the log is
    that of the main model.  [calculate_strength] has no counterpart here,
    since [**] is not an operation of the machine. *)

Module Binary64.

Import PrimFloat.
#[local] Set Warnings "-inexact-float".
#[local] Open Scope float_scope.

(** [max(a, b)] and [min(a, b)]: the first argument, unless the second
    compares strictly beyond it. *)
Definition py_max (a b : float) : float := if ltb a b then b else a.
Definition py_min (a b : float) : float := if ltb b a then b else a.

(** [x / y] for a divisor computed from the state. *)
Definition truediv (x y : float) : result float :=
  if eqb y 0 then Raise ZeroDivisionError else Ok (x / y).

Definition INITIAL_POPULATION : float := 1000.
Definition INITIAL_RESOURCES : float := 500.
Definition INITIAL_TECH_LEVEL : float := 1.0.

Definition POP_GROWTH_RATE_BASE : float := 0.01.
Definition RESOURCE_GATHER_BASE : float := 0.5.
Definition TECH_IMPROVEMENT_BASE : float := 0.01.

Definition POP_RESOURCE_COST : float := 0.1.
Definition TECH_RESOURCE_COST : float := 50.

Record Civilization : Type := mkCivilization {
  name : string;
  intelligence : float;
  tech_rate : float;
  aggressiveness : float;
  cooperation : float;
  population : float;
  resources : float;
  tech_level : float;
  is_alive : bool
}.

Definition set_population (c : Civilization) (v : float) : Civilization :=
  mkCivilization (name c) (intelligence c) (tech_rate c) (aggressiveness c)
    (cooperation c) v (resources c) (tech_level c) (is_alive c).

Definition set_resources (c : Civilization) (v : float) : Civilization :=
  mkCivilization (name c) (intelligence c) (tech_rate c) (aggressiveness c)
    (cooperation c) (population c) v (tech_level c) (is_alive c).

Definition set_tech_level (c : Civilization) (v : float) : Civilization :=
  mkCivilization (name c) (intelligence c) (tech_rate c) (aggressiveness c)
    (cooperation c) (population c) (resources c) v (is_alive c).

(** [Civilization.__init__] *)
Definition init (name : string)
    (intelligence tech_rate aggressiveness cooperation : float)
  : Civilization :=
  {| name := name;
     intelligence := py_max 1 intelligence;
     tech_rate := py_max 0.1 tech_rate;
     aggressiveness := py_max 0 aggressiveness;
     cooperation := py_max 0 cooperation;
     population := INITIAL_POPULATION;
     resources := INITIAL_RESOURCES;
     tech_level := INITIAL_TECH_LEVEL;
     is_alive := true |}.

Definition gather_resources (self : Civilization) : Civilization :=
  if negb (is_alive self) then self
  else
    let gathered :=
      population self * RESOURCE_GATHER_BASE * (1 + tech_level self / 10.0) in
    set_resources self (resources self + gathered).

Definition die (self : Civilization) : Civilization :=
  {| name := name self;
     intelligence := intelligence self;
     tech_rate := tech_rate self;
     aggressiveness := aggressiveness self;
     cooperation := cooperation self;
     population := 0;
     resources := 0;
     tech_level := 0;
     is_alive := false |}.

Definition consume_resources (self : Civilization) : Civilization :=
  if negb (is_alive self) then self
  else
    let consumed := population self * POP_RESOURCE_COST in
    let self1 := set_resources self (resources self - consumed) in
    if ltb (resources self1) 0 then
      let deficit := abs (resources self1) in
      let pop_loss :=
        py_min (population self1) (deficit / POP_RESOURCE_COST * 1.5) in
      let self2 := set_population self1 (population self1 - pop_loss) in
      let self3 := set_resources self2 0 in
      if leb (population self3) 0 then die self3 else self3
    else self1.

Definition grow_population (self : Civilization) : result Civilization :=
  if negb (is_alive self) || leb (resources self) 0 then Ok self
  else
    q <- truediv (resources self)
                 (population self * POP_RESOURCE_COST * 5 + 1) ;;
    let resource_factor := py_max 0 (1 + q) in
    let growth :=
      population self * POP_GROWTH_RATE_BASE * resource_factor
      * (1 + cooperation self / 20.0) in
    Ok (set_population self (population self + growth)).

Definition develop_technology (self : Civilization) : result Civilization :=
  if negb (is_alive self) || ltb (resources self) TECH_RESOURCE_COST
  then Ok self
  else
    let tech_points_potential :=
      intelligence self * tech_rate self * TECH_IMPROVEMENT_BASE
      * (population self / 1000.0) in
    tech_points_potential <-
      truediv tech_points_potential (1 + tech_level self * 0.1) ;;
    let resources_to_spend :=
      py_min (resources self) (tech_points_potential * TECH_RESOURCE_COST) in
    let tech_points_gained := resources_to_spend / TECH_RESOURCE_COST in
    let self1 := set_resources self (resources self - resources_to_spend) in
    Ok (set_tech_level self1 (tech_level self1 + tech_points_gained)).

(** Lines 138-143, for one civilization. *)
Definition internal_phase_civ (civ : Civilization) : result Civilization :=
  if is_alive civ then
    let civ := gather_resources civ in
    let civ := consume_resources civ in
    if is_alive civ then
      civ <- grow_population civ ;;
      develop_technology civ
    else Ok civ
  else Ok civ.

(** The internal phases of [n] turns.  When both civilizations have
    aggressiveness 0 and cooperation 0 the interaction phase assigns no
    attribute (the tests of lines 175, 177 and 235 fail), so this is the
    state of either of them after [n] turns of [run_simulation]; and it is
    the state after the same method calls made by any other client. *)
Fixpoint turns (n : nat) (civ : Civilization) : result Civilization :=
  match n with
  | O => Ok civ
  | S n' => civ <- internal_phase_civ civ ;; turns n' civ
  end.

(** The three tests of the invariant of the living, as Python evaluates
    them: [population > 0], [resources >= 0] and [tech_level >= 1]. *)
Definition invariant (c : Civilization) : bool :=
  ltb 0 (population c) && leb 0 (resources c) && leb 1 (tech_level c).

(** From [c] to [c'] the technology is unchanged or strictly higher:
    [c'.tech_level == c.tech_level or c'.tech_level > c.tech_level]. *)
Definition tech_level_kept_or_raised (c c' : Civilization) : bool :=
  eqb (tech_level c') (tech_level c) || ltb (tech_level c) (tech_level c').

(** The invariant holds at the end of each of the turns [first],
    [first + 1], ..., [k] of them, and the civilization is alive there. *)
Fixpoint invariant_through (k : nat) (first : nat) (civ : Civilization)
  : bool :=
  match k with
  | O => true
  | S k' =>
      match turns first civ with
      | Ok c => is_alive c && invariant c
      | Raise _ => false
      end
      && invariant_through k' (S first) civ
  end.

(** The first example civilization of the source without its
    aggressiveness and its cooperation: with a second one of the kind it
    never interacts. *)
Definition recluse : Civilization := init "Aethel" 8 7 0 0.

End Binary64.

(** * Proofs *)

(** ** Comparisons, division and power *)

Lemma Rltb_true x y : x < y -> (x <? y) = true.
Proof. intros H. unfold Rltb. destruct (Rlt_dec x y); [reflexivity | contradiction]. Qed.

Lemma Rltb_false x y : y <= x -> (x <? y) = false.
Proof. intros H. unfold Rltb. destruct (Rlt_dec x y); [lra | reflexivity]. Qed.

Lemma Rleb_true x y : x <= y -> (x <=? y) = true.
Proof. intros H. unfold Rleb. destruct (Rle_dec x y); [reflexivity | contradiction]. Qed.

Lemma Rleb_false x y : y < x -> (x <=? y) = false.
Proof. intros H. unfold Rleb. destruct (Rle_dec x y); [lra | reflexivity]. Qed.

Lemma Rltb_spec x y : BoolSpec (x < y) (y <= x) (x <? y).
Proof.
  unfold Rltb. destruct (Rlt_dec x y); constructor; lra.
Qed.

Lemma Rleb_spec x y : BoolSpec (x <= y) (y < x) (x <=? y).
Proof.
  unfold Rleb. destruct (Rle_dec x y); constructor; lra.
Qed.

Lemma truediv_ok x y : y <> 0 -> truediv x y = Ok (x / y).
Proof.
  intros H. unfold truediv. destruct (Req_dec_T y 0); [contradiction | reflexivity].
Qed.

Lemma float_pow_pos x y : 0 < x -> float_pow x y = Float (Rpower x y).
Proof.
  intros H. unfold float_pow. destruct (Rlt_dec 0 x); [reflexivity | contradiction].
Qed.

Lemma float_pow_zero y : float_pow 0 y = Float 0.
Proof.
  unfold float_pow.
  destruct (Rlt_dec 0 0); [lra |]. destruct (Rlt_dec 0 0); [lra | reflexivity].
Qed.

Lemma float_pow_neg x y : x < 0 -> float_pow x y = Complex.
Proof.
  intros H. unfold float_pow.
  destruct (Rlt_dec 0 x); [lra |]. destruct (Rlt_dec x 0); [reflexivity | lra].
Qed.

Lemma Rpower_pos x y : 0 < Rpower x y.
Proof. unfold Rpower. apply exp_pos. Qed.

Ltac unfold_constants :=
  unfold INITIAL_POPULATION, INITIAL_RESOURCES, INITIAL_TECH_LEVEL,
    POP_GROWTH_RATE_BASE, RESOURCE_GATHER_BASE, TECH_IMPROVEMENT_BASE,
    CONFLICT_THRESHOLD_AGG, COOPERATION_THRESHOLD_COOP, STRENGTH_DIFF_AGG_MOD,
    POP_RESOURCE_COST, TECH_RESOURCE_COST, COMBAT_LOSS_BASE,
    TECH_COMBAT_FACTOR, COOP_RESOURCE_BONUS, COOP_TECH_BONUS in *.

(** ** Strength *)

Lemma calculate_strength_alive c :
  is_alive c = true -> 0 < tech_level c ->
  calculate_strength c =
  Float (population c * Rpower (tech_level c) TECH_COMBAT_FACTOR).
Proof.
  intros Ha Ht. unfold calculate_strength. rewrite Ha. simpl.
  rewrite float_pow_pos by assumption. reflexivity.
Qed.

Lemma calculate_strength_dead c :
  is_alive c = false -> calculate_strength c = Float 0.
Proof. intros Ha. unfold calculate_strength. rewrite Ha. reflexivity. Qed.

Lemma strength_of_ok c :
  civ_ok c -> exists s, calculate_strength c = Float s /\ 0 <= s
                        /\ (is_alive c = true -> 0 < s).
Proof.
  intros [_ Hs]. unfold state_ok in Hs.
  destruct (is_alive c) eqn:Ha.
  - destruct Hs as (Hp & _ & Ht).
    rewrite calculate_strength_alive by (assumption || lra).
    eexists. split; [reflexivity |].
    assert (0 < population c * Rpower (tech_level c) TECH_COMBAT_FACTOR).
    { apply Rmult_lt_0_compat; [assumption | apply Rpower_pos]. }
    split; [lra | intros _; assumption].
  - rewrite calculate_strength_dead by assumption.
    exists 0. split; [reflexivity |]. split; [lra | discriminate].
Qed.

(** The example civilizations of the source at their construction. *)
Example civilization1_strength : calculate_strength civilization1 = Float 1000.
Proof.
  unfold civilization1. rewrite calculate_strength_alive.
  - simpl. unfold_constants. f_equal.
    replace 1.0 with 1 by lra.
    unfold Rpower. rewrite ln_1, Rmult_0_r, exp_0. lra.
  - reflexivity.
  - simpl. unfold_constants. lra.
Qed.

Example civilization1_gathers :
  resources (gather_resources civilization1) = 1050.
Proof. simpl. unfold_constants. lra. Qed.

Example civilization1_consumes :
  consume_resources (gather_resources civilization1)
  = (set_resources civilization1 (500 + 1000 * 0.5 * (1 + 1.0 / 10.0) - 1000 * 0.1), []).
Proof.
  unfold consume_resources. simpl. unfold_constants.
  rewrite Rltb_false by lra. reflexivity.
Qed.

Example civilization2_clamped :
  intelligence (init "Borog" 0 0 (-1) (-1)) = 1
  /\ tech_rate (init "Borog" 0 0 (-1) (-1)) = 0.1
  /\ aggressiveness (init "Borog" 0 0 (-1) (-1)) = 0
  /\ cooperation (init "Borog" 0 0 (-1) (-1)) = 0.
Proof.
  simpl. rewrite !Rmax_left by lra. auto.
Qed.

(** ** Every method preserves the invariant *)

Lemma init_ok n i t a c : civ_ok (init n i t a c).
Proof.
  unfold civ_ok, traits_ok, state_ok. simpl. unfold_constants.
  pose proof (Rmax_l 1 i). pose proof (Rmax_l 0.1 t).
  pose proof (Rmax_l 0 a). pose proof (Rmax_l 0 c). lra.
Qed.

Lemma gather_resources_ok c : civ_ok c -> civ_ok (gather_resources c).
Proof.
  intros [Ht Hs]. unfold gather_resources.
  destruct (is_alive c) eqn:Ha; simpl; [| split; assumption].
  split; [exact Ht |].
  unfold state_ok in *. simpl. rewrite Ha in *. unfold_constants.
  destruct Hs as (Hp & Hr & Hl). repeat split; try assumption. nra.
Qed.

Lemma die_ok c reason : traits_ok c -> civ_ok (fst (die c reason)).
Proof.
  intros Ht. split; [exact Ht |]. unfold state_ok. simpl. auto.
Qed.

Lemma consume_resources_ok c : civ_ok c -> civ_ok (fst (consume_resources c)).
Proof.
  intros [Ht Hs]. unfold consume_resources.
  destruct (is_alive c) eqn:Ha; simpl; [| split; assumption].
  unfold state_ok in Hs. rewrite Ha in Hs. destruct Hs as (Hp & Hr & Hl).
  destruct (Rltb_spec (resources c - population c * POP_RESOURCE_COST) 0).
  - match goal with |- context [Rleb ?a ?b] => destruct (Rleb_spec a b) end.
    + simpl. split; [exact Ht |]. unfold state_ok. simpl. auto.
    + simpl. split; [exact Ht |]. unfold state_ok. simpl. rewrite Ha.
      repeat split; try assumption; lra.
  - simpl. split; [exact Ht |]. unfold state_ok. simpl. rewrite Ha.
    repeat split; try assumption; lra.
Qed.

Lemma grow_population_ok c :
  civ_ok c -> exists c', grow_population c = Ok c' /\ civ_ok c'
                         /\ is_alive c' = is_alive c
                         /\ tech_level c' = tech_level c.
Proof.
  intros [Ht Hs]. pose proof Ht as (Hi & Hq & Hg & Hc).
  unfold grow_population.
  destruct (is_alive c) eqn:Ha; simpl; [| exists c; repeat split; auto].
  pose proof Hs as Hs'. unfold state_ok in Hs. rewrite Ha in Hs.
  destruct Hs as (Hp & Hr & Hl).
  destruct (Rleb_spec (resources c) 0).
  - exists c. repeat split; auto.
  - rewrite truediv_ok by (unfold_constants; lra). simpl.
    eexists. split; [reflexivity |]. repeat split; auto.
    unfold state_ok. simpl. rewrite Ha.
    repeat split; try assumption.
    match goal with |- context [Rmax 0 ?x] => pose proof (Rmax_l 0 x) as Hm;
      set (m := Rmax 0 x) in * end.
    unfold_constants.
    assert (0 <= population c * 0.01 * m * (1 + cooperation c / 20.0)).
    { apply Rmult_le_pos; [apply Rmult_le_pos |]; lra. }
    lra.
Qed.

(** Research spends a positive amount whenever it runs. *)
Lemma develop_technology_ok c :
  civ_ok c -> exists c', develop_technology c = Ok c' /\ civ_ok c'
                         /\ is_alive c' = is_alive c
                         /\ tech_level c <= tech_level c'.
Proof.
  intros [Ht Hs]. pose proof Ht as (Hi & Hq & Hg & Hc).
  unfold develop_technology.
  destruct (is_alive c) eqn:Ha; simpl; [| exists c; repeat split; auto; lra].
  pose proof Hs as Hs'. unfold state_ok in Hs. rewrite Ha in Hs.
  destruct Hs as (Hp & Hr & Hl).
  destruct (Rltb_spec (resources c) TECH_RESOURCE_COST).
  - exists c. repeat split; auto; lra.
  - rewrite truediv_ok by lra. simpl.
    eexists. split; [reflexivity |].
    match goal with |- context [Rmin (resources c) ?x] =>
      assert (0 <= x) as Hx; [| pose proof (Rmin_l (resources c) x) as Hm;
        assert (0 <= Rmin (resources c) x) as Hm0
          by (apply Rmin_glb; lra);
        set (m := Rmin (resources c) x) in *] end.
    { unfold_constants.
      apply Rmult_le_pos; [| lra].
      apply Rmult_le_pos; [| left; apply Rinv_0_lt_compat; lra].
      apply Rmult_le_pos; [| lra].
      apply Rmult_le_pos; [| lra].
      apply Rmult_le_pos; lra. }
    unfold_constants.
    repeat split; simpl; auto; try lra.
    unfold state_ok. simpl. rewrite Ha. repeat split; try assumption; lra.
Qed.

(** ** Combat *)

Ltac bind_inv H :=
  match type of H with
  | bind ?m _ = Ok _ =>
      let E := fresh "E" in
      destruct m eqn:E; simpl in H; [| discriminate H]
  end.

(** The four caps of lines 216-219, for whatever the losses were. *)
Lemma combat_losses_caps attacker defender s_attacker s_defender g l g' :
  combat_losses attacker defender s_attacker s_defender g = Ok (l, g') ->
  attacker_pop_loss l <= population attacker * 0.9
  /\ attacker_res_loss l <= resources attacker * 0.9
  /\ defender_pop_loss l <= population defender * 0.9
  /\ defender_res_loss l <= resources defender * 0.9.
Proof.
  intros H. unfold combat_losses in H.
  do 3 bind_inv H. simpl in H. do 3 bind_inv H.
  injection H as <- _. simpl.
  repeat split; apply Rmin_l.
Qed.

Lemma combat_losses_stream attacker defender s_attacker s_defender g l g' :
  combat_losses attacker defender s_attacker s_defender g = Ok (l, g') ->
  stream g' = stream g.
Proof.
  intros H. unfold combat_losses in H.
  do 3 bind_inv H. simpl in H. do 3 bind_inv H.
  injection H as _ <-. reflexivity.
Qed.

(** No division of the combat resolution fails on non-negative strengths
    and technology levels. *)
Lemma combat_losses_total attacker defender s_attacker s_defender g :
  0 <= s_attacker -> 0 <= s_defender ->
  0 <= tech_level attacker -> 0 <= tech_level defender ->
  exists l g',
    combat_losses attacker defender s_attacker s_defender g = Ok (l, g').
Proof.
  intros Ha Hd Hta Htd. unfold combat_losses.
  rewrite (truediv_ok s_attacker) by lra. simpl.
  set (q := s_attacker / (s_defender + 1)).
  pose proof (Rmax_l 0 (q - 1)) as Hm.
  rewrite (truediv_ok s_defender) by lra. simpl.
  set (des := s_defender / (1 + Rmax 0 (q - 1))).
  assert (0 <= des) as Hdes.
  { unfold des. apply Rmult_le_pos; [assumption |].
    left. apply Rinv_0_lt_compat. lra. }
  rewrite (truediv_ok des) by lra. simpl.
  rewrite (truediv_ok s_attacker) by lra. simpl.
  rewrite (truediv_ok 1) by lra. simpl.
  rewrite (truediv_ok 1) by lra. simpl.
  eexists. eexists. reflexivity.
Qed.

(** A side that loses at most nine tenths keeps the invariant through
    lines 221-231, and its technology if it survives. *)
Lemma combat_side_ok c pop_loss res_loss :
  civ_ok c -> is_alive c = true ->
  pop_loss <= population c * 0.9 -> res_loss <= resources c * 0.9 ->
  let c' := fst (elimination_check (apply_losses c pop_loss res_loss)) in
  civ_ok c'
  /\ 0 <= resources (apply_losses c pop_loss res_loss)
  /\ (is_alive c' = true -> tech_level c' = tech_level c).
Proof.
  intros [Ht Hs] Ha Hp Hr. unfold state_ok in Hs. rewrite Ha in Hs.
  destruct Hs as (Hp0 & Hr0 & Hl).
  unfold elimination_check, apply_losses. simpl.
  destruct (Rleb_spec (population c - pop_loss) 1);
    destruct (Rltb_spec (resources c - res_loss) 0); simpl;
    (split; [split; [exact Ht |]; unfold state_ok; simpl; try rewrite Ha;
             repeat split; auto; lra
            | split; [lra | intros; try discriminate; reflexivity]]).
Qed.

Lemma choose_attacker_stream g w a g' :
  choose_attacker g w = (a, g') -> stream g' = stream g.
Proof.
  unfold choose_attacker, sample2. simpl.
  destruct (Rltb (aggressiveness (civ2 w)) (aggressiveness (civ1 w)));
    [intros H; injection H as _ <-; reflexivity |].
  destruct (Rltb (aggressiveness (civ1 w)) (aggressiveness (civ2 w)));
    intros H; injection H as _ <-; reflexivity.
Qed.

Lemma get_ok s w : world_ok w -> civ_ok (get s w).
Proof. intros [H1 H2]. destruct s; assumption. Qed.

Lemma get_alive s w : both_alive w -> is_alive (get s w) = true.
Proof. intros [H1 H2]. destruct s; assumption. Qed.

Lemma get_set_same s c w : get s (set s c w) = c.
Proof. destruct s; reflexivity. Qed.

Lemma world_ok_sides w : (forall s, civ_ok (get s w)) -> world_ok w.
Proof. intros H. split; [apply (H First) | apply (H Second)]. Qed.

(** What [conflict] returns, in terms of the combat it resolves. *)
Lemma conflict_inv g w w' g' out :
  conflict g w = Ok (w', g', out) ->
  exists a l,
    combat_applies g w a l
    /\ stream g' = stream g
    /\ forall s, get s w' = fst (elimination_check (after_losses w a s l)).
Proof.
  unfold conflict. destruct (choose_attacker g w) as [a g1] eqn:Ea.
  destruct (calculate_strength (get a w)) as [sa |] eqn:Esa; [| discriminate].
  destruct (calculate_strength (get (other a) w)) as [sd |] eqn:Esd;
    [| discriminate].
  intros H. bind_inv H. destruct a0 as [l g2].
  destruct (elimination_check (apply_losses (get a w) _ _)) as [a2 oa] eqn:Eca.
  destruct (elimination_check (apply_losses (get (other a) w) _ _))
    as [d2 od] eqn:Ecd.
  injection H as <- <- _.
  exists a, l. split; [| split].
  - exists g1, sa, sd, g2. auto.
  - rewrite (combat_losses_stream _ _ _ _ _ _ _ E).
    apply (choose_attacker_stream _ _ _ _ Ea).
  - intros s. unfold after_losses.
    destruct a, s; simpl in *; try rewrite Eca; try rewrite Ecd; reflexivity.
Qed.

(** Each side of a combat loses at most nine tenths. *)
Lemma combat_applies_caps g w a l s :
  combat_applies g w a l ->
  pop_loss_of a s l <= population (get s w) * 0.9
  /\ res_loss_of a s l <= resources (get s w) * 0.9.
Proof.
  intros (g1 & sa & sd & g2 & _ & _ & _ & H).
  apply combat_losses_caps in H. destruct a, s; simpl in *; lra.
Qed.

(** A pair of living civilizations that satisfies the invariant, as the
    interaction phase finds it. *)
Section LivingPair.

Variable g : RNG.
Variable w : World.
Hypothesis Hw : world_ok w.
Hypothesis Hb : both_alive w.

Lemma conflict_total : exists w' g' out, conflict g w = Ok (w', g', out).
Proof.
  unfold conflict.
  destruct (choose_attacker g w) as [a g1].
  destruct (strength_of_ok _ (get_ok a w Hw)) as (sa & -> & Hsa & _).
  destruct (strength_of_ok _ (get_ok (other a) w Hw)) as (sd & -> & Hsd & _).
  assert (forall s, 0 <= tech_level (get s w)) as Ht.
  { intros s. pose proof (get_ok s w Hw) as [_ Hs]. unfold state_ok in Hs.
    rewrite (get_alive s w Hb) in Hs. lra. }
  destruct (combat_losses_total (get a w) (get (other a) w) sa sd g1
              Hsa Hsd (Ht a) (Ht (other a))) as (l & g2 & ->).
  simpl.
  destruct (elimination_check (apply_losses (get a w) _ _)).
  destruct (elimination_check (apply_losses (get (other a) w) _ _)).
  eexists. eexists. eexists. reflexivity.
Qed.

(** A side keeps at least a tenth of its resources through a combat. *)
Lemma after_losses_resources a l s :
  combat_applies g w a l ->
  0.1 * resources (get s w) <= resources (after_losses w a s l)
  /\ 0 <= resources (after_losses w a s l).
Proof.
  intros Hc.
  destruct (combat_applies_caps g w a l s Hc) as [_ Hres].
  destruct (get_ok s w Hw) as [_ Hst]. unfold state_ok in Hst.
  rewrite (get_alive s w Hb) in Hst.
  unfold after_losses, apply_losses. simpl. lra.
Qed.

Lemma conflict_ok w' g' out :
  conflict g w = Ok (w', g', out) ->
  world_ok w'
  /\ forall s, is_alive (get s w') = true ->
               tech_level (get s w') = tech_level (get s w).
Proof.
  intros H. apply conflict_inv in H as (a & l & Hc & _ & Hget).
  assert (forall s, civ_ok (get s w')
                    /\ (is_alive (get s w') = true ->
                        tech_level (get s w') = tech_level (get s w))) as Hs.
  { intros s. rewrite Hget. unfold after_losses.
    destruct (combat_applies_caps g w a l s Hc) as [Hp Hr].
    destruct (combat_side_ok (get s w) _ _ (get_ok s w Hw) (get_alive s w Hb)
                Hp Hr) as (H1 & _ & H2).
    split; assumption. }
  split; [apply world_ok_sides; intros s; apply Hs | intros s; apply Hs].
Qed.

End LivingPair.

(** ** Cooperation and the interaction phase *)

Lemma cooperate_ok w :
  world_ok w -> both_alive w ->
  world_ok (fst (cooperate w))
  /\ forall s, is_alive (get s (fst (cooperate w))) = true
               /\ tech_level (get s w) < tech_level (get s (fst (cooperate w))).
Proof.
  intros [[Ht1 Hs1] [Ht2 Hs2]] [Ha1 Ha2].
  unfold state_ok in Hs1, Hs2. rewrite Ha1 in Hs1. rewrite Ha2 in Hs2.
  destruct Ht1 as (Hi1 & Hq1 & Hg1 & Hc1). destruct Ht2 as (Hi2 & Hq2 & Hg2 & Hc2).
  destruct Hs1 as (Hp1 & Hr1 & Hl1). destruct Hs2 as (Hp2 & Hr2 & Hl2).
  assert (0 <= resources (civ1 w) * COOP_RESOURCE_BONUS
               * (cooperation (civ2 w) / 10.0)) as Hb1.
  { unfold_constants. apply Rmult_le_pos; [apply Rmult_le_pos |]; lra. }
  assert (0 <= resources (civ2 w) * COOP_RESOURCE_BONUS
               * (cooperation (civ1 w) / 10.0)) as Hb2.
  { unfold_constants. apply Rmult_le_pos; [apply Rmult_le_pos |]; lra. }
  unfold cooperate. simpl. split.
  - unfold world_ok, civ_ok, traits_ok, state_ok. simpl.
    rewrite Ha1, Ha2. unfold_constants. repeat split; auto; lra.
  - intros s. destruct s; simpl; unfold_constants; split; auto; lra.
Qed.

Lemma relative_strength_total strength1 strength2 :
  exists stronger ratio,
    relative_strength strength1 strength2 = Ok (stronger, ratio).
Proof.
  unfold relative_strength.
  destruct (Rltb_spec strength2 strength1); simpl.
  - destruct (Rltb_spec 0 strength2); simpl.
    + rewrite truediv_ok by lra. simpl. eexists. eexists. reflexivity.
    + destruct (Rltb_spec strength1 strength2); simpl; [lra |].
      eexists. eexists. reflexivity.
  - destruct (Rltb_spec strength1 strength2); simpl.
    + destruct (Rltb_spec 0 strength1); simpl.
      * rewrite truediv_ok by lra. simpl. eexists. eexists. reflexivity.
      * eexists. eexists. reflexivity.
    + eexists. eexists. reflexivity.
Qed.

Lemma conflict_check_stream g w stronger ratio :
  stream (snd (conflict_check g w stronger ratio)) = stream g.
Proof.
  unfold conflict_check. simpl.
  repeat match goal with
         | |- context [if ?b then _ else _] => destruct b
         | |- context [match ?o with Some _ => _ | None => _ end] => destruct o
         end; reflexivity.
Qed.

(** From a reachable pair of living civilizations the interaction phase
    raises nothing, keeps the invariant and lowers no technology level. *)
Lemma interaction_phase_ok g w :
  world_ok w -> both_alive w ->
  exists w' g' out,
    interaction_phase g w = Ok (w', g', out)
    /\ world_ok w'
    /\ stream g' = stream g
    /\ forall s, is_alive (get s w') = true ->
                 tech_level (get s w) <= tech_level (get s w').
Proof.
  intros Hw Hb. unfold interaction_phase.
  destruct (strength_of_ok _ (get_ok First w Hw)) as (s1 & E1 & _).
  destruct (strength_of_ok _ (get_ok Second w Hw)) as (s2 & E2 & _).
  simpl in E1, E2. rewrite E1, E2.
  destruct (relative_strength_total s1 s2) as (stronger & ratio & ->).
  cbn [bind].
  pose proof (conflict_check_stream g w stronger ratio) as Hst.
  destruct (conflict_check g w stronger ratio) as [will_fight g1].
  simpl in Hst. destruct will_fight.
  - destruct (conflict_total g1 w Hw Hb) as (w' & g' & out & Hc).
    exists w', g', out. split; [exact Hc |].
    destruct (conflict_ok _ _ Hw Hb _ _ _ Hc) as [Hok Htech].
    apply conflict_inv in Hc as (a & l & _ & Hs & _).
    split; [exact Hok |]. split; [congruence |].
    intros s Hs'. rewrite (Htech s Hs'). lra.
  - destruct (cooperate_ok w Hw Hb) as [Hok Htech].
    destruct (cooperate w) as [w' out]. simpl in Hok, Htech.
    unfold uniform, random. destruct (Rltb _ _).
    + eexists. eexists. eexists. split; [reflexivity |].
      split; [exact Hok |]. split; [exact Hst |].
      intros s _. destruct (Htech s). lra.
    + eexists. eexists. eexists. split; [reflexivity |].
      split; [exact Hw |]. split; [exact Hst |].
      intros; lra.
Qed.

(** ** Steps keep the invariant *)

Lemma call_ok m c :
  civ_ok c -> exists c' out, call m c = Ok (c', out) /\ civ_ok c'.
Proof.
  intros Hc. destruct m; simpl.
  - eexists. eexists. split; [reflexivity | apply gather_resources_ok; exact Hc].
  - pose proof (consume_resources_ok c Hc).
    destruct (consume_resources c). eexists. eexists. split; [reflexivity | assumption].
  - destruct (grow_population_ok c Hc) as (c' & -> & H & _). simpl.
    eexists. eexists. split; [reflexivity | assumption].
  - destruct (develop_technology_ok c Hc) as (c' & -> & H & _). simpl.
    eexists. eexists. split; [reflexivity | assumption].
  - eexists. eexists. split; [reflexivity |]. apply (die_ok c reason), Hc.
Qed.

Lemma set_ok s c w : world_ok w -> civ_ok c -> world_ok (set s c w).
Proof. intros [H1 H2] Hc. destruct s; split; assumption. Qed.

Lemma step_ok w w' : world_ok w -> step w w' -> world_ok w'.
Proof.
  intros Hw Hs. destruct Hs as [s m w c out Hcall | g w w' g' out Hb Hg Hi].
  - destruct (call_ok m _ (get_ok s w Hw)) as (c' & out' & E & Hc).
    rewrite E in Hcall. injection Hcall as <- _. apply set_ok; assumption.
  - destruct (interaction_phase_ok g w Hw Hb) as (w1 & g1 & out1 & E & Hok & _).
    rewrite E in Hi. injection Hi as <- _ _. exact Hok.
Qed.

Lemma reachable_ok w : reachable w -> world_ok w.
Proof.
  induction 1 as [| w w' _ IH Hs].
  - split; apply init_ok.
  - exact (step_ok w w' IH Hs).
Qed.

Lemma steps_reachable w w' : steps w w' -> reachable w -> reachable w'.
Proof.
  induction 1 as [w w' Hs | w | w w1 w2 _ IH1 _ IH2]; intros Hr.
  - exact (reachable_step w w' Hr Hs).
  - exact Hr.
  - auto.
Qed.

(** ** The loop runs through reachable states *)

Lemma set_set s c c' w : set s c' (set s c w) = set s c' w.
Proof. destruct s; reflexivity. Qed.

Lemma set_get s w : set s (get s w) w = w.
Proof. destruct s, w; reflexivity. Qed.

Lemma steps_call s m w c1 c2 out :
  steps w (set s c1 w) -> call m c1 = Ok (c2, out) -> steps w (set s c2 w).
Proof.
  intros Hs Hc. apply rt_trans with (set s c1 w); [exact Hs |].
  apply rt_step. rewrite <- (set_set s c1 c2 w).
  apply step_call with (m := m) (out := out).
  rewrite get_set_same. exact Hc.
Qed.

Lemma steps_here s w : steps w (set s (get s w) w).
Proof. rewrite set_get. apply rt_refl. Qed.

Lemma advances_refl c : advances c c.
Proof. intros H. split; [exact H | lra]. Qed.

Lemma advances_trans c1 c2 c3 : advances c1 c2 -> advances c2 c3 -> advances c1 c3.
Proof.
  intros H12 H23 H3. destruct (H23 H3) as [H2 L23].
  destruct (H12 H2) as [H1 L12]. split; [exact H1 | lra].
Qed.

Lemma gather_resources_advances c : advances c (gather_resources c).
Proof.
  unfold advances, gather_resources.
  destruct (is_alive c) eqn:Ha; simpl; rewrite ?Ha; intros H;
    (split; [assumption || reflexivity | lra]).
Qed.

Lemma consume_resources_advances c : advances c (fst (consume_resources c)).
Proof.
  unfold advances, consume_resources.
  destruct (is_alive c) eqn:Ha; simpl; [| rewrite Ha; discriminate].
  repeat match goal with
         | |- context [if ?b then _ else _] => destruct b; simpl
         end; rewrite ?Ha; intros H; try discriminate; split; auto; lra.
Qed.

Lemma internal_phase_civ_ok s w :
  civ_ok (get s w) ->
  exists c' out,
    internal_phase_civ (get s w) = Ok (c', out)
    /\ civ_ok c'
    /\ steps w (set s c' w)
    /\ advances (get s w) c'.
Proof.
  intros Hc. unfold internal_phase_civ.
  destruct (is_alive (get s w)) eqn:Ha.
  - pose proof (gather_resources_ok _ Hc) as H1.
    assert (steps w (set s (gather_resources (get s w)) w)) as S1.
    { apply (steps_call s Gather w (get s w) _ []); [apply steps_here | reflexivity]. }
    pose proof (gather_resources_advances (get s w)) as T1.
    pose proof (consume_resources_ok _ H1) as H2.
    pose proof (consume_resources_advances (gather_resources (get s w))) as T2.
    assert (steps w (set s (fst (consume_resources (gather_resources (get s w)))) w))
      as S2.
    { apply (steps_call s Consume w _ _
               (snd (consume_resources (gather_resources (get s w)))) S1).
      simpl. destruct (consume_resources _); reflexivity. }
    destruct (consume_resources (gather_resources (get s w))) as [c2 out2].
    simpl in H2, T2, S2.
    pose proof (advances_trans _ _ _ T1 T2) as T12.
    destruct (is_alive c2) eqn:Ha2.
    + destruct (grow_population_ok c2 H2) as (c3 & E3 & H3 & A3 & T3).
      destruct (develop_technology_ok c3 H3) as (c4 & E4 & H4 & A4 & T4).
      rewrite E3. cbn [bind]. rewrite E4. cbn [bind].
      exists c4, out2. split; [reflexivity |]. split; [exact H4 |]. split.
      * apply (steps_call s Develop w c3 c4 []).
        -- apply (steps_call s Grow w c2 c3 []); [exact S2 |].
           simpl. rewrite E3. reflexivity.
        -- simpl. rewrite E4. reflexivity.
      * intros _. destruct (T12 Ha2) as [_ L]. split; [exact Ha | lra].
    + exists c2, out2. split; [reflexivity |]. split; [exact H2 |].
      split; [exact S2 | exact T12].
  - exists (get s w), []. split; [reflexivity |]. split; [exact Hc |].
    split; [apply steps_here | apply advances_refl].
Qed.

Lemma internal_phase_ok w :
  world_ok w ->
  exists w' out,
    internal_phase w = Ok (w', out)
    /\ world_ok w'
    /\ steps w w'
    /\ forall s, advances (get s w) (get s w').
Proof.
  intros Hw. unfold internal_phase.
  destruct (internal_phase_civ_ok First w (get_ok First w Hw))
    as (c1 & out1 & E1 & H1 & S1 & T1).
  destruct (internal_phase_civ_ok Second (set First c1 w))
    as (c2 & out2 & E2 & H2 & S2 & T2).
  { simpl. apply Hw. }
  simpl in E1, E2. rewrite E1. cbn [bind]. rewrite E2. cbn [bind].
  eexists. eexists. split; [reflexivity |].
  split; [split; assumption |]. split.
  - apply rt_trans with (set First c1 w); [exact S1 | exact S2].
  - intros s. destruct s; simpl; assumption.
Qed.

Lemma both_alive_dec w :
  negb (is_alive (civ1 w)) || negb (is_alive (civ2 w)) = false -> both_alive w.
Proof.
  unfold both_alive.
  destruct (is_alive (civ1 w)), (is_alive (civ2 w)); simpl; auto; discriminate.
Qed.

Lemma valid_rng_stream g g' : stream g' = stream g -> valid_rng g -> valid_rng g'.
Proof. unfold valid_rng. intros ->. auto. Qed.

Lemma turn_body_ok num_turns turn g w :
  world_ok w -> valid_rng g ->
  exists w' g' out ctl,
    turn_body num_turns turn g w = Ok (w', g', out, ctl)
    /\ world_ok w' /\ valid_rng g' /\ steps w w'
    /\ forall s, advances (get s w) (get s w').
Proof.
  intros Hw Hg. unfold turn_body.
  destruct (internal_phase_ok w Hw) as (w1 & out1 & -> & H1 & S1 & T1).
  cbn [bind].
  destruct (negb (is_alive (civ1 w1)) || negb (is_alive (civ2 w1))) eqn:Hd.
  - eexists. eexists. eexists. eexists. split; [reflexivity |]. auto.
  - apply both_alive_dec in Hd.
    destruct (interaction_phase_ok g w1 H1 Hd)
      as (w2 & g2 & out2 & E2 & H2 & G2 & T2).
    rewrite E2. cbn [bind].
    assert (steps w w2) as S2.
    { apply rt_trans with w1; [exact S1 |]. apply rt_step.
      exact (step_interaction g w1 w2 g2 out2 Hd Hg E2). }
    assert (forall s, advances (get s w) (get s w2)) as T.
    { intros s. apply advances_trans with (get s w1); [apply T1 |].
      intros Hs. split; [apply get_alive, Hd | apply T2, Hs]. }
    pose proof (valid_rng_stream g g2 G2 Hg).
    destruct (negb (is_alive (civ1 w2)) || negb (is_alive (civ2 w2)));
      [| destruct (turn =? num_turns)%Z];
      (eexists; eexists; eexists; eexists; split; [reflexivity |]; auto).
Qed.

Lemma for_turns_ok n : forall num_turns turn g w,
  world_ok w -> valid_rng g ->
  exists w' g' out,
    for_turns n num_turns turn g w = Ok (w', g', out)
    /\ world_ok w' /\ valid_rng g' /\ steps w w'
    /\ forall s, advances (get s w) (get s w').
Proof.
  induction n as [| n IH]; intros num_turns turn g w Hw Hg; simpl.
  - exists w, g, []. split; [reflexivity |].
    split; [exact Hw |]. split; [exact Hg |].
    split; [apply rt_refl | intros; apply advances_refl].
  - destruct (turn_body_ok num_turns turn g w Hw Hg)
      as (w1 & g1 & out1 & ctl & -> & H1 & G1 & S1 & T1).
    cbn [bind]. destruct ctl.
    + destruct (IH num_turns (turn + 1)%Z g1 w1 H1 G1)
        as (w2 & g2 & out2 & -> & H2 & G2 & S2 & T2).
      cbn [bind]. eexists. eexists. eexists. split; [reflexivity |].
      split; [exact H2 |]. split; [exact G2 |].
      split; [apply rt_trans with w1; assumption |].
      intros s. apply advances_trans with (get s w1); auto.
    + eexists. eexists. eexists. split; [reflexivity |]. auto.
Qed.

Lemma run_simulation_ok c1 c2 num_turns g :
  world_ok (mkWorld c1 c2) -> valid_rng g ->
  exists w' g' out,
    run_simulation c1 c2 num_turns g = Ok (w', g', out)
    /\ world_ok w' /\ valid_rng g' /\ steps (mkWorld c1 c2) w'
    /\ forall s, advances (get s (mkWorld c1 c2)) (get s w').
Proof.
  intros Hw Hg. unfold run_simulation.
  destruct (for_turns_ok (Z.to_nat num_turns) num_turns 1%Z g _ Hw Hg)
    as (w' & g' & out & -> & H).
  cbn [bind]. eexists. eexists. eexists. split; [reflexivity | exact H].
Qed.

(** * The claims *)

(** ** The examples of the source *)

(** A generator that always returns one half. *)
Lemma valid_rng_half : valid_rng (mkRNG (fun _ => 0.5) 0).
Proof. intros n. simpl. lra. Qed.

Lemma reachable_example :
  reachable (mkWorld civilization1 civilization2).
Proof. apply reachable_init. Qed.

Lemma both_alive_example :
  both_alive (mkWorld civilization1 civilization2).
Proof. split; reflexivity. Qed.

(** ** Construction *)

(** C8. Construction accepts every real-valued traits and rejects none
    ([init] is a total function): intelligence below 1 becomes 1, tech_rate
    below 0.1 becomes 0.1, negative aggressiveness and cooperation become 0,
    every other value is kept, and the new civilization has population 1000,
    resources 500, tech_level 1.0 and is alive. *)
Theorem init_clamps_traits_and_sets_initial_state
    (n : string) (i t a c : R) :
  let civ := init n i t a c in
  name civ = n
  /\ intelligence civ = (if i <? 1 then 1 else i) /\ 1 <= intelligence civ
  /\ tech_rate civ = (if t <? 0.1 then 0.1 else t) /\ 0.1 <= tech_rate civ
  /\ aggressiveness civ = (if a <? 0 then 0 else a) /\ 0 <= aggressiveness civ
  /\ cooperation civ = (if c <? 0 then 0 else c) /\ 0 <= cooperation civ
  /\ population civ = 1000 /\ resources civ = 500 /\ tech_level civ = 1
  /\ is_alive civ = true.
Proof.
  simpl. unfold_constants. unfold Rmax.
  destruct (Rltb_spec i 1), (Rltb_spec t 0.1), (Rltb_spec a 0), (Rltb_spec c 0);
    repeat match goal with
           | |- context [Rle_dec ?x ?y] => destruct (Rle_dec x y)
           end;
    repeat split; lra.
Qed.

(** ** Strength *)

(** C2. In every reachable state [calculate_strength] returns 0 exactly
    when the civilization is dead.  While the civilization is alive it
    returns population * tech_level^TECH_COMBAT_FACTOR, with the exponent
    1.5, and it is strictly increasing in population and in tech_level:
    of two living civilizations of reachable states, one that has no less
    population and no lower tech_level than the other, and more of one of
    the two, is strictly the stronger. *)
Theorem calculate_strength_reachable (w w' : World) (s s' : side) :
  reachable w -> reachable w' ->
  (calculate_strength (get s w) = Float 0 <-> is_alive (get s w) = false)
  /\ (is_alive (get s w) = true ->
      calculate_strength (get s w)
      = Float (population (get s w)
               * Rpower (tech_level (get s w)) TECH_COMBAT_FACTOR))
  /\ (TECH_COMBAT_FACTOR = 1.5)
  /\ (is_alive (get s w) = true -> is_alive (get s' w') = true ->
      population (get s w) <= population (get s' w') ->
      tech_level (get s w) <= tech_level (get s' w') ->
      population (get s w) < population (get s' w')
      \/ tech_level (get s w) < tech_level (get s' w') ->
      exists str str',
        calculate_strength (get s w) = Float str
        /\ calculate_strength (get s' w') = Float str'
        /\ str < str').
Proof.
  intros Hr Hr'.
  pose proof (get_ok s w (reachable_ok w Hr)) as Hc.
  pose proof (get_ok s' w' (reachable_ok w' Hr')) as Hc'.
  split; [| split; [| split; [reflexivity |]]].
  - split; [| apply calculate_strength_dead].
    destruct (strength_of_ok _ Hc) as (str & E & _ & Hpos).
    rewrite E. intros H. injection H as ->.
    destruct (is_alive (get s w)); [| reflexivity].
    specialize (Hpos eq_refl). lra.
  - intros Ha. destruct Hc as [_ Hst]. unfold state_ok in Hst.
    rewrite Ha in Hst. apply calculate_strength_alive; [exact Ha | lra].
  - intros Ha Ha' Hp Ht Hlt.
    destruct Hc as [_ Hst]. unfold state_ok in Hst. rewrite Ha in Hst.
    destruct Hc' as [_ Hst']. unfold state_ok in Hst'. rewrite Ha' in Hst'.
    destruct Hst as (Hp0 & _ & Ht1). destruct Hst' as (Hp0' & _ & Ht1').
    rewrite (calculate_strength_alive (get s w)) by (assumption || lra).
    rewrite (calculate_strength_alive (get s' w')) by (assumption || lra).
    eexists. eexists. split; [reflexivity |]. split; [reflexivity |].
    set (p := population (get s w)) in *.
    set (p' := population (get s' w')) in *.
    set (t := tech_level (get s w)) in *.
    set (t' := tech_level (get s' w')) in *.
    pose proof (Rpower_pos t TECH_COMBAT_FACTOR) as HP.
    assert (Rpower t TECH_COMBAT_FACTOR <= Rpower t' TECH_COMBAT_FACTOR) as HPle.
    { apply Rle_Rpower_l; [unfold_constants; lra | lra]. }
    destruct Hlt as [Hlt | Hlt].
    + apply Rlt_le_trans with (p' * Rpower t TECH_COMBAT_FACTOR).
      * apply Rmult_lt_compat_r; assumption.
      * apply Rmult_le_compat_l; [lra | assumption].
    + apply Rle_lt_trans with (p' * Rpower t TECH_COMBAT_FACTOR).
      * apply Rmult_le_compat_r; [lra | assumption].
      * apply Rmult_lt_compat_l; [assumption |].
        apply Rlt_Rpower_l; [unfold_constants; lra | lra].
Qed.

(** The two example civilizations of the source at their construction:
    they have the same population and the same tech_level, and both have
    strength 1000 * 1^1.5. *)
Lemma calculate_strength_reachable_witness :
  let w := mkWorld civilization1 civilization2 in
  (calculate_strength (get First w) = Float 0
   <-> is_alive (get First w) = false)
  /\ (is_alive (get First w) = true ->
      calculate_strength (get First w)
      = Float (population (get First w)
               * Rpower (tech_level (get First w)) TECH_COMBAT_FACTOR))
  /\ (TECH_COMBAT_FACTOR = 1.5)
  /\ (is_alive (get First w) = true -> is_alive (get Second w) = true ->
      population (get First w) <= population (get Second w) ->
      tech_level (get First w) <= tech_level (get Second w) ->
      population (get First w) < population (get Second w)
      \/ tech_level (get First w) < tech_level (get Second w) ->
      exists str str',
        calculate_strength (get First w) = Float str
        /\ calculate_strength (get Second w) = Float str'
        /\ str < str').
Proof.
  exact (calculate_strength_reachable _ _ First Second
           reachable_example reachable_example).
Defined.

(** ** Consumption *)

(** C3. On a living civilization [consume_resources] subtracts
    population * POP_RESOURCE_COST from the resources.  If the result is not
    negative, nothing else changes and nothing is printed.  If it is
    negative, the population loses min(population, deficit /
    POP_RESOURCE_COST * 1.5), where deficit is the absolute value of the
    negative resources, the resources are set to 0 and the shortage is
    reported; if the population left is 0 or less, the civilization dies of
    starvation.  In every case the resources are not negative when the call
    returns. *)
Theorem consume_resources_spec (self : Civilization) :
  is_alive self = true ->
  let remaining := resources self - population self * POP_RESOURCE_COST in
  let deficit := Rabs remaining in
  let pop_loss := Rmin (population self) (deficit / POP_RESOURCE_COST * 1.5) in
  let starved :=
    set_resources (set_population self (population self - pop_loss)) 0 in
  0 <= resources (fst (consume_resources self))
  /\ (0 <= remaining ->
      consume_resources self = (set_resources self remaining, []))
  /\ (remaining < 0 -> 0 < population self - pop_loss ->
      consume_resources self = (starved, [Shortage (name self) pop_loss]))
  /\ (remaining < 0 -> population self - pop_loss <= 0 ->
      consume_resources self
      = (fst (die starved "starvation due to resource depletion"),
         [Shortage (name self) pop_loss;
          Eliminated (name self) "starvation due to resource depletion"])
      /\ is_alive (fst (consume_resources self)) = false).
Proof.
  intros Ha. unfold consume_resources. rewrite Ha. simpl.
  destruct (Rltb_spec (resources self - population self * POP_RESOURCE_COST) 0)
    as [Hneg | Hpos].
  - match goal with |- context [Rleb ?a 0] => destruct (Rleb_spec a 0) end;
      simpl; (split; [lra |]); (split; [intros; lra |]);
      (split; [intros; try lra; reflexivity |]);
      intros; try lra; split; reflexivity.
  - simpl. split; [lra |]. split; [reflexivity |].
    split; intros; lra.
Qed.

(** Scenario B of the specification: 1000 people and no resources.  The
    deficit is 100, the loss min(1000, 1500), and the civilization dies. *)
Lemma consume_resources_spec_witness :
  let self := set_resources civilization1 0 in
  consume_resources self
  = ({| name := "Aethel"; intelligence := Rmax 1 8; tech_rate := Rmax 0.1 7;
        aggressiveness := Rmax 0 2; cooperation := Rmax 0 8;
        population := 0; resources := 0; tech_level := 0;
        is_alive := false |},
     [Shortage "Aethel" (Rmin 1000 (Rabs (0 - 1000 * 0.1) / 0.1 * 1.5));
      Eliminated "Aethel" "starvation due to resource depletion"])
  /\ Rmin 1000 (Rabs (0 - 1000 * 0.1) / 0.1 * 1.5) = 1000.
Proof.
  assert (Rmin 1000 (Rabs (0 - 1000 * 0.1) / 0.1 * 1.5) = 1000) as Hloss.
  { rewrite Rabs_left by lra. apply Rmin_left. lra. }
  split; [| exact Hloss].
  destruct (consume_resources_spec (set_resources civilization1 0)
              eq_refl) as (_ & _ & _ & H).
  simpl in H. unfold_constants.
  destruct H as [H _]; [lra | rewrite Hloss; lra | exact H].
Defined.

(** ** Death *)

Lemma call_dead m c :
  is_alive c = false ->
  population c = 0 -> resources c = 0 -> tech_level c = 0 ->
  exists out, call m c = Ok (c, out).
Proof.
  intros Ha Hp Hr Ht. destruct m; simpl.
  - unfold gather_resources. rewrite Ha. simpl. eexists. reflexivity.
  - unfold consume_resources. rewrite Ha. simpl. eexists. reflexivity.
  - unfold grow_population. rewrite Ha. simpl. eexists. reflexivity.
  - unfold develop_technology. rewrite Ha. simpl. eexists. reflexivity.
  - unfold die. destruct c; simpl in *. subst. eexists. reflexivity.
Qed.

Lemma call_all_dead ms c :
  is_alive c = false ->
  population c = 0 -> resources c = 0 -> tech_level c = 0 ->
  exists out, call_all ms c = Ok (c, out).
Proof.
  intros Ha Hp Hr Ht. induction ms as [| m ms [out IH]]; simpl.
  - eexists. reflexivity.
  - destruct (call_dead m c Ha Hp Hr Ht) as [out1 ->]. cbn [bind].
    rewrite IH. cbn [bind]. eexists. reflexivity.
Qed.

Lemma step_dead w w' s :
  world_ok w -> step w w' -> is_alive (get s w) = false -> get s w' = get s w.
Proof.
  intros Hw Hs Ha.
  destruct Hs as [s' m w c out Hcall | g w w' g' out Hb Hg Hi].
  - destruct (get_ok s w Hw) as [_ Hst]. unfold state_ok in Hst.
    rewrite Ha in Hst. destruct Hst as (Hp & Hr & Ht).
    destruct s, s'; simpl in *; try reflexivity;
      destruct (call_dead m _ Ha Hp Hr Ht) as [out' E];
      rewrite E in Hcall; injection Hcall as <- _; reflexivity.
  - rewrite (get_alive s w Hb) in Ha. discriminate Ha.
Qed.

(** C1. A dead civilization of a reachable state has population,
    resources and tech_level 0, and it is a terminal sink: a call of
    gather_resources, consume_resources, grow_population,
    develop_technology or die, and any sequence of such calls, returns
    the civilization as it was (population, resources, tech_level and
    is_alive included), and so does every step of the simulation. *)
Theorem dead_is_terminal_sink (w : World) (s : side) :
  reachable w -> is_alive (get s w) = false ->
  population (get s w) = 0 /\ resources (get s w) = 0
  /\ tech_level (get s w) = 0
  /\ (forall m, exists out, call m (get s w) = Ok (get s w, out))
  /\ (forall ms, exists out, call_all ms (get s w) = Ok (get s w, out))
  /\ (forall w', step w w' -> get s w' = get s w).
Proof.
  intros Hr Ha. pose proof (reachable_ok w Hr) as Hw.
  destruct (get_ok s w Hw) as [_ Hst]. unfold state_ok in Hst.
  rewrite Ha in Hst. destruct Hst as (Hp & Hres & Ht).
  repeat split; try assumption.
  - intros m. apply call_dead; assumption.
  - intros ms. apply call_all_dead; assumption.
  - intros w' Hs. apply step_dead; assumption.
Qed.

(** A civilization killed right after construction. *)
Lemma dead_is_terminal_sink_witness :
  let w0 := mkWorld civilization1 civilization2 in
  let w := set First (fst (die (civ1 w0) "elimination")) w0 in
  population (get First w) = 0 /\ resources (get First w) = 0
  /\ tech_level (get First w) = 0
  /\ (forall m, exists out, call m (get First w) = Ok (get First w, out))
  /\ (forall ms, exists out, call_all ms (get First w) = Ok (get First w, out))
  /\ (forall w', step w w' -> get First w' = get First w).
Proof.
  apply (dead_is_terminal_sink
           (set First (fst (die civilization1 "elimination"))
              (mkWorld civilization1 civilization2))
           First).
  - apply reachable_step
      with (w := mkWorld civilization1 civilization2).
    + apply reachable_init.
    + apply (step_call First (Die "elimination") _ _
               [Eliminated "Aethel" "elimination"]).
      reflexivity.
  - reflexivity.
Defined.

(** ** Combat losses *)

(** C4. A combat between the two living civilizations of a reachable
    state is resolved without an error, and each side comes out of it with
    its population and its resources lowered by the losses of the
    resolution.  In every combat resolution the population loss of each
    side is at most 90% of its population before the combat, and its
    resource loss at most 90% of its resources before the combat. *)
Theorem combat_loss_cap (g : RNG) (w : World) :
  reachable w -> both_alive w -> valid_rng g ->
  (exists a l w' g' out,
     conflict g w = Ok (w', g', out)
     /\ combat_applies g w a l
     /\ forall s,
          get s w' = fst (elimination_check (after_losses w a s l))
          /\ population (after_losses w a s l)
             = population (get s w) - pop_loss_of a s l
          /\ resources (after_losses w a s l)
             = resources (get s w) - res_loss_of a s l)
  /\ forall a l s,
       combat_applies g w a l ->
       pop_loss_of a s l <= 0.9 * population (get s w)
       /\ res_loss_of a s l <= 0.9 * resources (get s w).
Proof.
  intros Hr Hb _. pose proof (reachable_ok w Hr) as Hw. split.
  - destruct (conflict_total g w Hw Hb) as (w' & g' & out & Hc).
    destruct (conflict_inv _ _ _ _ _ Hc) as (a & l & Ha & _ & Hget).
    exists a, l, w', g', out. split; [exact Hc |]. split; [exact Ha |].
    intros s. split; [apply Hget |]. split; reflexivity.
  - intros a l s Ha.
    destruct (combat_applies_caps g w a l s Ha) as [Hp Hres]. split; lra.
Qed.

Lemma combat_loss_cap_witness :
  let g := mkRNG (fun _ => 0.5) 0 in
  let w := mkWorld civilization1 civilization2 in
  (exists a l w' g' out,
     conflict g w = Ok (w', g', out)
     /\ combat_applies g w a l
     /\ forall s,
          get s w' = fst (elimination_check (after_losses w a s l))
          /\ population (after_losses w a s l)
             = population (get s w) - pop_loss_of a s l
          /\ resources (after_losses w a s l)
             = resources (get s w) - res_loss_of a s l)
  /\ forall a l s,
       combat_applies g w a l ->
       pop_loss_of a s l <= 0.9 * population (get s w)
       /\ res_loss_of a s l <= 0.9 * resources (get s w).
Proof.
  exact (combat_loss_cap _ _ reachable_example both_alive_example
           valid_rng_half).
Defined.

(** C5, the claim as stated fails: in no combat of a reachable state are
    the resources of a side negative when the elimination check tests
    them. *)
Lemma no_negative_resources_at_elimination_check :
  ~ negative_resources_at_elimination_check.
Proof.
  intros (w & g & a & l & s & Hr & Hb & _ & Hc & Hneg).
  destruct (after_losses_resources g w (reachable_ok w Hr) Hb a l s Hc)
    as [_ H].
  rewrite Rltb_false in Hneg by exact H. discriminate Hneg.
Qed.

(** C5, amended. After the losses of a combat are applied each side has at
    least 10% of the resources it had before, so its resources are not
    negative at the elimination check: the test [resources < 0] is false
    there, and a side enters [die] after a combat exactly when its
    population is 1 or less. *)
Theorem resources_nonnegative_at_elimination_check (g : RNG) (w : World) :
  reachable w -> both_alive w -> valid_rng g ->
  (exists a l, combat_applies g w a l)
  /\ forall a l s, combat_applies g w a l ->
       0.1 * resources (get s w) <= resources (after_losses w a s l)
       /\ 0 <= resources (after_losses w a s l)
       /\ (resources (after_losses w a s l) <? 0) = false
       /\ elimination_check (after_losses w a s l)
          = if population (after_losses w a s l) <=? 1
            then die (after_losses w a s l) "combat losses"
            else (after_losses w a s l, []).
Proof.
  intros Hr Hb _. pose proof (reachable_ok w Hr) as Hw. split.
  - destruct (conflict_total g w Hw Hb) as (w' & g' & out & Hc).
    destruct (conflict_inv _ _ _ _ _ Hc) as (a & l & Ha & _).
    exists a, l. exact Ha.
  - intros a l s Hc.
    destruct (after_losses_resources g w Hw Hb a l s Hc) as [H1 H2].
    assert ((resources (after_losses w a s l) <? 0) = false) as Hf
      by (apply Rltb_false; exact H2).
    repeat split; try assumption.
    unfold elimination_check. rewrite Hf, orb_false_r. reflexivity.
Qed.

Lemma resources_nonnegative_at_elimination_check_witness :
  let g := mkRNG (fun _ => 0.5) 0 in
  let w := mkWorld civilization1 civilization2 in
  (exists a l, combat_applies g w a l)
  /\ forall a l s, combat_applies g w a l ->
       0.1 * resources (get s w) <= resources (after_losses w a s l)
       /\ 0 <= resources (after_losses w a s l)
       /\ (resources (after_losses w a s l) <? 0) = false
       /\ elimination_check (after_losses w a s l)
          = if population (after_losses w a s l) <=? 1
            then die (after_losses w a s l) "combat losses"
            else (after_losses w a s l, []).
Proof.
  exact (resources_nonnegative_at_elimination_check _ _ reachable_example
           both_alive_example valid_rng_half).
Defined.

(** ** The invariant of the living *)

Lemma run_simulation_reachable w num_turns g :
  reachable w -> valid_rng g ->
  exists w' g' out,
    run_simulation (civ1 w) (civ2 w) num_turns g = Ok (w', g', out)
    /\ reachable w'.
Proof.
  intros Hr Hg. pose proof (reachable_ok w Hr) as Hw.
  destruct w as [c1 c2]. simpl.
  destruct (run_simulation_ok c1 c2 num_turns g Hw Hg)
    as (w' & g' & out & E & _ & _ & Hs & _).
  exists w', g', out. split; [exact E |].
  exact (steps_reachable _ _ Hs Hr).
Qed.

(** The invariant in binary64: [recluse] keeps it to the end of turn 62. *)
Example recluse_invariant_through_turn_62 :
  Binary64.invariant_through 63 0 Binary64.recluse = true.
Proof. vm_compute. reflexivity. Qed.

(** C9, the claim as stated fails in the arithmetic of the program: the
    internal phases of [recluse] run without an error, and in turn 63
    [gather_resources] overflows its resources to infinity, growth takes
    the population to infinity, and [develop_technology] spends infinity
    out of infinity: the civilization ends the turn alive with resources
    NaN, for which [resources >= 0] is false.  One turn later its
    population, resources and tech_level are all NaN and it is still
    alive: none of the three tests of the invariant holds. *)
Lemma alive_invariant_lost_to_overflow :
  exists c62 c63 c64,
    Binary64.turns 62 Binary64.recluse = Ok c62
    /\ Binary64.is_alive c62 = true
    /\ Binary64.invariant c62 = true
    /\ Binary64.resources (Binary64.gather_resources c62)
       = PrimFloat.infinity
    /\ Binary64.internal_phase_civ c62 = Ok c63
    /\ Binary64.is_alive c63 = true
    /\ Binary64.population c63 = PrimFloat.infinity
    /\ PrimFloat.is_nan (Binary64.resources c63) = true
    /\ Binary64.tech_level c63 = PrimFloat.infinity
    /\ PrimFloat.leb PrimFloat.zero (Binary64.resources c63) = false
    /\ Binary64.invariant c63 = false
    /\ Binary64.internal_phase_civ c63 = Ok c64
    /\ Binary64.is_alive c64 = true
    /\ PrimFloat.is_nan (Binary64.population c64) = true
    /\ PrimFloat.is_nan (Binary64.resources c64) = true
    /\ PrimFloat.is_nan (Binary64.tech_level c64) = true
    /\ PrimFloat.ltb PrimFloat.zero (Binary64.population c64) = false
    /\ PrimFloat.leb PrimFloat.zero (Binary64.resources c64) = false
    /\ PrimFloat.leb PrimFloat.one (Binary64.tech_level c64) = false.
Proof.
  eexists. eexists. eexists.
  split; [vm_compute; reflexivity |].
  split; [vm_compute; reflexivity |].
  split; [vm_compute; reflexivity |].
  split; [vm_compute; reflexivity |].
  split; [vm_compute; reflexivity |].
  repeat split; vm_compute; reflexivity.
Qed.

(** C9, amended. With population, resources and tech_level taken as real
    numbers, as the specification has them (exact arithmetic, in which
    nothing overflows): in every reachable state (after construction, and
    after every method call and every interaction that follows) a living
    civilization has a positive population, resources that are not
    negative and a tech_level of at least 1, hence a strictly positive
    strength.  The simulation loop started in a reachable state raises no
    error and ends in a reachable state. *)
Theorem reachable_alive_invariant (w : World) (s : side) :
  reachable w -> is_alive (get s w) = true ->
  0 < population (get s w) /\ 0 <= resources (get s w)
  /\ 1 <= tech_level (get s w)
  /\ (exists str, calculate_strength (get s w) = Float str /\ 0 < str)
  /\ forall num_turns g, valid_rng g ->
       exists w' g' out,
         run_simulation (civ1 w) (civ2 w) num_turns g = Ok (w', g', out)
         /\ reachable w'.
Proof.
  intros Hr Ha. pose proof (get_ok s w (reachable_ok w Hr)) as Hc.
  destruct (strength_of_ok _ Hc) as (str & E & _ & Hpos).
  destruct Hc as [_ Hst]. unfold state_ok in Hst. rewrite Ha in Hst.
  destruct Hst as (Hp & Hres & Ht).
  repeat split; try assumption.
  - exists str. split; [exact E | exact (Hpos Ha)].
  - intros num_turns g Hg. apply run_simulation_reachable; assumption.
Qed.

Lemma reachable_alive_invariant_witness :
  let w := mkWorld civilization1 civilization2 in
  0 < population (get First w) /\ 0 <= resources (get First w)
  /\ 1 <= tech_level (get First w)
  /\ (exists str, calculate_strength (get First w) = Float str /\ 0 < str)
  /\ forall num_turns g, valid_rng g ->
       exists w' g' out,
         run_simulation (civ1 w) (civ2 w) num_turns g = Ok (w', g', out)
         /\ reachable w'.
Proof.
  exact (reachable_alive_invariant _ First reachable_example eq_refl).
Defined.

(** ** Technology *)

Lemma call_advances m c c' out :
  civ_ok c -> call m c = Ok (c', out) -> advances c c'.
Proof.
  intros Hc. destruct m; simpl; intros H.
  - injection H as <- _. apply gather_resources_advances.
  - pose proof (consume_resources_advances c) as Ha.
    destruct (consume_resources c). injection H as <- _. exact Ha.
  - destruct (grow_population_ok c Hc) as (c1 & E & _ & A & T).
    rewrite E in H. simpl in H. injection H as <- _.
    intros Ha. split; [congruence | lra].
  - destruct (develop_technology_ok c Hc) as (c1 & E & _ & A & T).
    rewrite E in H. simpl in H. injection H as <- _.
    intros Ha. split; [congruence | lra].
  - injection H as <- _. intros Ha. discriminate Ha.
Qed.

Lemma step_advances w w' s :
  world_ok w -> step w w' -> advances (get s w) (get s w').
Proof.
  intros Hw Hs.
  destruct Hs as [s' m w c out Hcall | g w w' g' out Hb Hg Hi].
  - pose proof (call_advances m _ c out (get_ok s' w Hw) Hcall) as Ha.
    destruct s, s'; simpl in *; try exact Ha; apply advances_refl.
  - destruct (interaction_phase_ok g w Hw Hb)
      as (w1 & g1 & out1 & E & _ & _ & T).
    rewrite E in Hi. injection Hi as <- _ _.
    intros Ha. split; [apply get_alive, Hb | apply T, Ha].
Qed.

Lemma steps_advances w w' s :
  steps w w' -> world_ok w ->
  world_ok w' /\ advances (get s w) (get s w').
Proof.
  induction 1 as [w w' Hs | w | w w1 w2 _ IH1 _ IH2]; intros Hw.
  - split; [exact (step_ok w w' Hw Hs) | exact (step_advances w w' s Hw Hs)].
  - split; [exact Hw | apply advances_refl].
  - destruct (IH1 Hw) as [Hw1 A1]. destruct (IH2 Hw1) as [Hw2 A2].
    split; [exact Hw2 | exact (advances_trans _ _ _ A1 A2)].
Qed.

(** C10, the claim as stated fails in the arithmetic of the program: at
    the end of turn 63 the tech_level of [recluse] is infinity, and the
    research of turn 64 adds NaN to it.  The civilization is alive before
    and after that call of [develop_technology], and its tech_level after
    it is neither equal to the one before nor higher: it is NaN. *)
Lemma tech_level_lost_to_overflow :
  exists c63 c c',
    Binary64.turns 63 Binary64.recluse = Ok c63
    /\ Binary64.grow_population
         (Binary64.consume_resources (Binary64.gather_resources c63))
       = Ok c
    /\ Binary64.develop_technology c = Ok c'
    /\ Binary64.turns 64 Binary64.recluse = Ok c'
    /\ Binary64.is_alive c = true
    /\ Binary64.is_alive c' = true
    /\ Binary64.tech_level c = PrimFloat.infinity
    /\ PrimFloat.is_nan (Binary64.tech_level c') = true
    /\ Binary64.tech_level_kept_or_raised c c' = false.
Proof.
  eexists. eexists. eexists.
  split; [vm_compute; reflexivity |].
  split; [vm_compute; reflexivity |].
  split; [vm_compute; reflexivity |].
  repeat split; vm_compute; reflexivity.
Qed.

(** C10, amended. With tech_level and the other attributes taken as real
    numbers, as the specification has them (exact arithmetic, in which
    nothing overflows): along every run (any number of method calls and
    interactions from a reachable state: gathering, consumption, growth,
    research, combat, cooperation) a civilization that is alive at the end
    was alive at the start and its tech_level is equal or strictly higher;
    one that is dead at the end has tech_level 0. *)
Theorem tech_level_never_decreases (w w' : World) (s : side) :
  reachable w -> steps w w' ->
  (is_alive (get s w') = true ->
   is_alive (get s w) = true
   /\ (tech_level (get s w') = tech_level (get s w)
       \/ tech_level (get s w) < tech_level (get s w')))
  /\ (is_alive (get s w') = false -> tech_level (get s w') = 0).
Proof.
  intros Hr Hs.
  destruct (steps_advances w w' s Hs (reachable_ok w Hr)) as [Hw' Ha].
  split.
  - intros Hl. destruct (Ha Hl) as [H1 H2]. split; [exact H1 | lra].
  - intros Hd. destruct (get_ok s w' Hw') as [_ Hst]. unfold state_ok in Hst.
    rewrite Hd in Hst. apply Hst.
Qed.

(** The run of the script: the two example civilizations of the source,
    100 turns, every draw of the generator one half. *)
Lemma tech_level_never_decreases_witness :
  let w := mkWorld civilization1 civilization2 in
  exists w' g' out,
    run_simulation civilization1 civilization2 simulation_turns
      (mkRNG (fun _ => 0.5) 0)
    = Ok (w', g', out)
    /\ ((is_alive (get First w') = true ->
         is_alive (get First w) = true
         /\ (tech_level (get First w') = tech_level (get First w)
             \/ tech_level (get First w) < tech_level (get First w')))
        /\ (is_alive (get First w') = false ->
            tech_level (get First w') = 0))
    /\ ((is_alive (get Second w') = true ->
         is_alive (get Second w) = true
         /\ (tech_level (get Second w') = tech_level (get Second w)
             \/ tech_level (get Second w) < tech_level (get Second w')))
        /\ (is_alive (get Second w') = false ->
            tech_level (get Second w') = 0)).
Proof.
  destruct (run_simulation_ok civilization1 civilization2 simulation_turns
              (mkRNG (fun _ => 0.5) 0)
              (reachable_ok _ reachable_example) valid_rng_half)
    as (w' & g' & out & E & _ & _ & Hs & _).
  exists w', g', out. split; [exact E |]. split.
  - exact (tech_level_never_decreases _ w' First reachable_example Hs).
  - exact (tech_level_never_decreases _ w' Second reachable_example Hs).
Defined.

(** ** Runs without interaction *)

Lemma quiet_nil : quiet [].
Proof. intros e []. Qed.

Lemma quiet_cons e out : is_interaction e = false -> quiet out -> quiet (e :: out).
Proof. intros He Ho e' [<- | Hin]; [exact He | exact (Ho e' Hin)]. Qed.

Lemma quiet_app out1 out2 : quiet out1 -> quiet out2 -> quiet (out1 ++ out2).
Proof.
  intros H1 H2 e Hin. apply in_app_or in Hin. destruct Hin; auto.
Qed.

Lemma display_status_quiet c : quiet (display_status c).
Proof.
  unfold display_status. destruct (negb (is_alive c));
    apply quiet_cons; try reflexivity; apply quiet_nil.
Qed.

Create HintDb quiet.
#[local] Hint Resolve quiet_nil quiet_cons quiet_app display_status_quiet
  : quiet.

Lemma consume_resources_frame c :
  aggressiveness (fst (consume_resources c)) = aggressiveness c
  /\ cooperation (fst (consume_resources c)) = cooperation c
  /\ quiet (snd (consume_resources c)).
Proof.
  unfold consume_resources. destruct (negb (is_alive c)); simpl.
  - repeat split; auto with quiet.
  - repeat match goal with
           | |- context [if ?b then _ else _] => destruct b; simpl
           end;
      repeat split; auto with quiet.
Qed.

Lemma grow_population_frame c c' :
  grow_population c = Ok c' ->
  aggressiveness c' = aggressiveness c /\ cooperation c' = cooperation c.
Proof.
  unfold grow_population.
  destruct (negb (is_alive c) || (resources c <=? 0)).
  - intros H. injection H as <-. split; reflexivity.
  - intros H. bind_inv H. injection H as <-. split; reflexivity.
Qed.

Lemma develop_technology_frame c c' :
  develop_technology c = Ok c' ->
  aggressiveness c' = aggressiveness c /\ cooperation c' = cooperation c.
Proof.
  unfold develop_technology.
  destruct (negb (is_alive c) || (resources c <? TECH_RESOURCE_COST)).
  - intros H. injection H as <-. split; reflexivity.
  - intros H. bind_inv H. injection H as <-. split; reflexivity.
Qed.

Lemma gather_resources_frame c :
  aggressiveness (gather_resources c) = aggressiveness c
  /\ cooperation (gather_resources c) = cooperation c.
Proof.
  unfold gather_resources. destruct (negb (is_alive c)); split; reflexivity.
Qed.

Lemma internal_phase_civ_frame c c' out :
  internal_phase_civ c = Ok (c', out) ->
  aggressiveness c' = aggressiveness c /\ cooperation c' = cooperation c
  /\ quiet out.
Proof.
  unfold internal_phase_civ. destruct (is_alive c).
  - destruct (gather_resources_frame c) as [G1 G2].
    destruct (consume_resources_frame (gather_resources c)) as (C1 & C2 & Q).
    destruct (consume_resources (gather_resources c)) as [c2 out2].
    simpl in C1, C2, Q. destruct (is_alive c2).
    + intros H. bind_inv H. bind_inv H. injection H as <- <-.
      apply grow_population_frame in E as [A1 A2].
      apply develop_technology_frame in E0 as [B1 B2].
      repeat split; try assumption; congruence.
    + intros H. injection H as <- <-.
      repeat split; try assumption; congruence.
  - intros H. injection H as <- <-. repeat split. auto with quiet.
Qed.

Lemma internal_phase_frame w w' out :
  internal_phase w = Ok (w', out) -> indifferent w ->
  indifferent w' /\ quiet out.
Proof.
  unfold internal_phase. intros H (A1 & A2 & C1 & C2).
  bind_inv H. destruct a as [c1 out1]. bind_inv H. destruct a as [c2 out2].
  injection H as <- <-.
  apply internal_phase_civ_frame in E as (E1 & E2 & Q1).
  apply internal_phase_civ_frame in E0 as (E3 & E4 & Q2).
  split; [| auto with quiet].
  unfold indifferent. simpl. repeat split; congruence.
Qed.

(** Without aggression and cooperation no threshold is exceeded, whatever
    the generator returns. *)
Lemma interaction_phase_indifferent g w :
  world_ok w -> valid_rng g -> indifferent w ->
  exists g', interaction_phase g w = Ok (w, g', [NoInteraction])
             /\ stream g' = stream g.
Proof.
  intros Hw Hg (A1 & A2 & C1 & C2). unfold interaction_phase.
  destruct (strength_of_ok _ (get_ok First w Hw)) as (s1 & E1 & _).
  destruct (strength_of_ok _ (get_ok Second w Hw)) as (s2 & E2 & _).
  simpl in E1, E2. rewrite E1, E2.
  destruct (relative_strength_total s1 s2) as (stronger & ratio & ->).
  cbn [bind].
  assert (forall n, 0 < stream g n + 1) as Hpos
    by (intros n; destruct (Hg n); lra).
  assert (conflict_check g w stronger ratio
          = (false, mkRNG (stream g) (S (cursor g)))) as ->.
  { unfold conflict_check, uniform, random. rewrite A1, A2.
    pose proof (Hg (cursor g)) as Hr.
    rewrite Rltb_false by (unfold_constants; lra).
    destruct stronger as [s |]; [| reflexivity].
    assert (aggressiveness (get s w) = 0) as -> by (destruct s; assumption).
    assert (aggressiveness (get (other s) w) = 0) as ->
      by (destruct s; assumption).
    rewrite (Rltb_false (0 + 3) 0) by lra. reflexivity. }
  unfold uniform, random. simpl stream. simpl cursor. rewrite C1, C2.
  pose proof (Hg (S (cursor g))) as Hr.
  rewrite Rltb_false by (unfold_constants; lra).
  eexists. split; reflexivity.
Qed.

Lemma turn_body_indifferent num_turns turn g w :
  world_ok w -> valid_rng g -> indifferent w ->
  exists w' g' out ctl,
    turn_body num_turns turn g w = Ok (w', g', out, ctl)
    /\ world_ok w' /\ valid_rng g' /\ indifferent w' /\ quiet out.
Proof.
  intros Hw Hg Hi. unfold turn_body.
  destruct (internal_phase_ok w Hw) as (w1 & out1 & E & H1 & _).
  rewrite E. cbn [bind].
  destruct (internal_phase_frame w w1 out1 E Hi) as [Hi1 Q1].
  assert (quiet [EndedEliminated]) as Qe by auto with quiet.
  destruct (negb (is_alive (civ1 w1)) || negb (is_alive (civ2 w1))).
  - eexists. eexists. eexists. eexists. split; [reflexivity |].
    split; [exact H1 |]. split; [exact Hg |]. split; [exact Hi1 |].
    auto 8 with quiet.
  - destruct (interaction_phase_indifferent g w1 H1 Hg Hi1) as (g' & -> & G).
    cbn [bind].
    pose proof (valid_rng_stream g g' G Hg) as Hg'.
    assert (quiet (TurnHeader turn :: out1 ++ [NoInteraction]
                   ++ display_status (civ1 w1) ++ display_status (civ2 w1)))
      as Q.
    { auto 8 with quiet. }
    destruct (negb (is_alive (civ1 w1)) || negb (is_alive (civ2 w1)));
      [| destruct (turn =? num_turns)%Z];
      (eexists; eexists; eexists; eexists; split; [reflexivity |]);
      (split; [exact H1 |]); (split; [exact Hg' |]); (split; [exact Hi1 |]);
      auto with quiet.
Qed.

Lemma for_turns_indifferent n : forall num_turns turn g w,
  world_ok w -> valid_rng g -> indifferent w ->
  exists w' g' out,
    for_turns n num_turns turn g w = Ok (w', g', out) /\ quiet out.
Proof.
  induction n as [| n IH]; intros num_turns turn g w Hw Hg Hi; simpl.
  - exists w, g, []. split; [reflexivity | auto with quiet].
  - destruct (turn_body_indifferent num_turns turn g w Hw Hg Hi)
      as (w1 & g1 & out1 & ctl & -> & H1 & G1 & I1 & Q1).
    cbn [bind]. destruct ctl.
    + destruct (IH num_turns (turn + 1)%Z g1 w1 H1 G1 I1)
        as (w2 & g2 & out2 & -> & Q2).
      cbn [bind]. eexists. eexists. eexists. split; [reflexivity |].
      auto with quiet.
    + eexists. eexists. eexists. split; [reflexivity | exact Q1].
Qed.

(** C7. When both civilizations are constructed with aggressiveness 0 and
    cooperation 0, the run returns, for every number of turns and every
    sequence of random draws, and its log holds no event of a conflict and
    no event of a cooperation. *)
Theorem no_interaction_without_aggression_and_cooperation
    (n1 n2 : string) (i1 t1 i2 t2 : R) (num_turns : Z) (g : RNG) :
  valid_rng g ->
  exists w' g' out,
    run_simulation (init n1 i1 t1 0 0) (init n2 i2 t2 0 0) num_turns g
    = Ok (w', g', out)
    /\ forall e, In e out -> is_interaction e = false.
Proof.
  intros Hg. unfold run_simulation.
  assert (world_ok (mkWorld (init n1 i1 t1 0 0) (init n2 i2 t2 0 0))) as Hw
    by (split; apply init_ok).
  assert (indifferent (mkWorld (init n1 i1 t1 0 0) (init n2 i2 t2 0 0))) as Hi.
  { unfold indifferent. simpl. rewrite Rmax_left by lra. auto. }
  destruct (for_turns_indifferent (Z.to_nat num_turns) num_turns 1%Z g _
              Hw Hg Hi) as (w' & g' & out & -> & Q).
  cbn [bind]. eexists. eexists. eexists. split; [reflexivity |].
  change (quiet ((SimulationStart :: display_status (init n1 i1 t1 0 0)
                  ++ display_status (init n2 i2 t2 0 0) ++ [Separator])
                 ++ out)).
  auto 8 with quiet.
Qed.

(** Scenario A of the specification: 50 turns. *)
Lemma no_interaction_without_aggression_and_cooperation_witness :
  exists w' g' out,
    run_simulation (init "Aethel" 8 7 0 0) (init "Borog" 4 3 0 0) 50
      (mkRNG (fun _ => 0.5) 0)
    = Ok (w', g', out)
    /\ forall e, In e out -> is_interaction e = false.
Proof.
  exact (no_interaction_without_aggression_and_cooperation
           "Aethel" "Borog" 8 7 4 3 50 _ valid_rng_half).
Defined.

(** ** Cooperation *)

Ltac proj_simpl :=
  cbn [name intelligence tech_rate aggressiveness cooperation population
       resources tech_level is_alive set_population set_resources
       set_tech_level init negb orb andb bind fst snd civ1 civ2 get set other].

Ltac decide_comparisons :=
  repeat first
    [ rewrite Rltb_false by (unfold_constants; lra)
    | rewrite Rltb_true by (unfold_constants; lra)
    | rewrite Rleb_false by (unfold_constants; lra)
    | rewrite Rleb_true by (unfold_constants; lra)
    | rewrite truediv_ok by (unfold_constants; lra)
    | progress proj_simpl ].

(** The internal phase of the first turn: 1050 resources gathered, 100
    consumed, the population grows, and research spends what it can. *)
Lemma internal_phase_civ_first_turn n i t a c :
  1 <= i -> 0.1 <= t -> 0 <= a -> 0 <= c ->
  exists civ,
    internal_phase_civ (init n i t a c) = Ok (civ, [])
    /\ is_alive civ = true
    /\ intelligence civ = i /\ tech_rate civ = t
    /\ aggressiveness civ = a /\ cooperation civ = c
    /\ 1000 <= population civ
    /\ resources civ
       = 950 - Rmin 950 (i * t * 0.01 * (population civ / 1000.0) / 1.1 * 50)
    /\ tech_level civ
       = 1 + Rmin 950 (i * t * 0.01 * (population civ / 1000.0) / 1.1 * 50) / 50.
Proof.
  intros Hi Ht Ha Hc.
  unfold internal_phase_civ, gather_resources, consume_resources. proj_simpl.
  decide_comparisons.
  unfold grow_population. decide_comparisons.
  unfold develop_technology. decide_comparisons.
  eexists. split; [reflexivity |]. proj_simpl.
  rewrite (Rmax_right 1 i), (Rmax_right 0.1 t), (Rmax_right 0 a),
    (Rmax_right 0 c) by lra.
  repeat (split; [reflexivity |]).
  unfold_constants.
  rewrite Rmax_right by lra.
  replace (500 + 1000 * 0.5 * (1 + 1.0 / 10.0) - 1000 * 0.1) with 950 by lra.
  replace (1 + 1.0 * 0.1) with 1.1 by lra.
  replace 1.0 with 1 by lra.
  split; [lra |]. split; reflexivity.
Qed.

Lemma conflict_check_calm g w stronger ratio :
  valid_rng g ->
  aggressiveness (civ1 w) + aggressiveness (civ2 w) <= 4.8 ->
  aggressiveness (civ1 w) <= aggressiveness (civ2 w) + 3 ->
  aggressiveness (civ2 w) <= aggressiveness (civ1 w) + 3 ->
  conflict_check g w stronger ratio = (false, mkRNG (stream g) (S (cursor g))).
Proof.
  intros Hg Hsum H12 H21. unfold conflict_check, uniform, random.
  pose proof (Hg (cursor g)) as Hr.
  rewrite Rltb_false by (unfold_constants; lra).
  destruct stronger as [s |]; [| reflexivity].
  rewrite (Rltb_false (aggressiveness (get (other s) w) + 3))
    by (destruct s; simpl; lra).
  reflexivity.
Qed.

(** Low aggression and high cooperation: the two cooperate, whatever the
    generator returns. *)
Lemma interaction_phase_cooperates g w :
  world_ok w -> valid_rng g ->
  aggressiveness (civ1 w) + aggressiveness (civ2 w) <= 4.8 ->
  aggressiveness (civ1 w) <= aggressiveness (civ2 w) + 3 ->
  aggressiveness (civ2 w) <= aggressiveness (civ1 w) + 3 ->
  14.4 <= cooperation (civ1 w) + cooperation (civ2 w) ->
  exists g',
    interaction_phase g w = Ok (fst (cooperate w), g', snd (cooperate w)).
Proof.
  intros Hw Hg Hsum H12 H21 Hcoop. unfold interaction_phase.
  destruct (strength_of_ok _ (get_ok First w Hw)) as (s1 & E1 & _).
  destruct (strength_of_ok _ (get_ok Second w Hw)) as (s2 & E2 & _).
  simpl in E1, E2. rewrite E1, E2.
  destruct (relative_strength_total s1 s2) as (stronger & ratio & ->).
  cbn [bind].
  rewrite (conflict_check_calm g w stronger ratio Hg Hsum H12 H21).
  unfold uniform, random. simpl stream. simpl cursor.
  pose proof (Hg (S (cursor g))) as Hr.
  rewrite Rltb_true by (unfold_constants; lra).
  destruct (cooperate w). eexists. reflexivity.
Qed.

Lemma conflict_log g w w' g' out n1 n2 :
  conflict g w = Ok (w', g', out) -> ~ In (Cooperation n1 n2) out.
Proof.
  unfold conflict. destruct (choose_attacker g w) as [a g1].
  destruct (calculate_strength (get a w)); [| discriminate].
  destruct (calculate_strength (get (other a) w)); [| discriminate].
  intros H. bind_inv H. destruct a0 as [l g2].
  unfold elimination_check, die in H.
  repeat match type of H with
         | context [if ?b then _ else _] => destruct b
         end;
    injection H as _ _ <-; simpl;
    intros Hin; repeat destruct Hin as [Hin | Hin]; try discriminate Hin;
    exact Hin.
Qed.

(** A cooperation event in the log of the interaction phase comes from
    [cooperate], and from nothing else. *)
Lemma interaction_phase_cooperation g w w' g' out :
  interaction_phase g w = Ok (w', g', out) ->
  (exists n1 n2, In (Cooperation n1 n2) out) ->
  w' = fst (cooperate w).
Proof.
  unfold interaction_phase.
  destruct (calculate_strength (civ1 w)); [| discriminate].
  destruct (calculate_strength (civ2 w)); [| discriminate].
  intros H (n1 & n2 & Hin). bind_inv H. destruct a as [stronger ratio].
  destruct (conflict_check g w stronger ratio) as [will_fight g1].
  destruct will_fight.
  - exfalso. exact (conflict_log _ _ _ _ _ n1 n2 H Hin).
  - unfold uniform, random in H.
    match type of H with context [if ?b then _ else _] => destruct b end.
    + injection H as <- _ _. reflexivity.
    + injection H as _ _ <-. destruct Hin as [Hin | []]. discriminate Hin.
Qed.

(** The state of [scholars] after the internal phase of the first turn:
    the first civilization has spent all its resources on research. *)
Lemma scholars_internal_phase :
  exists w,
    internal_phase scholars = Ok (w, [])
    /\ world_ok w /\ both_alive w
    /\ positive_traits (civ1 w) /\ positive_traits (civ2 w)
    /\ aggressiveness (civ1 w) = 1 /\ aggressiveness (civ2 w) = 1
    /\ cooperation (civ1 w) = 10 /\ cooperation (civ2 w) = 10
    /\ resources (civ1 w) = 0 /\ tech_level (civ1 w) = 20.
Proof.
  destruct (internal_phase_civ_first_turn "Aethel" 100 100 1 10)
    as (c1 & E1 & A1 & I1 & T1 & G1 & C1 & P1 & R1 & L1); try lra.
  destruct (internal_phase_civ_first_turn "Borog" 1 1 1 10)
    as (c2 & E2 & A2 & I2 & T2 & G2 & C2 & P2 & R2 & L2); try lra.
  destruct (internal_phase_ok scholars) as (w & out & E & Hw & _).
  { split; apply init_ok. }
  unfold internal_phase, scholars in *. simpl civ1 in *. simpl civ2 in *.
  rewrite E1, E2 in *. cbn [bind] in *. injection E as <- <-.
  exists (mkWorld c1 c2). split; [reflexivity |]. simpl.
  rewrite Rmin_left in R1, L1 by lra.
  repeat split; try assumption; try lra; try apply Hw.
Qed.

(** C6, the claim as stated fails: construct Aethel with intelligence 100,
    tech_rate 100, aggressiveness 1, cooperation 10 and Borog with 1, 1, 1,
    10, all traits positive.  In the first turn Aethel spends all its 950
    resources on research; the two then cooperate, whatever is drawn, and
    Aethel's resource bonus is 0 * 0.05 * (10 / 10) = 0: its resources do
    not increase. *)
Lemma cooperation_without_resource_gain :
  exists w,
    internal_phase scholars = Ok (w, [])
    /\ reachable w /\ both_alive w
    /\ positive_traits (civ1 w) /\ positive_traits (civ2 w)
    /\ (forall g, valid_rng g ->
        exists g',
          interaction_phase g w = Ok (fst (cooperate w), g', snd (cooperate w)))
    /\ resources (civ1 w) = 0
    /\ resources (civ1 (fst (cooperate w))) = 0
    /\ ~ cooperation_strictly_benefits w.
Proof.
  destruct scholars_internal_phase
    as (w & E & Hw & Hb & P1 & P2 & A1 & A2 & C1 & C2 & R1 & L1).
  exists w. split; [exact E |].
  assert (resources (civ1 (fst (cooperate w))) = 0) as R1'.
  { unfold cooperate. simpl. rewrite R1. lra. }
  repeat split; try assumption; try apply Hb; try apply P1; try apply P2.
  - destruct (internal_phase_ok scholars) as (w1 & out1 & E1 & _ & Hs & _).
    { split; apply init_ok. }
    rewrite E in E1. injection E1 as <- _.
    apply (steps_reachable _ _ Hs). apply reachable_init.
  - intros g Hg. apply interaction_phase_cooperates; try assumption; lra.
  - intros H. destruct (H First) as [Hres _]. cbn [get] in Hres.
    rewrite R1, R1' in Hres. lra.
Qed.

(** C6, amended. Whenever a cooperation event is logged, the state is
    updated by [cooperate]; and when both civilizations have positive
    intelligence and cooperation, each side gains own_resources *
    COOP_RESOURCE_BONUS * (partner.cooperation / 10) resources and
    COOP_TECH_BONUS * (partner.intelligence / 5) tech_level, both added to
    what it had.  Its tech_level strictly increases.  Its resources
    strictly increase if they were positive, and stay 0 if they were 0. *)
Theorem cooperation_benefits (w : World) :
  0 < intelligence (civ1 w) -> 0 < intelligence (civ2 w) ->
  0 < cooperation (civ1 w) -> 0 < cooperation (civ2 w) ->
  (forall g w' g' out,
     interaction_phase g w = Ok (w', g', out) ->
     (exists n1 n2, In (Cooperation n1 n2) out) ->
     w' = fst (cooperate w))
  /\ forall s,
       let c := get s w in
       let partner := get (other s) w in
       let c' := get s (fst (cooperate w)) in
       resources c'
       = resources c
         + resources c * COOP_RESOURCE_BONUS * (cooperation partner / 10.0)
       /\ tech_level c'
          = tech_level c + COOP_TECH_BONUS * (intelligence partner / 5.0)
       /\ tech_level c < tech_level c'
       /\ (0 < resources c -> resources c < resources c')
       /\ (resources c = 0 -> resources c' = 0).
Proof.
  intros I1 I2 C1 C2. split.
  - intros g w' g' out. apply interaction_phase_cooperation.
  - intros s. destruct s; unfold cooperate; simpl;
      (split; [reflexivity |]); (split; [reflexivity |]);
      unfold_constants; (split; [lra |]); split; intros H.
    + assert (0 < resources (civ1 w) * 0.05 * (cooperation (civ2 w) / 10.0)).
      { apply Rmult_lt_0_compat; [apply Rmult_lt_0_compat |]; lra. }
      lra.
    + rewrite H. lra.
    + assert (0 < resources (civ2 w) * 0.05 * (cooperation (civ1 w) / 10.0)).
      { apply Rmult_lt_0_compat; [apply Rmult_lt_0_compat |]; lra. }
      lra.
    + rewrite H. lra.
Qed.

Lemma cooperation_benefits_witness :
  let w := mkWorld civilization1 civilization2 in
  (forall g w' g' out,
     interaction_phase g w = Ok (w', g', out) ->
     (exists n1 n2, In (Cooperation n1 n2) out) ->
     w' = fst (cooperate w))
  /\ forall s,
       let c := get s w in
       let partner := get (other s) w in
       let c' := get s (fst (cooperate w)) in
       resources c'
       = resources c
         + resources c * COOP_RESOURCE_BONUS * (cooperation partner / 10.0)
       /\ tech_level c'
          = tech_level c + COOP_TECH_BONUS * (intelligence partner / 5.0)
       /\ tech_level c < tech_level c'
       /\ (0 < resources c -> resources c < resources c')
       /\ (resources c = 0 -> resources c' = 0).
Proof.
  apply (cooperation_benefits
           (mkWorld civilization1 civilization2)); simpl.
  - pose proof (Rmax_r 1 8). lra.
  - pose proof (Rmax_r 1 4). lra.
  - pose proof (Rmax_r 0 8). lra.
  - pose proof (Rmax_r 0 2). lra.
Defined.

(** * Further properties of the code *)

(** ** The methods *)

(** X1. A living civilization with a positive population survives
    [consume_resources] exactly when its resources exceed a thirtieth of
    its population: below that, the deficit times 15 reaches the whole
    population. *)
Theorem consume_resources_survival (self : Civilization) :
  is_alive self = true -> 0 < population self ->
  (is_alive (fst (consume_resources self)) = true
   <-> population self / 30 < resources self).
Proof.
  intros Ha Hp. unfold consume_resources. rewrite Ha. simpl.
  unfold_constants.
  destruct (Rltb_spec (resources self - population self * 0.1) 0) as [Hn | Hn].
  - rewrite Rabs_left by exact Hn.
    match goal with |- context [Rleb ?a 0] => destruct (Rleb_spec a 0) as [Hd | Hd] end;
      simpl; revert Hd; unfold Rmin;
      match goal with |- context [Rle_dec ?a ?b] => destruct (Rle_dec a b) end;
      intros Hd; split; intros H; try discriminate H; try assumption; lra.
  - simpl. split; intros _; [lra | exact Ha].
Qed.

Lemma consume_resources_survival_witness :
  is_alive (fst (consume_resources civilization1)) = true
  <-> population civilization1 / 30 < resources civilization1.
Proof.
  apply (consume_resources_survival civilization1).
  - reflexivity.
  - simpl. unfold_constants. lra.
Defined.

(** What [develop_technology] leaves alone. *)
Ltac finish_cases :=
  repeat split; intros;
  repeat match goal with H : _ /\ _ |- _ => destruct H end;
  repeat split; try reflexivity; try assumption; try discriminate; try lra.

Lemma develop_technology_facts (self self' : Civilization) :
  develop_technology self = Ok self' ->
  population self' = population self
  /\ is_alive self' = is_alive self
  /\ traits self' = traits self.
Proof.
  unfold develop_technology.
  destruct (negb (is_alive self) || (resources self <? TECH_RESOURCE_COST)).
  - intros H. injection H as <-. auto.
  - destruct (truediv _ _); simpl; [| discriminate].
    intros H. injection H as <-. auto.
Qed.

(** X2. Research trades resources for technology at the fixed rate of
    TECH_RESOURCE_COST per point: from a state that satisfies the invariant
    [develop_technology] raises nothing, what it takes from the resources is
    50 times what it adds to the tech_level, it takes no more than there
    is, it touches nothing else, and the tech_level rises strictly exactly
    when the civilization is alive and has at least 50 resources. *)
Theorem develop_technology_exchange (self : Civilization) :
  civ_ok self ->
  exists self',
    develop_technology self = Ok self'
    /\ resources self - resources self'
       = TECH_RESOURCE_COST * (tech_level self' - tech_level self)
    /\ 0 <= resources self - resources self' <= resources self
    /\ (tech_level self < tech_level self'
        <-> is_alive self = true /\ TECH_RESOURCE_COST <= resources self)
    /\ population self' = population self
    /\ is_alive self' = is_alive self
    /\ traits self' = traits self.
Proof.
  intros [Ht Hs]. pose proof Ht as (Hi & Hq & Hg & Hc).
  unfold develop_technology, state_ok in *.
  destruct (is_alive self) eqn:Ha; simpl.
  - destruct Hs as (Hp & Hr & Hl).
    destruct (Rltb_spec (resources self) TECH_RESOURCE_COST) as [Hlow | Hhigh].
    + exists self. split; [reflexivity |]. unfold_constants. finish_cases.
    + rewrite truediv_ok by lra. simpl.
      eexists. split; [reflexivity |]. simpl. rewrite Ha.
      match goal with |- context [Rmin (resources self) ?x] =>
        assert (0 < x) as Hx; [| pose proof (Rmin_l (resources self) x) as Hm;
          assert (0 < Rmin (resources self) x) as Hm0
            by (apply Rmin_glb_lt; unfold_constants; lra);
          set (m := Rmin (resources self) x) in *] end.
      { unfold_constants.
        apply Rmult_lt_0_compat; [| lra].
        apply Rmult_lt_0_compat; [| apply Rinv_0_lt_compat; lra].
        apply Rmult_lt_0_compat; [| lra].
        apply Rmult_lt_0_compat; [| lra].
        apply Rmult_lt_0_compat; lra. }
      unfold_constants. finish_cases.
  - exists self. destruct Hs as (_ & Hr & _).
    split; [reflexivity |]. unfold_constants. finish_cases.
Qed.

Lemma develop_technology_exchange_witness :
  exists self',
    develop_technology civilization1 = Ok self'
    /\ resources civilization1 - resources self'
       = TECH_RESOURCE_COST * (tech_level self' - tech_level civilization1)
    /\ 0 <= resources civilization1 - resources self' <= resources civilization1
    /\ (tech_level civilization1 < tech_level self'
        <-> is_alive civilization1 = true
            /\ TECH_RESOURCE_COST <= resources civilization1)
    /\ population self' = population civilization1
    /\ is_alive self' = is_alive civilization1
    /\ traits self' = traits civilization1.
Proof.
  exact (develop_technology_exchange civilization1 (init_ok _ _ _ _ _)).
Defined.

(** What [grow_population] keeps. *)
Lemma grow_population_facts (self self' : Civilization) :
  civ_ok self -> grow_population self = Ok self' ->
  population self <= population self'
  /\ civ_ok self'
  /\ tech_level self' = tech_level self
  /\ is_alive self' = is_alive self
  /\ traits self' = traits self.
Proof.
  intros Hc E. destruct (grow_population_ok self Hc) as (c & E' & H & A & T).
  assert (c = self') as -> by congruence.
  split; [| repeat split; try assumption; try apply H].
  - destruct Hc as [(_ & _ & _ & Hcoop) Hs]. clear E'. revert E.
    unfold grow_population, state_ok in *.
    destruct (is_alive self); simpl.
    + destruct Hs as (Hp & Hr & _).
      destruct (Rleb_spec (resources self) 0).
      * intros E. injection E as <-. lra.
      * rewrite truediv_ok by (unfold_constants; lra). simpl.
        intros E. injection E as <-. simpl.
        match goal with |- context [Rmax 0 ?x] =>
          pose proof (Rmax_l 0 x); set (m := Rmax 0 x) in * end.
        unfold_constants.
        assert (0 <= population self * 0.01 * m * (1 + cooperation self / 20.0)).
        { apply Rmult_le_pos; [apply Rmult_le_pos |]; lra. }
        lra.
    + intros E. injection E as <-. lra.
  - revert E. unfold grow_population.
    destruct (negb (is_alive self) || (resources self <=? 0)).
    + intros E. injection E as <-. reflexivity.
    + destruct (truediv _ _); simpl; [| discriminate].
      intros E. injection E as <-. reflexivity.
Qed.

(** X3. From a state that satisfies the invariant [grow_population]
    raises nothing and never lowers the population; the population rises
    strictly exactly when the civilization is alive and has resources left,
    and nothing else changes. *)
Theorem grow_population_grows (self : Civilization) :
  civ_ok self ->
  exists self',
    grow_population self = Ok self'
    /\ population self <= population self'
    /\ (population self < population self'
        <-> is_alive self = true /\ 0 < resources self)
    /\ resources self' = resources self
    /\ tech_level self' = tech_level self
    /\ is_alive self' = is_alive self
    /\ traits self' = traits self.
Proof.
  intros [Ht Hs]. pose proof Ht as (Hi & Hq & Hg & Hc).
  unfold grow_population, state_ok in *.
  destruct (is_alive self) eqn:Ha; simpl.
  - destruct Hs as (Hp & Hr & Hl).
    destruct (Rleb_spec (resources self) 0) as [Hlow | Hhigh].
    + exists self. split; [reflexivity |]. finish_cases.
    + rewrite truediv_ok by (unfold_constants; lra). simpl.
      eexists. split; [reflexivity |]. simpl. rewrite Ha.
      assert (0 < resources self / (population self * POP_RESOURCE_COST * 5 + 1))
        as Hq'.
      { apply Rdiv_lt_0_compat; unfold_constants; lra. }
      rewrite Rmax_right by lra.
      set (q := resources self / (population self * POP_RESOURCE_COST * 5 + 1)) in *.
      assert (0 < population self * POP_GROWTH_RATE_BASE * (1 + q)
                  * (1 + cooperation self / 20.0)) as Hgrow.
      { unfold_constants.
        apply Rmult_lt_0_compat; [apply Rmult_lt_0_compat |]; lra. }
      finish_cases.
  - exists self. split; [reflexivity |]. finish_cases.
Qed.

Lemma grow_population_grows_witness :
  exists self',
    grow_population civilization1 = Ok self'
    /\ population civilization1 <= population self'
    /\ (population civilization1 < population self'
        <-> is_alive civilization1 = true /\ 0 < resources civilization1)
    /\ resources self' = resources civilization1
    /\ tech_level self' = tech_level civilization1
    /\ is_alive self' = is_alive civilization1
    /\ traits self' = traits civilization1.
Proof.
  exact (grow_population_grows civilization1 (init_ok _ _ _ _ _)).
Defined.

(** ** The internal phase *)

(** What is gathered always covers what is consumed. *)
Lemma feed_never_starves c :
  civ_ok c -> is_alive c = true ->
  exists r,
    consume_resources (gather_resources c) = (set_resources c r, [])
    /\ 0.45 * population c <= r.
Proof.
  intros [_ Hs] Ha. unfold state_ok in Hs. rewrite Ha in Hs.
  destruct Hs as (Hp & Hr & Hl).
  unfold gather_resources, consume_resources. rewrite Ha. simpl. rewrite Ha.
  simpl. unfold_constants.
  assert (0 <= population c * (tech_level c - 1)) as Hpt
    by (apply Rmult_le_pos; lra).
  rewrite Rltb_false by lra.
  eexists. split.
  - unfold set_resources. simpl. reflexivity.
  - lra.
Qed.

Lemma internal_phase_civ_fed c :
  civ_ok c ->
  exists c',
    internal_phase_civ c = Ok (c', [])
    /\ civ_ok c'
    /\ is_alive c' = is_alive c
    /\ population c <= population c'
    /\ tech_level c <= tech_level c'
    /\ traits c' = traits c.
Proof.
  intros Hc. unfold internal_phase_civ.
  destruct (is_alive c) eqn:Ha.
  - destruct (feed_never_starves c Hc Ha) as (r & -> & Hr).
    assert (civ_ok (set_resources c r)) as H1.
    { destruct Hc as [Ht Hs]. split; [exact Ht |].
      unfold state_ok in *. simpl. rewrite Ha in *.
      destruct Hs as (Hp & _ & Hl). repeat split; try assumption. lra. }
    simpl. rewrite Ha.
    destruct (grow_population_ok _ H1) as (c2 & E2 & _).
    destruct (grow_population_facts _ c2 H1 E2) as (P2 & H2 & T2 & A2 & I2).
    rewrite E2. cbn [bind].
    destruct (develop_technology_ok _ H2) as (c3 & E3 & H3 & _ & T3).
    destruct (develop_technology_facts _ c3 E3) as (P3 & A3 & I3).
    rewrite E3. cbn [bind]. exists c3. split; [reflexivity |].
    change (traits (set_resources c r)) with (traits c) in I2.
    simpl in P2, T2, A2.
    split; [exact H3 |]. split; [congruence |].
    split; [lra |]. split; [lra | congruence].
  - exists c. split; [reflexivity |]. split; [exact Hc |].
    split; [exact Ha |]. split; [lra |]. split; [lra | reflexivity].
Qed.

Lemma internal_phase_fed w :
  world_ok w ->
  exists w',
    internal_phase w = Ok (w', [])
    /\ world_ok w'
    /\ forall s,
         is_alive (get s w') = is_alive (get s w)
         /\ population (get s w) <= population (get s w')
         /\ tech_level (get s w) <= tech_level (get s w')
         /\ traits (get s w') = traits (get s w).
Proof.
  intros [H1 H2]. unfold internal_phase.
  destruct (internal_phase_civ_fed _ H1) as (c1 & -> & K1 & F1).
  destruct (internal_phase_civ_fed _ H2) as (c2 & -> & K2 & F2).
  cbn [bind]. eexists. split; [reflexivity |].
  split; [split; assumption |].
  intros s. destruct s; simpl; assumption.
Qed.

(** X4. In a reachable state the internal phase of a turn raises
    nothing, prints nothing and kills nobody: what a living civilization
    gathers (at least 0.55 per head) exceeds what it consumes (0.1 per
    head), so the starvation branch of [consume_resources] is never taken
    inside the loop.  Each civilization is alive after the phase exactly if
    it was before, with a population and a tech_level that are not lower
    and with the traits it had. *)
Theorem internal_phase_never_starves (w : World) :
  reachable w ->
  exists w',
    internal_phase w = Ok (w', [])
    /\ forall s,
         is_alive (get s w') = is_alive (get s w)
         /\ population (get s w) <= population (get s w')
         /\ tech_level (get s w) <= tech_level (get s w')
         /\ traits (get s w') = traits (get s w).
Proof.
  intros Hr.
  destruct (internal_phase_fed w (reachable_ok w Hr)) as (w' & E & _ & H).
  exists w'. split; assumption.
Qed.

Lemma internal_phase_never_starves_witness :
  let w := mkWorld civilization1 civilization2 in
  exists w',
    internal_phase w = Ok (w', [])
    /\ forall s,
         is_alive (get s w') = is_alive (get s w)
         /\ population (get s w) <= population (get s w')
         /\ tech_level (get s w) <= tech_level (get s w')
         /\ traits (get s w') = traits (get s w).
Proof.
  exact (internal_phase_never_starves _ reachable_example).
Defined.

(** ** The interaction phase, case by case *)

Lemma truediv_inv x y q : truediv x y = Ok q -> y <> 0 /\ q = x / y.
Proof.
  unfold truediv. destruct (Req_dec_T y 0); [discriminate |].
  intros H. injection H as <-. split; [assumption | reflexivity].
Qed.

Lemma div_nonneg x y : 0 <= x -> 0 < y -> 0 <= x / y.
Proof.
  intros Hx Hy. unfold Rdiv. apply Rmult_le_pos; [exact Hx |].
  left. apply Rinv_0_lt_compat. exact Hy.
Qed.

Lemma div_gt_1 x y : 0 < y -> y < x -> 1 < x / y.
Proof.
  intros Hy Hxy. apply Rmult_lt_reg_r with y; [exact Hy |].
  unfold Rdiv. rewrite Rmult_assoc, Rinv_l by lra. lra.
Qed.

(** The three ways in which the interaction phase returns. *)
Lemma interaction_phase_inv g w w' g' out :
  interaction_phase g w = Ok (w', g', out) ->
  stream g' = stream g
  /\ ((exists g1, stream g1 = stream g /\ conflict g1 w = Ok (w', g', out))
      \/ (w', out) = cooperate w
      \/ (w' = w /\ out = [NoInteraction])).
Proof.
  unfold interaction_phase.
  destruct (calculate_strength (civ1 w)); [| discriminate].
  destruct (calculate_strength (civ2 w)); [| discriminate].
  destruct (relative_strength r r0) as [[stronger ratio] |]; [| discriminate].
  cbn [bind].
  pose proof (conflict_check_stream g w stronger ratio) as Hst.
  destruct (conflict_check g w stronger ratio) as [will_fight g1].
  simpl in Hst. destruct will_fight.
  - intros H. destruct (conflict_inv _ _ _ _ _ H) as (a & l & _ & Hs & _).
    split; [congruence |]. left. exists g1. split; assumption.
  - unfold uniform, random.
    match goal with |- context [if ?b then _ else _] => destruct b end.
    + destruct (cooperate w) as [w1 out1]. intros H. injection H as <- <- <-.
      split; [exact Hst |]. right. left. reflexivity.
    + intros H. injection H as <- <- <-.
      split; [exact Hst |]. right. right. split; reflexivity.
Qed.

(** ** Traits *)

Lemma call_traits m c c' out : call m c = Ok (c', out) -> traits c' = traits c.
Proof.
  destruct m; simpl.
  - intros H. injection H as <- _. unfold gather_resources.
    destruct (negb (is_alive c)); reflexivity.
  - intros H. injection H as H.
    assert (c' = fst (consume_resources c)) as -> by (rewrite H; reflexivity).
    unfold consume_resources. destruct (negb (is_alive c)); simpl; [reflexivity |].
    repeat match goal with
           | |- context [if ?b then _ else _] => destruct b; simpl
           end; reflexivity.
  - unfold grow_population.
    destruct (negb (is_alive c) || (resources c <=? 0)); simpl.
    + intros H. injection H as <- _. reflexivity.
    + destruct (truediv _ _); simpl; [| discriminate].
      intros H. injection H as <- _. reflexivity.
  - unfold develop_technology.
    destruct (negb (is_alive c) || (resources c <? TECH_RESOURCE_COST)); simpl.
    + intros H. injection H as <- _. reflexivity.
    + destruct (truediv _ _); simpl; [| discriminate].
      intros H. injection H as <- _. reflexivity.
  - intros H. injection H as <- _. reflexivity.
Qed.

Lemma elimination_check_traits c : traits (fst (elimination_check c)) = traits c.
Proof.
  unfold elimination_check.
  destruct ((population c <=? 1) || (resources c <? 0)); reflexivity.
Qed.

Lemma interaction_phase_traits g w w' g' out s :
  interaction_phase g w = Ok (w', g', out) ->
  traits (get s w') = traits (get s w).
Proof.
  intros H. apply interaction_phase_inv in H as [_ [H | [H | [-> _]]]].
  - destruct H as (g1 & _ & H).
    apply conflict_inv in H as (a & l & _ & _ & Hget).
    rewrite Hget, elimination_check_traits. reflexivity.
  - assert (w' = fst (cooperate w)) as -> by (rewrite <- H; reflexivity).
    destruct s; reflexivity.
  - reflexivity.
Qed.

Lemma step_traits w w' s : step w w' -> traits (get s w') = traits (get s w).
Proof.
  intros Hs. destruct Hs as [s' m w c out Hcall | g w w' g' out _ _ Hi].
  - apply call_traits in Hcall. destruct s, s'; simpl in *; congruence.
  - exact (interaction_phase_traits _ _ _ _ _ s Hi).
Qed.

Lemma steps_traits w w' s : steps w w' -> traits (get s w') = traits (get s w).
Proof.
  induction 1 as [w w' Hs | w | w w1 w2 _ IH1 _ IH2].
  - exact (step_traits w w' s Hs).
  - reflexivity.
  - congruence.
Qed.

(** X5. Name, intelligence, tech_rate, aggressiveness and cooperation
    are fixed at construction: no method call and no interaction changes
    them, so both civilizations come out of every run of the simulation
    with the traits they went in with, dead or alive. *)
Theorem traits_are_immutable (w : World) :
  reachable w ->
  (forall w' s, steps w w' -> traits (get s w') = traits (get s w))
  /\ forall num_turns g, valid_rng g ->
       exists w' g' out,
         run_simulation (civ1 w) (civ2 w) num_turns g = Ok (w', g', out)
         /\ forall s, traits (get s w') = traits (get s w).
Proof.
  intros Hr. split.
  - intros w' s Hs. exact (steps_traits w w' s Hs).
  - intros num_turns g Hg. pose proof (reachable_ok w Hr) as Hw.
    destruct w as [c1 c2].
    destruct (run_simulation_ok c1 c2 num_turns g Hw Hg)
      as (w' & g' & out & E & _ & _ & Hs & _).
    exists w', g', out. split; [exact E |].
    intros s. exact (steps_traits _ _ s Hs).
Qed.

Lemma traits_are_immutable_witness :
  let w := mkWorld civilization1 civilization2 in
  (forall w' s, steps w w' -> traits (get s w') = traits (get s w))
  /\ forall num_turns g, valid_rng g ->
       exists w' g' out,
         run_simulation (civ1 w) (civ2 w) num_turns g = Ok (w', g', out)
         /\ forall s, traits (get s w') = traits (get s w).
Proof.
  exact (traits_are_immutable _ reachable_example).
Defined.

(** ** Who is stronger, and who attacks *)

(** X6. The comparison of the two strengths never divides by zero,
    whatever the strengths are.  When it names a stronger side, that side
    is strictly stronger, the weaker strength is positive and the ratio is
    the quotient of the two, above 1; when it names none (equal strengths,
    or a weaker strength that is not positive), the ratio is 1. *)
Theorem relative_strength_spec (strength1 strength2 : R) :
  exists stronger ratio,
    relative_strength strength1 strength2 = Ok (stronger, ratio)
    /\ match stronger with
       | Some First =>
           0 < strength2 < strength1 /\ ratio = strength1 / strength2
           /\ 1 < ratio
       | Some Second =>
           0 < strength1 < strength2 /\ ratio = strength2 / strength1
           /\ 1 < ratio
       | None =>
           ratio = 1
           /\ ~ 0 < strength2 < strength1 /\ ~ 0 < strength1 < strength2
       end.
Proof.
  unfold relative_strength.
  destruct (Rltb_spec strength2 strength1); simpl.
  - destruct (Rltb_spec 0 strength2); simpl.
    + rewrite truediv_ok by lra. simpl. eexists. eexists.
      split; [reflexivity |]. split; [lra |]. split; [reflexivity |].
      apply div_gt_1; lra.
    + destruct (Rltb_spec strength1 strength2); simpl; [lra |].
      eexists. eexists. split; [reflexivity |]. repeat split; lra.
  - destruct (Rltb_spec strength1 strength2); simpl.
    + destruct (Rltb_spec 0 strength1); simpl.
      * rewrite truediv_ok by lra. simpl. eexists. eexists.
        split; [reflexivity |]. split; [lra |]. split; [reflexivity |].
        apply div_gt_1; lra.
      * eexists. eexists. split; [reflexivity |]. repeat split; lra.
    + eexists. eexists. split; [reflexivity |]. repeat split; lra.
Qed.

(** X7. The attacker is never the less aggressive side: when the two
    differ in aggressiveness the more aggressive one attacks and the
    generator is not consulted; only a tie is decided by a draw. *)
Theorem attacker_is_not_less_aggressive (g : RNG) (w : World) :
  let a := fst (choose_attacker g w) in
  aggressiveness (get (other a) w) <= aggressiveness (get a w)
  /\ (aggressiveness (civ1 w) <> aggressiveness (civ2 w) ->
      aggressiveness (get (other a) w) < aggressiveness (get a w)
      /\ snd (choose_attacker g w) = g).
Proof.
  unfold choose_attacker, sample2, random.
  destruct (Rltb_spec (aggressiveness (civ2 w)) (aggressiveness (civ1 w))).
  - simpl. split; [lra |]. intros _. split; [lra | reflexivity].
  - destruct (Rltb_spec (aggressiveness (civ1 w)) (aggressiveness (civ2 w))).
    + simpl. split; [lra |]. intros _. split; [lra | reflexivity].
    + simpl. destruct (Rltb _ _); simpl; (split; [lra |]); intros Hne;
        exfalso; apply Hne; lra.
Qed.

(** ** Combat *)

(** None of the four losses is negative. *)
Lemma combat_losses_nonneg attacker defender s_attacker s_defender g l g' :
  valid_rng g ->
  0 <= s_attacker -> 0 <= s_defender ->
  0 <= population attacker -> 0 <= resources attacker ->
  0 <= tech_level attacker ->
  0 <= population defender -> 0 <= resources defender ->
  0 <= tech_level defender ->
  combat_losses attacker defender s_attacker s_defender g = Ok (l, g') ->
  0 <= attacker_pop_loss l /\ 0 <= attacker_res_loss l
  /\ 0 <= defender_pop_loss l /\ 0 <= defender_res_loss l.
Proof.
  intros Hg Hsa Hsd Hpa Hra Hta Hpd Hrd Htd H. unfold combat_losses in H.
  destruct (truediv s_attacker (s_defender + 1)) as [q |] eqn:Eq;
    [| discriminate]. cbn [bind] in H.
  apply truediv_inv in Eq as [_ ->].
  pose proof (Rmax_l 0 (s_attacker / (s_defender + 1) - 1)) as Hm.
  destruct (truediv s_defender _) as [des |] eqn:Edes; [| discriminate].
  cbn [bind] in H. apply truediv_inv in Edes as [_ Edes].
  assert (0 <= des) as Hdes by (rewrite Edes; apply div_nonneg; lra).
  destruct (truediv des (s_attacker + 1)) as [qa |] eqn:Eqa; [| discriminate].
  cbn [bind] in H. apply truediv_inv in Eqa as [_ Eqa].
  assert (0 <= qa) as Hqa by (rewrite Eqa; apply div_nonneg; lra).
  unfold uniform, random in H. cbn [stream cursor] in H.
  destruct (truediv s_attacker (des + 1)) as [qd |] eqn:Eqd; [| discriminate].
  cbn [bind] in H. apply truediv_inv in Eqd as [_ Eqd].
  assert (0 <= qd) as Hqd by (rewrite Eqd; apply div_nonneg; lra).
  destruct (truediv 1 (1 + tech_level attacker * 0.1)) as [ia |] eqn:Eia;
    [| discriminate]. cbn [bind] in H. apply truediv_inv in Eia as [_ Eia].
  assert (0 <= ia) as Hia by (rewrite Eia; apply div_nonneg; lra).
  destruct (truediv 1 (1 + tech_level defender * 0.1)) as [id |] eqn:Eid;
    [| discriminate]. cbn [bind] in H. apply truediv_inv in Eid as [_ Eid].
  assert (0 <= id) as Hid by (rewrite Eid; apply div_nonneg; lra).
  injection H as <- _. cbn [attacker_pop_loss attacker_res_loss
                            defender_pop_loss defender_res_loss].
  pose proof (Hg (cursor g)) as Hr1. pose proof (Hg (S (cursor g))) as Hr2.
  set (r1 := stream g (cursor g)) in *.
  set (r2 := stream g (S (cursor g))) in *.
  assert (0 <= COMBAT_LOSS_BASE * (1 + qa) * (0.7 + (1.3 - 0.7) * r1)) as Hma.
  { unfold_constants. apply Rmult_le_pos; [apply Rmult_le_pos |]; lra. }
  assert (0 <= COMBAT_LOSS_BASE * (1 + qd) * (0.7 + (1.3 - 0.7) * r2)) as Hmd.
  { unfold_constants. apply Rmult_le_pos; [apply Rmult_le_pos |]; lra. }
  repeat split; apply Rmin_glb; try lra;
    repeat (apply Rmult_le_pos; try assumption; try lra).
Qed.

Lemma combat_applies_nonneg g w a l s :
  world_ok w -> both_alive w -> valid_rng g ->
  combat_applies g w a l ->
  0 <= pop_loss_of a s l /\ 0 <= res_loss_of a s l.
Proof.
  intros Hw Hb Hg (g1 & sa & sd & g2 & Hch & Esa & Esd & H).
  assert (valid_rng g1) as Hg1.
  { apply (valid_rng_stream g); [| exact Hg].
    exact (choose_attacker_stream _ _ _ _ Hch). }
  assert (forall t, 0 <= population (get t w) /\ 0 <= resources (get t w)
                    /\ 0 <= tech_level (get t w)) as Hst.
  { intros t. destruct (get_ok t w Hw) as [_ Hs]. unfold state_ok in Hs.
    rewrite (get_alive t w Hb) in Hs. lra. }
  destruct (strength_of_ok _ (get_ok a w Hw)) as (sa' & Ea' & Hsa & _).
  destruct (strength_of_ok _ (get_ok (other a) w Hw)) as (sd' & Ed' & Hsd & _).
  assert (sa' = sa) as -> by congruence.
  assert (sd' = sd) as -> by congruence.
  destruct (Hst a) as (Pa & Ra & Ta).
  destruct (Hst (other a)) as (Pd & Rd & Td).
  pose proof (combat_losses_nonneg _ _ _ _ _ _ _ Hg1 Hsa Hsd
                Pa Ra Ta Pd Rd Td H) as (? & ? & ? & ?).
  destruct a, s; simpl; split; assumption.
Qed.

(** Both sides of a combat, before and after. *)
Lemma conflict_facts g w :
  world_ok w -> both_alive w -> valid_rng g ->
  exists w' g' out,
    conflict g w = Ok (w', g', out)
    /\ forall s,
         population (get s w') <= population (get s w)
         /\ resources (get s w') <= resources (get s w)
         /\ tech_level (get s w') <= tech_level (get s w)
         /\ (10 < population (get s w) -> is_alive (get s w') = true)
         /\ (is_alive (get s w') = true ->
             1 < population (get s w')
             /\ 0.1 * population (get s w) <= population (get s w')
             /\ 0.1 * resources (get s w) <= resources (get s w')
             /\ tech_level (get s w') = tech_level (get s w)).
Proof.
  intros Hw Hb Hg.
  destruct (conflict_total g w Hw Hb) as (w' & g' & out & Hc).
  exists w', g', out. split; [exact Hc |].
  apply conflict_inv in Hc as (a & l & Ha & _ & Hget).
  intros s. rewrite Hget.
  destruct (combat_applies_caps g w a l s Ha) as [Cp Cr].
  destruct (combat_applies_nonneg g w a l s Hw Hb Hg Ha) as [Np Nr].
  destruct (get_ok s w Hw) as [_ Hs]. unfold state_ok in Hs.
  rewrite (get_alive s w Hb) in Hs. destruct Hs as (Hp & Hr & Ht).
  unfold elimination_check, after_losses, apply_losses. simpl.
  destruct (Rleb_spec (population (get s w) - pop_loss_of a s l) 1);
    destruct (Rltb_spec (resources (get s w) - res_loss_of a s l) 0); simpl;
    repeat split; intros; try discriminate; try reflexivity; try lra.
  apply (get_alive s w Hb).
Qed.

(** X8. Combat only takes: from a reachable state with both alive, and
    for every draw, [conflict] raises nothing and leaves neither side with
    more population, more resources or a higher tech_level than it had. *)
Theorem combat_only_takes (g : RNG) (w : World) :
  reachable w -> both_alive w -> valid_rng g ->
  exists w' g' out,
    conflict g w = Ok (w', g', out)
    /\ forall s,
         population (get s w') <= population (get s w)
         /\ resources (get s w') <= resources (get s w)
         /\ tech_level (get s w') <= tech_level (get s w).
Proof.
  intros Hr Hb Hg.
  destruct (conflict_facts g w (reachable_ok w Hr) Hb Hg)
    as (w' & g' & out & Hc & H).
  exists w', g', out. split; [exact Hc |].
  intros s. destruct (H s) as (H1 & H2 & H3 & _). auto.
Qed.

Lemma combat_only_takes_witness :
  let g := mkRNG (fun _ => 0.5) 0 in
  let w := mkWorld civilization1 civilization2 in
  exists w' g' out,
    conflict g w = Ok (w', g', out)
    /\ forall s,
         population (get s w') <= population (get s w)
         /\ resources (get s w') <= resources (get s w)
         /\ tech_level (get s w') <= tech_level (get s w).
Proof.
  exact (combat_only_takes _ _ reachable_example both_alive_example
           valid_rng_half).
Defined.

(** X9. No civilization of more than 10 people is wiped out by one
    combat: from a reachable state with both alive, a side whose population
    exceeds 10 is alive after [conflict], and every side that is alive
    after it has more than 1 person, at least a tenth of the population and
    of the resources it had, and the tech_level it had. *)
Theorem combat_survival (g : RNG) (w : World) :
  reachable w -> both_alive w -> valid_rng g ->
  exists w' g' out,
    conflict g w = Ok (w', g', out)
    /\ forall s,
         (10 < population (get s w) -> is_alive (get s w') = true)
         /\ (is_alive (get s w') = true ->
             1 < population (get s w')
             /\ 0.1 * population (get s w) <= population (get s w')
             /\ 0.1 * resources (get s w) <= resources (get s w')
             /\ tech_level (get s w') = tech_level (get s w)).
Proof.
  intros Hr Hb Hg.
  destruct (conflict_facts g w (reachable_ok w Hr) Hb Hg)
    as (w' & g' & out & Hc & H).
  exists w', g', out. split; [exact Hc |].
  intros s. destruct (H s) as (_ & _ & _ & H4 & H5). auto.
Qed.

Lemma combat_survival_witness :
  let g := mkRNG (fun _ => 0.5) 0 in
  let w := mkWorld civilization1 civilization2 in
  exists w' g' out,
    conflict g w = Ok (w', g', out)
    /\ forall s,
         (10 < population (get s w) -> is_alive (get s w') = true)
         /\ (is_alive (get s w') = true ->
             1 < population (get s w')
             /\ 0.1 * population (get s w) <= population (get s w')
             /\ 0.1 * resources (get s w) <= resources (get s w')
             /\ tech_level (get s w') = tech_level (get s w)).
Proof.
  exact (combat_survival _ _ reachable_example both_alive_example
           valid_rng_half).
Defined.

(** ** Thresholds *)

Lemma conflict_log_events g w w' g' out :
  conflict g w = Ok (w', g', out) ->
  forallb conflict_event out = true
  /\ exists rest, out = Conflict (name (civ1 w)) (name (civ2 w)) :: rest.
Proof.
  unfold conflict. destruct (choose_attacker g w) as [a g1].
  destruct (calculate_strength (get a w)); [| discriminate].
  destruct (calculate_strength (get (other a) w)); [| discriminate].
  destruct (combat_losses _ _ _ _ _) as [[l g2] |]; [| discriminate].
  cbn [bind]. unfold elimination_check, die.
  repeat match goal with
         | |- context [if ?b then _ else _] => destruct b
         end;
    intros H; injection H as _ _ <-;
    (split; [reflexivity | eexists; reflexivity]).
Qed.

Lemma cooperate_log_events w : forallb cooperation_event (snd (cooperate w)) = true.
Proof. reflexivity. Qed.

Lemma forallb_impl (f h : Event -> bool) out :
  (forall e, f e = true -> h e = true) ->
  forallb f out = true -> forallb h out = true.
Proof.
  intros Himp. induction out as [| e out IH]; simpl; [reflexivity |].
  intros H. apply andb_true_iff in H as [He Ho].
  rewrite (Himp e He), (IH Ho). reflexivity.
Qed.

(** Combined aggressiveness of 7.2 or more exceeds the threshold for
    every draw. *)
Lemma conflict_check_forced g w stronger ratio :
  valid_rng g ->
  7.2 <= aggressiveness (civ1 w) + aggressiveness (civ2 w) ->
  conflict_check g w stronger ratio = (true, advance g).
Proof.
  intros Hg Hsum. unfold conflict_check, uniform, random.
  pose proof (Hg (cursor g)) as Hr.
  rewrite Rltb_true by (unfold_constants; lra). reflexivity.
Qed.

(** The interaction phase once the strengths are known to be floats. *)
Lemma interaction_phase_unfold g w :
  world_ok w ->
  exists stronger ratio,
    interaction_phase g w
    = (let (will_fight, g1) := conflict_check g w stronger ratio in
       if will_fight then conflict g1 w
       else
         let (u, g2) := uniform 0.8 1.2 g1 in
         if cooperation (civ1 w) + cooperation (civ2 w)
            >? COOPERATION_THRESHOLD_COOP * u
         then let (w', out) := cooperate w in Ok (w', g2, out)
         else Ok (w, g2, [NoInteraction])).
Proof.
  intros Hw. unfold interaction_phase.
  destruct (strength_of_ok _ (get_ok First w Hw)) as (s1 & E1 & _).
  destruct (strength_of_ok _ (get_ok Second w Hw)) as (s2 & E2 & _).
  simpl in E1, E2. rewrite E1, E2.
  destruct (relative_strength_total s1 s2) as (stronger & ratio & ->).
  cbn [bind]. exists stronger, ratio. reflexivity.
Qed.

(** X10. Some pairs of traits decide the interaction whatever is
    drawn.  In a reachable state with both alive the interaction phase
    raises nothing, and: with a combined aggressiveness of 7.2 or more it
    is a conflict; with a combined aggressiveness of at most 4.8 and
    aggressiveness values that differ by at most 3 it is no conflict; with
    a combined cooperation of at most 9.6 it is no cooperation; and without
    a conflict a combined cooperation of 14.4 or more makes it a
    cooperation. *)
Theorem interaction_decided_by_traits (g : RNG) (w : World) :
  reachable w -> both_alive w -> valid_rng g ->
  exists w' g' out,
    interaction_phase g w = Ok (w', g', out)
    /\ (7.2 <= aggressiveness (civ1 w) + aggressiveness (civ2 w) ->
        conflict (advance g) w = Ok (w', g', out)
        /\ forallb conflict_event out = true)
    /\ (aggressiveness (civ1 w) + aggressiveness (civ2 w) <= 4.8 ->
        Rabs (aggressiveness (civ1 w) - aggressiveness (civ2 w)) <= 3 ->
        forallb conflict_event out = false
        /\ ((w', out) = cooperate w \/ (w' = w /\ out = [NoInteraction])))
    /\ (cooperation (civ1 w) + cooperation (civ2 w) <= 9.6 ->
        forallb cooperation_event out = false)
    /\ (aggressiveness (civ1 w) + aggressiveness (civ2 w) <= 4.8 ->
        Rabs (aggressiveness (civ1 w) - aggressiveness (civ2 w)) <= 3 ->
        14.4 <= cooperation (civ1 w) + cooperation (civ2 w) ->
        (w', out) = cooperate w).
Proof.
  intros Hr Hb Hg. pose proof (reachable_ok w Hr) as Hw.
  destruct (interaction_phase_ok g w Hw Hb) as (w' & g' & out & E & _).
  exists w', g', out. split; [exact E |].
  destruct (interaction_phase_unfold g w Hw) as (stronger & ratio & U).
  rewrite U in E. clear U.
  assert (forall a b, Rabs (a - b) <= 3 -> a <= b + 3 /\ b <= a + 3) as Habs.
  { intros a b. unfold Rabs. destruct (Rcase_abs (a - b)); lra. }
  pose proof (Hg (S (cursor g))) as Hr2.
  split; [| split; [| split]].
  - intros Hsum. rewrite (conflict_check_forced g w stronger ratio Hg Hsum) in E.
    split; [exact E | exact (proj1 (conflict_log_events _ _ _ _ _ E))].
  - intros Hsum Hd. destruct (Habs _ _ Hd) as [H12 H21].
    rewrite (conflict_check_calm g w stronger ratio Hg Hsum H12 H21) in E.
    unfold uniform, random in E.
    match type of E with context [if ?b then _ else _] => destruct b end.
    + destruct (cooperate w) as [w1 out1] eqn:Ec. injection E as <- _ <-.
      split; [| left; reflexivity].
      assert (out1 = snd (cooperate w)) as -> by (rewrite Ec; reflexivity).
      reflexivity.
    + injection E as <- _ <-. split; [reflexivity | right; auto].
  - intros Hcoop.
    destruct (conflict_check g w stronger ratio) as [will_fight g1] eqn:Ecc.
    pose proof (conflict_check_stream g w stronger ratio) as Hst.
    rewrite Ecc in Hst. simpl in Hst.
    destruct will_fight.
    + destruct (conflict_log_events _ _ _ _ _ E) as [_ [rest ->]].
      reflexivity.
    + unfold uniform, random in E.
      assert (0 <= stream g1 (cursor g1) < 1) as Hr1
        by (rewrite Hst; apply Hg).
      rewrite Rltb_false in E by (unfold_constants; lra).
      injection E as _ _ <-. reflexivity.
  - intros Hsum Hd Hcoop. destruct (Habs _ _ Hd) as [H12 H21].
    rewrite (conflict_check_calm g w stronger ratio Hg Hsum H12 H21) in E.
    unfold uniform, random in E. simpl stream in E. simpl cursor in E.
    rewrite Rltb_true in E by (unfold_constants; lra).
    destruct (cooperate w) as [w1 out1]. injection E as <- _ <-. reflexivity.
Qed.

Lemma interaction_decided_by_traits_witness :
  let g := mkRNG (fun _ => 0.5) 0 in
  let w := mkWorld civilization1 civilization2 in
  exists w' g' out,
    interaction_phase g w = Ok (w', g', out)
    /\ (7.2 <= aggressiveness (civ1 w) + aggressiveness (civ2 w) ->
        conflict (advance g) w = Ok (w', g', out)
        /\ forallb conflict_event out = true)
    /\ (aggressiveness (civ1 w) + aggressiveness (civ2 w) <= 4.8 ->
        Rabs (aggressiveness (civ1 w) - aggressiveness (civ2 w)) <= 3 ->
        forallb conflict_event out = false
        /\ ((w', out) = cooperate w \/ (w' = w /\ out = [NoInteraction])))
    /\ (cooperation (civ1 w) + cooperation (civ2 w) <= 9.6 ->
        forallb cooperation_event out = false)
    /\ (aggressiveness (civ1 w) + aggressiveness (civ2 w) <= 4.8 ->
        Rabs (aggressiveness (civ1 w) - aggressiveness (civ2 w)) <= 3 ->
        14.4 <= cooperation (civ1 w) + cooperation (civ2 w) ->
        (w', out) = cooperate w).
Proof.
  exact (interaction_decided_by_traits _ _ reachable_example
           both_alive_example valid_rng_half).
Defined.

(** ** The loop, turn by turn *)

Lemma turn_headers_app out1 out2 :
  turn_headers (out1 ++ out2) = turn_headers out1 ++ turn_headers out2.
Proof.
  induction out1 as [| e out1 IH]; simpl; [reflexivity |].
  destruct e; simpl; rewrite IH; reflexivity.
Qed.

Lemma no_header_no_turn out :
  forallb (fun e => negb (is_header e)) out = true -> turn_headers out = [].
Proof.
  induction out as [| e out IH]; simpl; [reflexivity |].
  intros H. apply andb_true_iff in H as [He Ho].
  destruct e; try discriminate He; exact (IH Ho).
Qed.

Lemma display_status_no_turn c : turn_headers (display_status c) = [].
Proof. unfold display_status. destruct (negb (is_alive c)); reflexivity. Qed.

Lemma interaction_phase_no_turn g w w' g' out :
  interaction_phase g w = Ok (w', g', out) -> turn_headers out = [].
Proof.
  intros H. apply interaction_phase_inv in H as [_ [H | [H | [_ ->]]]].
  - destruct H as (g1 & _ & H). apply conflict_log_events in H as [H _].
    apply no_header_no_turn.
    apply (forallb_impl conflict_event); [| exact H].
    intros e. destruct e; simpl; intros He; try discriminate He; reflexivity.
  - assert (out = snd (cooperate w)) as -> by (rewrite <- H; reflexivity).
    reflexivity.
  - reflexivity.
Qed.

Lemma traits_aggressiveness c c' :
  traits c' = traits c ->
  aggressiveness c' = aggressiveness c /\ cooperation c' = cooperation c.
Proof. unfold traits. intros H. injection H as _ _ _ Ha Hc. auto. Qed.

Lemma not_both_alive w :
  negb (is_alive (civ1 w)) || negb (is_alive (civ2 w)) = true -> ~ both_alive w.
Proof.
  intros H [H1 H2]. rewrite H1, H2 in H. discriminate H.
Qed.

(** The loop under an invariant [Inv] of the state that the two phases
    keep, and a property [good] of the events that they print. *)
Section Loop.

Variable Inv : World -> Prop.
Variable good : Event -> bool.

Hypothesis Inv_ok : forall w, Inv w -> world_ok w.
Hypothesis Inv_internal :
  forall w w1, Inv w -> internal_phase w = Ok (w1, []) -> Inv w1.
Hypothesis Inv_interaction :
  forall g w w' g' out,
    Inv w -> both_alive w -> valid_rng g ->
    interaction_phase g w = Ok (w', g', out) ->
    Inv w' /\ forallb good out = true.
Hypothesis good_start : good SimulationStart = true.
Hypothesis good_separator : good Separator = true.
Hypothesis good_header : forall t, good (TurnHeader t) = true.
Hypothesis good_status : forall c, forallb good (display_status c) = true.
Hypothesis good_eliminated : good EndedEliminated = true.
Hypothesis good_limit : forall n, good (EndedTurnLimit n) = true.

Lemma turn_body_loop num_turns turn g w :
  Inv w -> valid_rng g ->
  exists w' g' body tail ctl,
    turn_body num_turns turn g w
    = Ok (w', g', TurnHeader turn :: body ++ tail, ctl)
    /\ Inv w' /\ valid_rng g'
    /\ forallb good (body ++ tail) = true
    /\ turn_headers body = []
    /\ ((ctl = Break /\ tail = [EndedEliminated] /\ ~ both_alive w')
        \/ (ctl = Break /\ tail = [EndedTurnLimit num_turns]
            /\ both_alive w' /\ turn = num_turns)
        \/ (ctl = Continue /\ tail = [] /\ both_alive w'
            /\ turn <> num_turns)).
Proof.
  intros Hi Hg. unfold turn_body.
  destruct (internal_phase_fed w (Inv_ok w Hi)) as (w1 & E1 & Hw1 & _).
  rewrite E1. cbn [bind]. pose proof (Inv_internal w w1 Hi E1) as Hi1.
  destruct (negb (is_alive (civ1 w1)) || negb (is_alive (civ2 w1))) eqn:Hd.
  - exists w1, g, (display_status (civ1 w1) ++ display_status (civ2 w1)),
      [EndedEliminated], Break.
    split; [simpl; rewrite <- app_assoc; reflexivity |].
    split; [exact Hi1 |]. split; [exact Hg |].
    split; [| split].
    + rewrite !forallb_app, !good_status. simpl. rewrite good_eliminated.
      reflexivity.
    + rewrite turn_headers_app, !display_status_no_turn. reflexivity.
    + left. split; [reflexivity |]. split; [reflexivity |].
      exact (not_both_alive w1 Hd).
  - apply both_alive_dec in Hd.
    destruct (interaction_phase_ok g w1 Hw1 Hd)
      as (w2 & g2 & out2 & E2 & _ & G2 & _).
    rewrite E2. cbn [bind].
    destruct (Inv_interaction g w1 w2 g2 out2 Hi1 Hd Hg E2) as [Hi2 Hgood].
    pose proof (valid_rng_stream g g2 G2 Hg) as Hg2.
    pose proof (interaction_phase_no_turn _ _ _ _ _ E2) as Hno.
    assert (forallb good
              (out2 ++ display_status (civ1 w2) ++ display_status (civ2 w2))
            = true) as Hbody
      by (rewrite !forallb_app, !good_status, Hgood; reflexivity).
    assert (turn_headers
              (out2 ++ display_status (civ1 w2) ++ display_status (civ2 w2))
            = []) as Hhead
      by (rewrite !turn_headers_app, !display_status_no_turn, Hno; reflexivity).
    destruct (negb (is_alive (civ1 w2)) || negb (is_alive (civ2 w2))) eqn:Hd2;
      [| destruct (Z.eqb_spec turn num_turns) as [Heq | Hne]].
    + exists w2, g2,
        (out2 ++ display_status (civ1 w2) ++ display_status (civ2 w2)),
        [EndedEliminated], Break.
      split; [reflexivity |]. split; [exact Hi2 |]. split; [exact Hg2 |].
      split; [| split; [exact Hhead |]].
      * rewrite forallb_app, Hbody. simpl. rewrite good_eliminated. reflexivity.
      * left. split; [reflexivity |]. split; [reflexivity |].
        exact (not_both_alive w2 Hd2).
    + exists w2, g2,
        (out2 ++ display_status (civ1 w2) ++ display_status (civ2 w2)),
        [EndedTurnLimit num_turns], Break.
      split; [reflexivity |]. split; [exact Hi2 |]. split; [exact Hg2 |].
      split; [| split; [exact Hhead |]].
      * rewrite forallb_app, Hbody. simpl. rewrite good_limit. reflexivity.
      * right. left. split; [reflexivity |]. split; [reflexivity |].
        split; [exact (both_alive_dec w2 Hd2) | exact Heq].
    + exists w2, g2,
        (out2 ++ display_status (civ1 w2) ++ display_status (civ2 w2)),
        [], Continue.
      split; [rewrite app_nil_r; reflexivity |].
      split; [exact Hi2 |]. split; [exact Hg2 |].
      split; [rewrite app_nil_r; exact Hbody |]. split; [exact Hhead |].
      right. right. split; [reflexivity |]. split; [reflexivity |].
      split; [exact (both_alive_dec w2 Hd2) | exact Hne].
Qed.

Lemma for_turns_loop n : forall num_turns turn g w,
  Inv w -> valid_rng g ->
  exists w' g' out k,
    for_turns n num_turns turn g w = Ok (w', g', out)
    /\ Inv w' /\ valid_rng g'
    /\ forallb good out = true
    /\ (k <= n)%nat
    /\ turn_headers out = turns_from turn k
    /\ (n <> O -> (Z.of_nat n + turn = num_turns + 1)%Z ->
        exists pre,
          (out = pre ++ [EndedEliminated] /\ ~ both_alive w')
          \/ (out = pre ++ [EndedTurnLimit num_turns]
              /\ both_alive w' /\ k = n)).
Proof.
  induction n as [| n IH]; intros num_turns turn g w Hi Hg; simpl for_turns.
  - exists w, g, [], O. split; [reflexivity |]. split; [exact Hi |].
    split; [exact Hg |]. split; [reflexivity |]. split; [apply le_n |].
    split; [reflexivity |]. intros H. contradiction.
  - destruct (turn_body_loop num_turns turn g w Hi Hg)
      as (w1 & g1 & body & tail & ctl & -> & Hi1 & Hg1 & Hgood & Hhead & Hc).
    cbn [bind].
    destruct Hc as [(-> & -> & Hdead) | [(-> & -> & Hb & Heq)
                                        | (-> & -> & Hb & Hne)]].
    + exists w1, g1, (TurnHeader turn :: body ++ [EndedEliminated]), 1%nat.
      split; [reflexivity |]. split; [exact Hi1 |]. split; [exact Hg1 |].
      split; [simpl; rewrite good_header, Hgood; reflexivity |].
      split; [apply le_n_S, Nat.le_0_l |].
      split; [simpl; rewrite turn_headers_app, Hhead; reflexivity |].
      intros _ _. exists (TurnHeader turn :: body). left.
      split; [reflexivity | exact Hdead].
    + exists w1, g1,
        (TurnHeader turn :: body ++ [EndedTurnLimit num_turns]), 1%nat.
      split; [reflexivity |]. split; [exact Hi1 |]. split; [exact Hg1 |].
      split; [simpl; rewrite good_header, Hgood; reflexivity |].
      split; [apply le_n_S, Nat.le_0_l |].
      split; [simpl; rewrite turn_headers_app, Hhead; reflexivity |].
      intros _ Hn. exists (TurnHeader turn :: body). right.
      split; [reflexivity |]. split; [exact Hb |]. lia.
    + destruct (IH num_turns (turn + 1)%Z g1 w1 Hi1 Hg1)
        as (w2 & g2 & out2 & k & -> & Hi2 & Hg2 & Hgood2 & Hk & Hh2 & Hend).
      cbn [bind].
      exists w2, g2, ((TurnHeader turn :: body ++ []) ++ out2), (S k).
      split; [reflexivity |]. split; [exact Hi2 |]. split; [exact Hg2 |].
      split; [rewrite forallb_app; simpl; rewrite good_header, Hgood, Hgood2;
              reflexivity |].
      split; [apply le_n_S; exact Hk |].
      split.
      { rewrite turn_headers_app. simpl.
        rewrite turn_headers_app, Hhead, Hh2. reflexivity. }
      intros _ Hn.
      assert (n <> O) as Hn0 by lia.
      destruct (Hend Hn0 ltac:(lia)) as [pre [[-> Hd] | (-> & Hb2 & ->)]].
      * exists ((TurnHeader turn :: body ++ []) ++ pre). left.
        split; [rewrite app_assoc; reflexivity | exact Hd].
      * exists ((TurnHeader turn :: body ++ []) ++ pre). right.
        split; [rewrite app_assoc; reflexivity |].
        split; [exact Hb2 | reflexivity].
Qed.

Lemma run_simulation_loop c1 c2 num_turns g :
  Inv (mkWorld c1 c2) -> valid_rng g ->
  exists w' g' out k,
    run_simulation c1 c2 num_turns g = Ok (w', g', out)
    /\ Inv w'
    /\ forallb good out = true
    /\ (k <= Z.to_nat num_turns)%nat
    /\ turn_headers out = turns_from 1 k
    /\ ((num_turns <= 0)%Z -> w' = mkWorld c1 c2 /\ g' = g /\ k = O)
    /\ ((1 <= num_turns)%Z ->
        exists pre,
          (out = pre ++ [EndedEliminated] /\ ~ both_alive w')
          \/ (out = pre ++ [EndedTurnLimit num_turns]
              /\ both_alive w' /\ k = Z.to_nat num_turns)).
Proof.
  intros Hi Hg. unfold run_simulation.
  destruct (for_turns_loop (Z.to_nat num_turns) num_turns 1%Z g _ Hi Hg)
    as (w' & g' & out & k & E & Hi' & _ & Hgood & Hk & Hh & Hend).
  rewrite E. cbn [bind]. exists w', g'. eexists. exists k.
  split; [reflexivity |]. split; [exact Hi' |].
  split.
  { rewrite forallb_app. simpl. rewrite good_start.
    rewrite !forallb_app, !good_status. simpl. rewrite good_separator, Hgood.
    reflexivity. }
  split; [exact Hk |].
  split.
  { rewrite turn_headers_app. simpl.
    rewrite !turn_headers_app, !display_status_no_turn. exact Hh. }
  split.
  - intros Hn. assert (Z.to_nat num_turns = O) as Hz by lia.
    rewrite Hz in E, Hk. simpl in E. injection E as <- <- _.
    repeat split. lia.
  - intros Hn.
    destruct (Hend ltac:(lia) ltac:(lia)) as [pre [[-> Hd] | (-> & Hb & ->)]].
    + eexists. left. split; [rewrite app_assoc; reflexivity | exact Hd].
    + eexists. right. split; [rewrite app_assoc; reflexivity |].
      split; [exact Hb | reflexivity].
Qed.

End Loop.

(** ** Whole runs *)

Lemma interaction_phase_world_ok g w w' g' out :
  world_ok w -> both_alive w ->
  interaction_phase g w = Ok (w', g', out) -> world_ok w'.
Proof.
  intros Hw Hb E.
  destruct (interaction_phase_ok g w Hw Hb) as (w1 & g1 & out1 & E1 & H & _).
  congruence.
Qed.

Lemma internal_phase_world_ok w w1 :
  world_ok w -> internal_phase w = Ok (w1, []) -> world_ok w1.
Proof.
  intros Hw E. destruct (internal_phase_fed w Hw) as (w2 & E2 & H & _).
  congruence.
Qed.

Lemma interaction_phase_no_starvation g w w' g' out :
  interaction_phase g w = Ok (w', g', out) -> forallb no_starvation out = true.
Proof.
  intros H. apply interaction_phase_inv in H as [_ [H | [H | [_ ->]]]].
  - destruct H as (g1 & _ & H). apply conflict_log_events in H as [H _].
    apply (forallb_impl conflict_event); [| exact H].
    intros e. destruct e; simpl; intros He; try discriminate He;
      reflexivity || exact He.
  - assert (out = snd (cooperate w)) as -> by (rewrite <- H; reflexivity).
    reflexivity.
  - reflexivity.
Qed.

Lemma display_status_forallb (good : Event -> bool) c :
  (forall n, good (StatusEliminated n) = true) ->
  (forall n p r t s, good (StatusAlive n p r t s) = true) ->
  forallb good (display_status c) = true.
Proof.
  intros H1 H2. unfold display_status. destruct (negb (is_alive c)); simpl;
    rewrite ?H1, ?H2; reflexivity.
Qed.

(** X11. A run announces the turns 1, 2, ..., k in this order, for
    some k that is at most [num_turns].  With [num_turns] 0 or negative it
    performs no turn and no draw and returns the two civilizations as they
    were.  With [num_turns] at least 1 its last line tells why it ended: the
    turn limit, exactly after [num_turns] turns and with both alive, or an
    elimination, with at least one of the two dead. *)
Theorem run_announces_turns_and_end (w : World) (num_turns : Z) (g : RNG) :
  reachable w -> valid_rng g ->
  exists w' g' out k,
    run_simulation (civ1 w) (civ2 w) num_turns g = Ok (w', g', out)
    /\ (k <= Z.to_nat num_turns)%nat
    /\ turn_headers out = turns_from 1 k
    /\ ((num_turns <= 0)%Z -> w' = w /\ g' = g /\ k = O)
    /\ ((1 <= num_turns)%Z ->
        exists pre,
          (out = pre ++ [EndedEliminated] /\ ~ both_alive w')
          \/ (out = pre ++ [EndedTurnLimit num_turns]
              /\ both_alive w' /\ k = Z.to_nat num_turns)).
Proof.
  intros Hr Hg. pose proof (reachable_ok w Hr) as Hw. destruct w as [c1 c2].
  destruct (run_simulation_loop world_ok (fun _ => true)
              (fun w H => H) internal_phase_world_ok) with
    (c1 := c1) (c2 := c2) (num_turns := num_turns) (g := g)
    as (w' & g' & out & k & E & _ & _ & H); try reflexivity; try assumption.
  - intros g0 w0 w1 g1 out1 H0 Hb _ E.
    split; [exact (interaction_phase_world_ok _ _ _ _ _ H0 Hb E) |].
    clear. induction out1; simpl; auto.
  - intros c. apply display_status_forallb; reflexivity.
  - exists w', g', out, k. split; [exact E | exact H].
Qed.

Lemma run_announces_turns_and_end_witness :
  let w := mkWorld civilization1 civilization2 in
  let g := mkRNG (fun _ => 0.5) 0 in
  exists w' g' out k,
    run_simulation (civ1 w) (civ2 w) simulation_turns g = Ok (w', g', out)
    /\ (k <= Z.to_nat simulation_turns)%nat
    /\ turn_headers out = turns_from 1 k
    /\ ((simulation_turns <= 0)%Z -> w' = w /\ g' = g /\ k = O)
    /\ ((1 <= simulation_turns)%Z ->
        exists pre,
          (out = pre ++ [EndedEliminated] /\ ~ both_alive w')
          \/ (out = pre ++ [EndedTurnLimit simulation_turns]
              /\ both_alive w' /\ k = Z.to_nat simulation_turns)).
Proof.
  exact (run_announces_turns_and_end _ simulation_turns _ reachable_example
           valid_rng_half).
Defined.

(** X12. Inside a run nobody starves: for every number of turns and
    every sequence of draws, the log of a run from a reachable state holds
    no resource shortage, and every elimination it reports is one by
    "combat losses". *)
Theorem run_kills_in_combat_only (w : World) (num_turns : Z) (g : RNG) :
  reachable w -> valid_rng g ->
  exists w' g' out,
    run_simulation (civ1 w) (civ2 w) num_turns g = Ok (w', g', out)
    /\ forallb no_starvation out = true.
Proof.
  intros Hr Hg. pose proof (reachable_ok w Hr) as Hw. destruct w as [c1 c2].
  destruct (run_simulation_loop world_ok no_starvation
              (fun w H => H) internal_phase_world_ok) with
    (c1 := c1) (c2 := c2) (num_turns := num_turns) (g := g)
    as (w' & g' & out & k & E & _ & H & _); try reflexivity; try assumption.
  - intros g0 w0 w1 g1 out1 H0 Hb _ E.
    split; [exact (interaction_phase_world_ok _ _ _ _ _ H0 Hb E) |].
    exact (interaction_phase_no_starvation _ _ _ _ _ E).
  - intros c. apply display_status_forallb; reflexivity.
  - exists w', g', out. split; assumption.
Qed.

Lemma run_kills_in_combat_only_witness :
  let w := mkWorld civilization1 civilization2 in
  exists w' g' out,
    run_simulation (civ1 w) (civ2 w) simulation_turns
      (mkRNG (fun _ => 0.5) 0)
    = Ok (w', g', out)
    /\ forallb no_starvation out = true.
Proof.
  exact (run_kills_in_combat_only _ simulation_turns _ reachable_example
           valid_rng_half).
Defined.

(** X13. A pair whose combined aggressiveness is 7.2 or more is never
    at peace: in every run from a reachable state, for every number of
    turns and every sequence of draws, the log holds no cooperation and no
    turn without interaction, so that every turn that reaches the
    interaction phase is a conflict. *)
Theorem aggressive_pair_always_fights (w : World) (num_turns : Z) (g : RNG) :
  reachable w -> valid_rng g ->
  7.2 <= aggressiveness (civ1 w) + aggressiveness (civ2 w) ->
  exists w' g' out,
    run_simulation (civ1 w) (civ2 w) num_turns g = Ok (w', g', out)
    /\ forallb (fun e => negb (is_peaceful e)) out = true.
Proof.
  intros Hr Hg Hsum. pose proof (reachable_ok w Hr) as Hw.
  destruct w as [c1 c2].
  destruct (run_simulation_loop
              (fun w => world_ok w
                        /\ 7.2 <= aggressiveness (civ1 w) + aggressiveness (civ2 w))
              (fun e => negb (is_peaceful e))) with
    (c1 := c1) (c2 := c2) (num_turns := num_turns) (g := g)
    as (w' & g' & out & k & E & _ & H & _); try reflexivity; try assumption.
  - intros w0 [H0 _]. exact H0.
  - intros w0 w1 [H0 Hs0] E.
    destruct (internal_phase_fed w0 H0) as (w2 & E2 & H2 & F).
    assert (w2 = w1) as -> by congruence.
    split; [exact H2 |].
    destruct (F First) as (_ & _ & _ & T1). destruct (F Second) as (_ & _ & _ & T2).
    apply traits_aggressiveness in T1 as [A1 _].
    apply traits_aggressiveness in T2 as [A2 _].
    simpl in A1, A2. rewrite A1, A2. exact Hs0.
  - intros g0 w0 w1 g1 out1 [H0 Hs0] Hb Hg0 E.
    pose proof (interaction_phase_traits _ _ _ _ _ First E) as T1.
    pose proof (interaction_phase_traits _ _ _ _ _ Second E) as T2.
    apply traits_aggressiveness in T1 as [A1 _].
    apply traits_aggressiveness in T2 as [A2 _].
    simpl in A1, A2.
    split; [split; [exact (interaction_phase_world_ok _ _ _ _ _ H0 Hb E) |
                    rewrite A1, A2; exact Hs0] |].
    destruct (interaction_phase_unfold g0 w0 H0) as (stronger & ratio & U).
    rewrite U, (conflict_check_forced g0 w0 stronger ratio Hg0 Hs0) in E.
    apply conflict_log_events in E as [E _].
    apply (forallb_impl conflict_event); [| exact E].
    intros e. destruct e; simpl; intros He; try discriminate He; reflexivity.
  - intros c. apply display_status_forallb; reflexivity.
  - split; assumption.
  - exists w', g', out. split; assumption.
Qed.

(** The example of the source: aggressiveness 2 and 9. *)
Lemma aggressive_pair_always_fights_witness :
  let w := mkWorld civilization1 civilization2 in
  exists w' g' out,
    run_simulation (civ1 w) (civ2 w) simulation_turns
      (mkRNG (fun _ => 0.5) 0)
    = Ok (w', g', out)
    /\ forallb (fun e => negb (is_peaceful e)) out = true.
Proof.
  apply (aggressive_pair_always_fights
           (mkWorld civilization1 civilization2) simulation_turns
           (mkRNG (fun _ => 0.5) 0) reachable_example valid_rng_half).
  simpl. rewrite (Rmax_right 0 2), (Rmax_right 0 9) by lra. lra.
Defined.

(** X14. A pair of low aggression loses nobody: when both are alive,
    their combined aggressiveness is at most 4.8 and their aggressiveness
    values differ by at most 3, every run of at least one turn from a
    reachable state goes through all [num_turns] turns and ends at the turn
    limit with both alive, and its log holds no conflict, no shortage and
    no elimination, whatever is drawn. *)
Theorem calm_pair_survives (w : World) (num_turns : Z) (g : RNG) :
  reachable w -> valid_rng g -> both_alive w ->
  aggressiveness (civ1 w) + aggressiveness (civ2 w) <= 4.8 ->
  Rabs (aggressiveness (civ1 w) - aggressiveness (civ2 w)) <= 3 ->
  (1 <= num_turns)%Z ->
  exists w' g' pre,
    run_simulation (civ1 w) (civ2 w) num_turns g
    = Ok (w', g', pre ++ [EndedTurnLimit num_turns])
    /\ both_alive w'
    /\ turn_headers pre = turns_from 1 (Z.to_nat num_turns)
    /\ forallb (fun e => negb (conflict_event e) && no_starvation e) pre = true.
Proof.
  intros Hr Hg Hb Hsum Hd Hn. pose proof (reachable_ok w Hr) as Hw.
  destruct w as [c1 c2].
  set (Inv := fun w => world_ok w /\ both_alive w
                       /\ aggressiveness (civ1 w) + aggressiveness (civ2 w) <= 4.8
                       /\ Rabs (aggressiveness (civ1 w) - aggressiveness (civ2 w)) <= 3).
  destruct (run_simulation_loop Inv
              (fun e => negb (conflict_event e) && no_starvation e)) with
    (c1 := c1) (c2 := c2) (num_turns := num_turns) (g := g)
    as (w' & g' & out & k & E & Hi' & Hgood & _ & Hh & _ & Hend);
    try reflexivity; try assumption.
  - intros w0 [H0 _]. exact H0.
  - intros w0 w1 (H0 & Hb0 & Hs0 & Hd0) E.
    destruct (internal_phase_fed w0 H0) as (w2 & E2 & H2 & F).
    assert (w2 = w1) as -> by congruence.
    destruct (F First) as (L1 & _ & _ & T1).
    destruct (F Second) as (L2 & _ & _ & T2).
    apply traits_aggressiveness in T1 as [A1 _].
    apply traits_aggressiveness in T2 as [A2 _].
    simpl in A1, A2, L1, L2. unfold Inv. rewrite A1, A2.
    repeat split; try assumption; try apply H2.
    + rewrite L1. apply Hb0.
    + rewrite L2. apply Hb0.
  - intros g0 w0 w1 g1 out1 (H0 & Hb0 & Hs0 & Hd0) _ Hg0 E.
    pose proof (interaction_phase_traits _ _ _ _ _ First E) as T1.
    pose proof (interaction_phase_traits _ _ _ _ _ Second E) as T2.
    apply traits_aggressiveness in T1 as [A1 _].
    apply traits_aggressiveness in T2 as [A2 _].
    simpl in A1, A2.
    pose proof (interaction_phase_world_ok _ _ _ _ _ H0 Hb0 E) as H1.
    destruct (interaction_phase_unfold g0 w0 H0) as (stronger & ratio & U).
    assert (aggressiveness (civ1 w0) <= aggressiveness (civ2 w0) + 3
            /\ aggressiveness (civ2 w0) <= aggressiveness (civ1 w0) + 3)
      as [H12 H21].
    { revert Hd0. unfold Rabs. destruct (Rcase_abs _); lra. }
    rewrite U, (conflict_check_calm g0 w0 stronger ratio Hg0 Hs0 H12 H21) in E.
    unfold uniform, random in E.
    match type of E with context [if ?b then _ else _] => destruct b end.
    + destruct (cooperate w0) as [w2 out2] eqn:Ec. injection E as <- _ <-.
      assert (w2 = fst (cooperate w0)) as -> by (rewrite Ec; reflexivity).
      assert (out2 = snd (cooperate w0)) as -> by (rewrite Ec; reflexivity).
      split; [| reflexivity].
      unfold Inv. rewrite A1, A2. repeat split; try assumption; try apply H1.
      * exact (proj1 Hb0).
      * exact (proj2 Hb0).
    + injection E as <- _ <-. split; [| reflexivity].
      unfold Inv. repeat split; try assumption; try apply H0; apply Hb0.
  - intros c. apply display_status_forallb; reflexivity.
  - unfold Inv. auto.
  - destruct (Hend Hn) as [pre [[-> Hdead] | (-> & Hb' & ->)]].
    + exfalso. apply Hdead. apply Hi'.
    + exists w', g', pre. split; [exact E |]. split; [exact Hb' |].
      rewrite turn_headers_app in Hh. simpl in Hh. rewrite app_nil_r in Hh.
      rewrite forallb_app in Hgood. apply andb_true_iff in Hgood as [Hgood _].
      split; assumption.
Qed.

(** Scenario A of the specification: no aggression at all, 50 turns. *)
Lemma calm_pair_survives_witness :
  let w := mkWorld (init "Aethel" 8 7 0 0) (init "Borog" 4 3 0 0) in
  exists w' g' pre,
    run_simulation (civ1 w) (civ2 w) 50 (mkRNG (fun _ => 0.5) 0)
    = Ok (w', g', pre ++ [EndedTurnLimit 50])
    /\ both_alive w'
    /\ turn_headers pre = turns_from 1 (Z.to_nat 50)
    /\ forallb (fun e => negb (conflict_event e) && no_starvation e) pre = true.
Proof.
  apply (calm_pair_survives
           (mkWorld (init "Aethel" 8 7 0 0) (init "Borog" 4 3 0 0)) 50
           (mkRNG (fun _ => 0.5) 0)).
  - apply reachable_init.
  - exact valid_rng_half.
  - split; reflexivity.
  - simpl. rewrite Rmax_left by lra. lra.
  - simpl. rewrite Rmax_left by lra.
    replace (0 - 0) with 0 by lra. rewrite Rabs_R0. lra.
  - lia.
Defined.

Lemma steps_dead w w' s :
  steps w w' -> world_ok w -> is_alive (get s w) = false ->
  world_ok w' /\ get s w' = get s w.
Proof.
  induction 1 as [w w' Hs | w | w w1 w2 _ IH1 _ IH2]; intros Hw Ha.
  - split; [exact (step_ok w w' Hw Hs) | exact (step_dead w w' s Hw Hs Ha)].
  - split; [exact Hw | reflexivity].
  - destruct (IH1 Hw Ha) as [Hw1 E1]. rewrite <- E1 in Ha.
    destruct (IH2 Hw1 Ha) as [Hw2 E2]. split; [exact Hw2 | congruence].
Qed.

(** X15. A run that is given a dead civilization ends in its first
    turn: from a reachable state with a side dead and for at least one
    turn, [run_simulation] performs the internal phase once, enters no
    interaction phase, draws nothing from the generator, returns the dead
    side as it was and ends with the report of an elimination. *)
Theorem run_with_a_dead_civilization
    (w : World) (s : side) (num_turns : Z) (g : RNG) :
  reachable w -> is_alive (get s w) = false -> (1 <= num_turns)%Z ->
  exists w' pre,
    run_simulation (civ1 w) (civ2 w) num_turns g
    = Ok (w', g, pre ++ [EndedEliminated])
    /\ internal_phase w = Ok (w', [])
    /\ get s w' = get s w
    /\ turn_headers pre = [1%Z]
    /\ quiet pre.
Proof.
  intros Hr Ha Hn. pose proof (reachable_ok w Hr) as Hw.
  destruct (internal_phase_fed w Hw) as (w1 & E1 & Hw1 & F).
  destruct (internal_phase_ok w Hw) as (w2 & out2 & E2 & _ & Hs & _).
  assert (w2 = w1) as -> by congruence.
  destruct (steps_dead w w1 s Hs Hw Ha) as [_ Hsame].
  assert (negb (is_alive (civ1 w1)) || negb (is_alive (civ2 w1)) = true) as Hd.
  { destruct (F s) as (Hal & _). rewrite Ha in Hal.
    destruct s; simpl in Hal; rewrite Hal; simpl; auto using orb_true_r. }
  destruct w as [c1 c2]. unfold run_simulation. simpl civ1. simpl civ2.
  destruct (Z.to_nat num_turns) as [| n] eqn:En; [lia |].
  simpl for_turns. unfold turn_body. rewrite E1. cbn [bind]. rewrite Hd.
  cbn [bind].
  exists w1.
  exists ((SimulationStart :: display_status c1 ++ display_status c2 ++ [Separator])
          ++ TurnHeader 1 :: display_status (civ1 w1) ++ display_status (civ2 w1)).
  split.
  { f_equal. f_equal. simpl. rewrite <- !app_assoc. simpl.
    rewrite <- !app_assoc. reflexivity. }
  split; [reflexivity |]. split; [exact Hsame |].
  split.
  - rewrite turn_headers_app. simpl.
    rewrite !turn_headers_app, !display_status_no_turn. reflexivity.
  - auto 10 with quiet.
Qed.

Lemma run_with_a_dead_civilization_witness :
  let w0 := mkWorld civilization1 civilization2 in
  let w := set First (fst (die (civ1 w0) "elimination")) w0 in
  let g := mkRNG (fun _ => 0.5) 0 in
  exists w' pre,
    run_simulation (civ1 w) (civ2 w) simulation_turns g
    = Ok (w', g, pre ++ [EndedEliminated])
    /\ internal_phase w = Ok (w', [])
    /\ get First w' = get First w
    /\ turn_headers pre = [1%Z]
    /\ quiet pre.
Proof.
  apply (run_with_a_dead_civilization
           (set First (fst (die civilization1 "elimination"))
              (mkWorld civilization1 civilization2))
           First simulation_turns).
  - apply reachable_step with (w := mkWorld civilization1 civilization2).
    + exact reachable_example.
    + apply (step_call First (Die "elimination") _ _
               [Eliminated "Aethel" "elimination"]).
      reflexivity.
  - reflexivity.
  - unfold simulation_turns. lia.
Defined.

(** ** The final summary *)

Lemma final_verdict_facts w :
  world_ok w ->
  exists v,
    final_verdict (civ1 w) (civ2 w) = Ok v
    /\ match v with
       | Dominant who =>
           both_alive w
           /\ exists s str str',
                calculate_strength (get s w) = Float str
                /\ calculate_strength (get (other s) w) = Float str'
                /\ str' < str /\ who = name (get s w)
       | RoughlyEqual =>
           both_alive w
           /\ calculate_strength (civ1 w) = calculate_strength (civ2 w)
       | SoleSurvivor who =>
           exists s, is_alive (get s w) = true
                     /\ is_alive (get (other s) w) = false
                     /\ who = name (get s w)
       | BothEliminated =>
           is_alive (civ1 w) = false /\ is_alive (civ2 w) = false
       end.
Proof.
  intros Hw. unfold final_verdict.
  destruct (is_alive (civ1 w)) eqn:A1; destruct (is_alive (civ2 w)) eqn:A2;
    simpl.
  - destruct (strength_of_ok _ (get_ok First w Hw)) as (s1 & E1 & _).
    destruct (strength_of_ok _ (get_ok Second w Hw)) as (s2 & E2 & _).
    simpl in E1, E2. rewrite E1, E2.
    destruct (Rltb_spec s2 s1); [| destruct (Rltb_spec s1 s2)];
      eexists; (split; [reflexivity |]); (split; [split; assumption |]).
    + exists First, s1, s2. simpl. auto.
    + exists Second, s2, s1. simpl. auto.
    + f_equal. lra.
  - eexists. split; [reflexivity |]. exists First. simpl. auto.
  - eexists. split; [reflexivity |]. exists Second. simpl. auto.
  - eexists. split; [reflexivity |]. simpl. auto.
Qed.

(** X16. The final summary raises nothing on a reachable state and
    tells the truth about it: it names a civilization dominant only when
    both are alive and that one is strictly stronger, it says "roughly
    equal" only when both are alive and their strengths are exactly equal,
    it names a sole survivor only when that one is alive and the other
    dead, and it reports that both are eliminated only when both are. *)
Theorem final_verdict_sound (w : World) :
  reachable w ->
  exists v,
    final_verdict (civ1 w) (civ2 w) = Ok v
    /\ match v with
       | Dominant who =>
           both_alive w
           /\ exists s str str',
                calculate_strength (get s w) = Float str
                /\ calculate_strength (get (other s) w) = Float str'
                /\ str' < str /\ who = name (get s w)
       | RoughlyEqual =>
           both_alive w
           /\ calculate_strength (civ1 w) = calculate_strength (civ2 w)
       | SoleSurvivor who =>
           exists s, is_alive (get s w) = true
                     /\ is_alive (get (other s) w) = false
                     /\ who = name (get s w)
       | BothEliminated =>
           is_alive (civ1 w) = false /\ is_alive (civ2 w) = false
       end.
Proof.
  intros Hr. exact (final_verdict_facts w (reachable_ok w Hr)).
Qed.

Lemma final_verdict_sound_witness :
  let w := mkWorld civilization1 civilization2 in
  exists v,
    final_verdict (civ1 w) (civ2 w) = Ok v
    /\ match v with
       | Dominant who =>
           both_alive w
           /\ exists s str str',
                calculate_strength (get s w) = Float str
                /\ calculate_strength (get (other s) w) = Float str'
                /\ str' < str /\ who = name (get s w)
       | RoughlyEqual =>
           both_alive w
           /\ calculate_strength (civ1 w) = calculate_strength (civ2 w)
       | SoleSurvivor who =>
           exists s, is_alive (get s w) = true
                     /\ is_alive (get (other s) w) = false
                     /\ who = name (get s w)
       | BothEliminated =>
           is_alive (civ1 w) = false /\ is_alive (civ2 w) = false
       end.
Proof.
  exact (final_verdict_sound _ reachable_example).
Defined.

(** X17. The script runs to its end for every sequence of draws: it
    raises no error, performs at most 100 turns, never prints a
    cooperation or a turn without interaction (the two example
    civilizations have a combined aggressiveness of 11), prints the final
    state after the log of the simulation, and ends with a verdict that
    agrees with the final state. *)
Theorem main_runs_to_a_verdict (g : RNG) :
  valid_rng g ->
  exists w g' out v,
    main g
    = Ok (w, g',
          map Printed out
          ++ FinalState
             :: map Printed (display_status (civ1 w) ++ display_status (civ2 w))
          ++ [Summary v])
    /\ run_simulation civilization1 civilization2 simulation_turns g
       = Ok (w, g', out)
    /\ final_verdict (civ1 w) (civ2 w) = Ok v
    /\ reachable w
    /\ (length (turn_headers out) <= 100)%nat
    /\ forallb (fun e => negb (is_peaceful e)) out = true.
Proof.
  intros Hg. unfold main.
  assert (world_ok (mkWorld civilization1 civilization2)) as Hw
    by exact (reachable_ok _ reachable_example).
  set (Inv := fun w => reachable w
                       /\ 7.2 <= aggressiveness (civ1 w) + aggressiveness (civ2 w)).
  destruct (run_simulation_loop Inv (fun e => negb (is_peaceful e))) with
    (c1 := civilization1) (c2 := civilization2)
    (num_turns := simulation_turns) (g := g)
    as (w' & g' & out & k & E & [Hr' _] & Hgood & Hk & Hh & _);
    try reflexivity; try assumption.
  - intros w0 [H0 _]. exact (reachable_ok w0 H0).
  - intros w0 w1 [H0 Hs0] E.
    destruct (internal_phase_fed w0 (reachable_ok w0 H0)) as (w2 & E2 & _ & F).
    destruct (internal_phase_ok w0 (reachable_ok w0 H0))
      as (w3 & out3 & E3 & _ & Hs & _).
    assert (w2 = w1) as -> by congruence.
    assert (w3 = w1) as -> by congruence.
    split; [exact (steps_reachable _ _ Hs H0) |].
    destruct (F First) as (_ & _ & _ & T1). destruct (F Second) as (_ & _ & _ & T2).
    apply traits_aggressiveness in T1 as [A1 _].
    apply traits_aggressiveness in T2 as [A2 _].
    simpl in A1, A2. rewrite A1, A2. exact Hs0.
  - intros g0 w0 w1 g1 out1 [H0 Hs0] Hb Hg0 E.
    pose proof (reachable_ok w0 H0) as Hw0.
    pose proof (interaction_phase_traits _ _ _ _ _ First E) as T1.
    pose proof (interaction_phase_traits _ _ _ _ _ Second E) as T2.
    apply traits_aggressiveness in T1 as [A1 _].
    apply traits_aggressiveness in T2 as [A2 _].
    simpl in A1, A2.
    split; [split; [exact (reachable_step _ _ H0
                             (step_interaction _ _ _ _ _ Hb Hg0 E)) |
                    rewrite A1, A2; exact Hs0] |].
    destruct (interaction_phase_unfold g0 w0 Hw0) as (stronger & ratio & U).
    rewrite U, (conflict_check_forced g0 w0 stronger ratio Hg0 Hs0) in E.
    apply conflict_log_events in E as [E _].
    apply (forallb_impl conflict_event); [| exact E].
    intros e. destruct e; simpl; intros He; try discriminate He; reflexivity.
  - intros c. apply display_status_forallb; reflexivity.
  - split; [exact reachable_example |].
    simpl. rewrite (Rmax_right 0 2), (Rmax_right 0 9) by lra. lra.
  - rewrite E. cbn [bind].
    destruct (final_verdict_facts w' (reachable_ok w' Hr')) as (v & Ev & _).
    rewrite Ev. cbn [bind].
    exists w', g', out, v. split; [reflexivity |]. split; [reflexivity |].
    split; [exact Ev |]. split; [exact Hr' |]. split; [| exact Hgood].
    rewrite Hh. clear - Hk.
    assert (forall first n, length (turns_from first n) = n) as Hlen.
    { intros first n. revert first. induction n; intros; simpl; auto. }
    rewrite Hlen. unfold simulation_turns in Hk. lia.
Qed.

Lemma main_runs_to_a_verdict_witness :
  let g := mkRNG (fun _ => 0.5) 0 in
  exists w g' out v,
    main g
    = Ok (w, g',
          map Printed out
          ++ FinalState
             :: map Printed (display_status (civ1 w) ++ display_status (civ2 w))
          ++ [Summary v])
    /\ run_simulation civilization1 civilization2 simulation_turns g
       = Ok (w, g', out)
    /\ final_verdict (civ1 w) (civ2 w) = Ok v
    /\ reachable w
    /\ (length (turn_headers out) <= 100)%nat
    /\ forallb (fun e => negb (is_peaceful e)) out = true.
Proof.
  exact (main_runs_to_a_verdict _ valid_rng_half).
Defined.
